(** * Endpoint-health scheduler: a shallow embedding of the Go backend

  The development follows the layout of the repository:
  - [Int64], [Float64]   Go's 64-bit integers (with wrap-around) and
                         IEEE-754 binary64 numbers;
  - [models]             models/metric.go and models/monitor.go;
  - [channel]            buffered channels and goroutine progress;
  - [database]           the document store behind database/mongo.go;
  - [websocket_service]  services/websocket_service.go, the broadcast hub;
  - [monitor_service]    services/monitor_service.go: CRUD, the probe
                         executor, the result sink, the job registry and
                         the scheduler loop;
  - [handlers]           handlers/api_handlers.go;
  - [spec]               the vocabulary the statements are written in.
  The properties follow the definitions. *)

From Stdlib Require Import ZArith Lia Bool Ascii String List SpecFloat.
From stdpp Require Import base decidable option list strings gmap sorting.

Local Open Scope Z_scope.

(* ===================================================================== *)
(** ** Go numerics *)
(* ===================================================================== *)

Module Int64.

(** Go's [int] is 64 bits wide on every platform the backend is built
    for; [int64] and [time.Duration] are 64 bits by definition. *)
Definition min_int : Z := - 2 ^ 63.
Definition max_int : Z := 2 ^ 63 - 1.

(** Two's complement wrap-around of an unbounded result. *)
Definition wrap (z : Z) : Z := (z + 2 ^ 63) mod 2 ^ 64 - 2 ^ 63.

Definition add (a b : Z) : Z := wrap (a + b).
Definition mul (a b : Z) : Z := wrap (a * b).

Definition in_range (z : Z) : Prop := min_int <= z <= max_int.

End Int64.

Module Float64.

(** binary64: 53 bits of precision, exponents below 1024. *)
Definition prec : Z := 53.
Definition emax : Z := 1024.

Definition float64 := spec_float.

(** [float64(n)] for an integer [n]: round to nearest, ties to even. *)
Definition of_int (n : Z) : float64 := binary_normalize prec emax n 0 false.

Definition div (x y : float64) : float64 := SFdiv prec emax x y.
Definition mul (x y : float64) : float64 := SFmul prec emax x y.

(** The constants the backend writes as literals. *)
Definition zero : float64 := S754_zero false.
Definition hundred : float64 := of_int 100.
Definition eighty : float64 := of_int 80.

End Float64.

(* ===================================================================== *)
(** ** models/metric.go, models/monitor.go *)
(* ===================================================================== *)

Module models.

(** [primitive.ObjectID]: twelve opaque bytes, rendered by [Hex] as
    twenty-four hexadecimal digits.  Only equality and [Hex] are used
    by the backend, so the hexadecimal rendering is the identity. *)
Definition ObjectID := string.
Definition Hex (id : ObjectID) : string := id.

(** [time.Time] as an instant in nanoseconds since the epoch, and
    [time.Duration] as a 64-bit count of nanoseconds.  The store keeps
    the instants it is given. *)
Definition Time := Z.
Definition Second : Z := 1000000000.
Definition Hour : Z := 3600 * Second.

Record Metric := mkMetric {
  MonitorID    : ObjectID;
  URL          : string;
  Status       : string;      (* up, down *)
  StatusCode   : Z;           (* HTTP status code *)
  ResponseTime : Z;           (* milliseconds *)
  Error        : string;
  CheckedAt    : Time
}.

Record Monitor := mkMonitor {
  ID                : ObjectID;
  Name              : string;
  MURL              : string;
  Method            : string;
  Interval          : Z;      (* seconds *)
  Timeout           : Z;      (* seconds *)
  IsActive          : bool;
  LastChecked       : option Time;
  UpdatedAt         : Time;
  CurrentStatus     : string; (* up, down, unknown *)
  CurrentStatusCode : Z;
  CurrentResponse   : Z;
  UptimePercentage  : Float64.float64
}.

(** [MonitorUpdate], the payload of a [metric_update] frame. *)
Record MonitorUpdate := mkMonitorUpdate {
  UMonitorID        : string;
  UStatus           : string;
  UStatusCode       : Z;
  UResponseTime     : Z;
  UURL              : string;
  UError            : string;
  UTimestamp        : Time;
  UUptimePercentage : Float64.float64
}.

(** [WebSocketMessage.Data] is an [interface{}]; the backend puts one
    of three shapes in it. *)
Inductive MessageData :=
| DataUpdate (u : MonitorUpdate)
| DataStrings (kv : list (string * string))
| DataPong (timestamp : Time) (client_id : string).

Record WebSocketMessage := mkMessage {
  Type_      : string;  (* Type *)
  Data       : MessageData;
  MsgMonitor : string
}.

(** [CreateMonitorRequest] with its defaults. *)
Record CreateMonitorRequest := mkRequest {
  ReqName     : string;
  ReqURL      : string;
  ReqMethod   : string;
  ReqInterval : Z;
  ReqTimeout  : Z
}.

Definition Validate (req : CreateMonitorRequest) : CreateMonitorRequest :=
  {| ReqName := ReqName req;
     ReqURL := ReqURL req;
     ReqMethod := if String.eqb (ReqMethod req) "" then "GET" else ReqMethod req;
     ReqInterval := if ReqInterval req =? 0 then 30 else ReqInterval req;
     ReqTimeout := if ReqTimeout req =? 0 then 10 else ReqTimeout req |}.

Definition ToMonitor (req : CreateMonitorRequest) (now : Time) : Monitor :=
  let req := Validate req in
  {| ID := "";
     Name := ReqName req;
     MURL := ReqURL req;
     Method := ReqMethod req;
     Interval := ReqInterval req;
     Timeout := ReqTimeout req;
     IsActive := true;
     LastChecked := None;
     UpdatedAt := now;
     CurrentStatus := "unknown";
     CurrentStatusCode := 0;
     CurrentResponse := 0;
     UptimePercentage := Float64.hundred |}.

End models.

Import models.

(* ===================================================================== *)
(** ** Go channels and goroutine progress *)
(* ===================================================================== *)

Module channel.

Section Chan.
Context {A : Type}.

(** A buffered channel: the queued values (oldest first), the capacity
    given to [make], and whether [close] has been called. *)
Record Chan := mkChan {
  buf    : list A;
  cap    : nat;
  closed : bool
}.

Definition make (n : nat) : Chan := {| buf := []; cap := n; closed := false |}.

Definition full (c : Chan) : bool := (cap c <=? length (buf c))%nat.

(** What one attempt to send does right now. *)
Inductive SendResult :=
| Sent (c : Chan)      (* the value went into the buffer *)
| WouldBlock           (* the buffer is full: the send is not ready *)
| SendOnClosed.        (* run-time panic: send on closed channel *)

Definition send_now (c : Chan) (x : A) : SendResult :=
  if closed c then SendOnClosed
  else if full c then WouldBlock
  else Sent {| buf := buf c ++ [x]; cap := cap c; closed := closed c |}.

(** [close(c)]; closing a closed channel panics ([None]). *)
Definition close (c : Chan) : option Chan :=
  if closed c then None
  else Some {| buf := buf c; cap := cap c; closed := true |}.

End Chan.

Arguments Chan : clear implicits.
Arguments SendResult : clear implicits.

(** How far a goroutine gets in a piece of straight-line code.  [Parks]
    is a goroutine suspended at a channel operation that is not ready;
    it carries the state reached so far. *)
Inductive Run (S : Type) :=
| Returns (s : S)
| Parks (s : S)
| Panics.
Arguments Returns {S} s.
Arguments Parks {S} s.
Arguments Panics {S}.

Definition reached {S : Type} (r : Run S) : option S :=
  match r with
  | Returns s | Parks s => Some s
  | Panics => None
  end.

End channel.

Import channel.

(* ===================================================================== *)
(** ** database/mongo.go: the storage collaborator *)
(* ===================================================================== *)

Module database.

(** Go's [error] values are told apart by their text only. *)
Definition error := string.

Inductive Result (A : Type) :=
| Ok (a : A)
| Err (e : error).
Arguments Ok {A} a.
Arguments Err {A} e.

(** The two collections, in insertion order.  [fault] is set while the
    store cannot be reached: every call then returns that error. *)
Record MongoDB := mkDB {
  monitors : list Monitor;
  metrics  : list Metric;
  fault    : option error
}.

Definition with_monitors (db : MongoDB) (ms : list Monitor) : MongoDB :=
  {| monitors := ms; metrics := metrics db; fault := fault db |}.

Definition with_metrics (db : MongoDB) (ms : list Metric) : MongoDB :=
  {| monitors := monitors db; metrics := ms; fault := fault db |}.

(** [CountDocuments] on the monitors collection with filter [{url: u}]. *)
Definition CountByURL (db : MongoDB) (u : string) : Result Z :=
  match fault db with
  | Some e => Err e
  | None => Ok (Z.of_nat (length (filter (fun m => MURL m = u) (monitors db))))
  end.

Definition set_ID (m : Monitor) (id : ObjectID) : Monitor :=
  {| ID := id; Name := Name m; MURL := MURL m; Method := Method m;
     Interval := Interval m; Timeout := Timeout m; IsActive := IsActive m;
     LastChecked := LastChecked m; UpdatedAt := UpdatedAt m;
     CurrentStatus := CurrentStatus m;
     CurrentStatusCode := CurrentStatusCode m;
     CurrentResponse := CurrentResponse m;
     UptimePercentage := UptimePercentage m |}.

(** [InsertOne] on the monitors collection.  The [_id] is omitted when
    empty, so the driver generates [newID]; the unique index on [url]
    rejects a second document with the same URL. *)
Definition InsertMonitor (db : MongoDB) (m : Monitor) (newID : ObjectID)
  : Result (MongoDB * ObjectID) :=
  match fault db with
  | Some e => Err e
  | None =>
      if bool_decide (Exists (fun m' => MURL m' = MURL m) (monitors db))
      then Err "E11000 duplicate key error"
      else Ok (with_monitors db (monitors db ++ [set_ID m newID]), newID)
  end.

(** Remove the first element that satisfies [p]; the count removed. *)
Fixpoint remove_first {A} (p : A -> bool) (l : list A) : list A * Z :=
  match l with
  | [] => ([], 0)
  | x :: l' =>
      if p x then (l', 1)
      else let '(r, n) := remove_first p l' in (x :: r, n)
  end.

(** [DeleteOne] on the monitors collection with filter [{_id: id}];
    the result is [DeletedCount]. *)
Definition DeleteMonitorByID (db : MongoDB) (id : ObjectID) : Result (MongoDB * Z) :=
  match fault db with
  | Some e => Err e
  | None =>
      let '(r, n) := remove_first (fun m => bool_decide (ID m = id)) (monitors db) in
      Ok (with_monitors db r, n)
  end.

(** [InsertOne] on the metrics collection. *)
Definition InsertMetric (db : MongoDB) (m : Metric) : Result MongoDB :=
  match fault db with
  | Some e => Err e
  | None => Ok (with_metrics db (metrics db ++ [m]))
  end.

(** The order [{checked_at: -1}]: newest first. *)
Definition newer_first (a b : Metric) : Prop := CheckedAt b <= CheckedAt a.

#[export] Instance newer_first_dec a b : Decision (newer_first a b).
Proof. unfold newer_first. apply _. Defined.

(** The filter [{monitor_id: id, checked_at: {$gte: start}}]. *)
Definition in_window (id : ObjectID) (start : Time) (m : Metric) : bool :=
  bool_decide (MonitorID m = id) && (start <=? CheckedAt m).

Definition apply_limit {A} (limit : option nat) (l : list A) : list A :=
  match limit with
  | Some n => take n l
  | None => l
  end.

(** [Find] on the metrics collection with that filter and the options
    [SetSort({checked_at: -1})] and [SetLimit(n)], each optional.
    Without a sort the documents come in insertion order. *)
Definition FindMetrics (db : MongoDB) (id : ObjectID) (start : Time)
    (sorted : bool) (limit : option nat) : Result (list Metric) :=
  match fault db with
  | Some e => Err e
  | None =>
      let rows := filter (fun m => in_window id start m = true) (metrics db) in
      let rows := if sorted then merge_sort newer_first rows else rows in
      Ok (apply_limit limit rows)
  end.

Definition set_status (m : Monitor) (status : string) (code rt : Z)
    (lastChecked now : Time) : Monitor :=
  {| ID := ID m; Name := Name m; MURL := MURL m; Method := Method m;
     Interval := Interval m; Timeout := Timeout m; IsActive := IsActive m;
     LastChecked := Some lastChecked; UpdatedAt := now;
     CurrentStatus := status;
     CurrentStatusCode := code;
     CurrentResponse := rt;
     UptimePercentage := UptimePercentage m |}.

Fixpoint update_first {A} (p : A -> bool) (f : A -> A) (l : list A) : list A :=
  match l with
  | [] => []
  | x :: l' => if p x then f x :: l' else x :: update_first p f l'
  end.

(** [UpdateOne] on the monitors collection with filter [{_id: id}] and
    the [$set] patch of [updateMonitorStatus]. *)
Definition UpdateStatusByID (db : MongoDB) (id : ObjectID) (status : string)
    (code rt : Z) (lastChecked now : Time) : Result MongoDB :=
  match fault db with
  | Some e => Err e
  | None =>
      Ok (with_monitors db
            (update_first (fun m => bool_decide (ID m = id))
               (fun m => set_status m status code rt lastChecked now)
               (monitors db)))
  end.

End database.

Import database.

(* ===================================================================== *)
(** ** services/websocket_service.go: the broadcast hub *)
(* ===================================================================== *)

Module websocket_service.

(** A [*WebSocketClient] is an address; [objects] below holds what the
    addresses point to. *)
Definition ptr := nat.

Record WebSocketClient := mkClient {
  ConnOpen : bool;                    (* Conn, until Conn.Close() *)
  Send     : Chan WebSocketMessage;   (* buffered outbound messages *)
  ClientID : string
}.

Record WebSocketHub := mkHub {
  Clients   : gmap ptr bool;               (* connected clients *)
  Broadcast : Chan WebSocketMessage;       (* inbound messages *)
  objects   : gmap ptr WebSocketClient
}.

Definition NewWebSocketHub : WebSocketHub :=
  {| Clients := ∅; Broadcast := make 256; objects := ∅ |}.

Definition NewWebSocketClient (clientID : string) : WebSocketClient :=
  {| ConnOpen := true; Send := make 256; ClientID := clientID |}.

Definition with_Send (c : WebSocketClient) (ch : Chan WebSocketMessage) : WebSocketClient :=
  {| ConnOpen := ConnOpen c; Send := ch; ClientID := ClientID c |}.

Definition close_Conn (c : WebSocketClient) : WebSocketClient :=
  {| ConnOpen := false; Send := Send c; ClientID := ClientID c |}.

Definition store (h : WebSocketHub) (p : ptr) (c : WebSocketClient) : WebSocketHub :=
  {| Clients := Clients h; Broadcast := Broadcast h; objects := <[p := c]> (objects h) |}.

Definition forget (h : WebSocketHub) (p : ptr) : WebSocketHub :=
  {| Clients := delete p (Clients h); Broadcast := Broadcast h; objects := objects h |}.

(** [unregisterClient]: if the client is registered, delete it, close
    its [Send] queue and its connection.  [None] is a run-time panic. *)
Definition unregisterClient (h : WebSocketHub) (client : ptr) : option WebSocketHub :=
  match Clients h !! client with
  | Some _ =>
      c ← objects h !! client;
      ch ← close (Send c);
      Some (store (forget h client) client (close_Conn (with_Send c ch)))
  | None => Some h
  end.

(** The [Unregister] case of [Run]: as above, but the connection is
    left to the read pump. *)
Definition Run_unregister (h : WebSocketHub) (client : ptr) : option WebSocketHub :=
  match Clients h !! client with
  | Some _ =>
      c ← objects h !! client;
      ch ← close (Send c);
      Some (store (forget h client) client (with_Send c ch))
  | None => Some h
  end.

(** One iteration of [for client := range h.Clients] in the broadcast
    case: a non-blocking send, and eviction on the [default] branch. *)
Definition offer (h : WebSocketHub) (client : ptr) (message : WebSocketMessage)
  : option WebSocketHub :=
  c ← objects h !! client;
  match send_now (Send c) message with
  | Sent ch => Some (store h client (with_Send c ch))
  | WouldBlock => unregisterClient h client
  | SendOnClosed => None
  end.

(** The [range] loop.  Go visits the keys in an unspecified [order] and
    skips an entry that was deleted before it was reached. *)
Fixpoint range_Clients (order : list ptr) (message : WebSocketMessage)
    (h : WebSocketHub) : option WebSocketHub :=
  match order with
  | [] => Some h
  | client :: rest =>
      match Clients h !! client with
      | Some _ => h' ← offer h client message; range_Clients rest message h'
      | None => range_Clients rest message h
      end
  end.

(** The [Broadcast] case of [Run] for one received message. *)
Definition Run_broadcast (h : WebSocketHub) (message : WebSocketMessage)
    (order : list ptr) : option WebSocketHub :=
  range_Clients order message h.

Definition welcome : WebSocketMessage :=
  {| Type_ := "connection_established";
     Data := DataStrings [("status", "connected");
                          ("message", "Real-time monitoring connected")];
     MsgMonitor := "" |}.

(** The [Register] case of [Run]. *)
Definition Run_register (h : WebSocketHub) (client : ptr) : option WebSocketHub :=
  let h := {| Clients := <[client := true]> (Clients h);
              Broadcast := Broadcast h; objects := objects h |} in
  offer h client welcome.

Definition with_Broadcast (h : WebSocketHub) (ch : Chan WebSocketMessage) : WebSocketHub :=
  {| Clients := Clients h; Broadcast := ch; objects := objects h |}.

(** [BroadcastToAll]: a [select] with a [default] branch, so a full
    queue drops the message (and logs a warning). *)
Definition BroadcastToAll (h : WebSocketHub) (messageType : string)
    (data : MessageData) : Run (WebSocketHub * bool) :=
  let message := {| Type_ := messageType; Data := data; MsgMonitor := "" |} in
  match send_now (Broadcast h) message with
  | Sent ch => Returns (with_Broadcast h ch, false)
  | WouldBlock => Returns (h, true)      (* warning logged, message dropped *)
  | SendOnClosed => Panics
  end.

(** The order of a [range] over the map: every key once. *)
Definition enumerates (order : list ptr) (h : WebSocketHub) : Prop :=
  NoDup order ∧ ∀ p, p ∈ order ↔ is_Some (Clients h !! p).

(** Registered clients point to live objects with an open queue. *)
Definition hub_wf (h : WebSocketHub) : Prop :=
  ∀ p, is_Some (Clients h !! p) →
       ∃ c, objects h !! p = Some c ∧ closed (Send c) = false.

(** [GetClientCount]: the number of connected clients. *)
Definition GetClientCount (h : WebSocketHub) : Z := Z.of_nat (size (Clients h)).

(** [message := <-h.Broadcast]: the oldest queued message, if there is
    one.  The code never closes [Broadcast]; an empty queue means the
    case is not ready. *)
Definition receive (h : WebSocketHub) : option (WebSocketMessage * WebSocketHub) :=
  match buf (Broadcast h) with
  | [] => None
  | message :: rest =>
      Some (message,
            with_Broadcast h {| buf := rest; cap := cap (Broadcast h);
                                closed := closed (Broadcast h) |})
  end.

(** [Run] taking the [Broadcast] case again and again, at most [n]
    times, until the queue is empty.  [pick] is the order in which each
    [range] visits the map. *)
Fixpoint Run_drain (pick : WebSocketHub → list ptr) (n : nat) (h : WebSocketHub)
  : option WebSocketHub :=
  match n with
  | O => Some h
  | S n' =>
      match receive h with
      | None => Some h
      | Some (message, h1) =>
          h2 ← Run_broadcast h1 message (pick h1); Run_drain pick n' h2
      end
  end.

(** [handleClientMessage]: a ping is answered with a pong through a
    non-blocking send; a subscription and anything else are only
    logged.  [None] is a run-time panic. *)
Definition pong (c : WebSocketClient) (now : Time) : WebSocketMessage :=
  {| Type_ := "pong"; Data := DataPong now (ClientID c); MsgMonitor := "" |}.

Definition handleClientMessage (c : WebSocketClient) (message : WebSocketMessage)
    (now : Time) : option WebSocketClient :=
  if String.eqb (Type_ message) "ping" then
    match send_now (Send c) (pong c now) with
    | Sent ch => Some (with_Send c ch)
    | WouldBlock => Some c
    | SendOnClosed => None
    end
  else if String.eqb (Type_ message) "subscribe_monitor" then Some c
  else Some c.

(** What [WritePump] finds when its [select] wakes up, and what the
    connection says to the write that follows. *)
Inductive PumpWakeup :=
| Received (message : WebSocketMessage) (write_ok : bool)  (* message, ok := <-c.Send *)
| QueueClosed                                              (* !ok *)
| Idle (write_ok : bool).                                  (* time.After(60s) *)

Inductive Frame :=
| JSONFrame (message : WebSocketMessage)
| PingFrame
| CloseFrame.

(** [WritePump]: the frames handed to the connection, in order, and
    whether the pump has returned (closing the connection on its way
    out).  A frame whose write fails is still handed over. *)
Fixpoint WritePump (wakeups : list PumpWakeup) : list Frame * bool :=
  match wakeups with
  | [] => ([], false)
  | Received message write_ok :: rest =>
      if write_ok
      then let '(frames, returned) := WritePump rest in (JSONFrame message :: frames, returned)
      else ([JSONFrame message], true)
  | QueueClosed :: _ => ([CloseFrame], true)
  | Idle write_ok :: rest =>
      if write_ok
      then let '(frames, returned) := WritePump rest in (PingFrame :: frames, returned)
      else ([PingFrame], true)
  end.

End websocket_service.

Import websocket_service.

(* ===================================================================== *)
(** ** services/monitor_service.go *)
(* ===================================================================== *)

Module monitor_service.

(** A goroutine started by [startMonitorJob]: the monitor it probes and
    the address of the stop channel its [select] waits on. *)
Record Job := mkJob {
  job_monitor : string;
  job_stop    : nat
}.

Record MonitorService := mkService {
  db         : MongoDB;
  activeJobs : gmap string nat;      (* monitor id -> stop channel *)
  semaphore  : Chan unit;
  (* the memory behind the addresses, and the goroutines in flight *)
  stopChans  : list (Chan bool);
  goroutines : list Job
}.

Definition NewMonitorService (d : MongoDB) (maxConcurrent : nat) : MonitorService :=
  {| db := d; activeJobs := ∅; semaphore := make maxConcurrent;
     stopChans := []; goroutines := [] |}.

Definition with_db (ms : MonitorService) (d : MongoDB) : MonitorService :=
  {| db := d; activeJobs := activeJobs ms; semaphore := semaphore ms;
     stopChans := stopChans ms; goroutines := goroutines ms |}.

Definition with_semaphore (ms : MonitorService) (s : Chan unit) : MonitorService :=
  {| db := db ms; activeJobs := activeJobs ms; semaphore := s;
     stopChans := stopChans ms; goroutines := goroutines ms |}.

Definition with_jobs (ms : MonitorService) (jobs : gmap string nat)
    (chans : list (Chan bool)) (gs : list Job) : MonitorService :=
  {| db := db ms; activeJobs := jobs; semaphore := semaphore ms;
     stopChans := chans; goroutines := gs |}.

(** *** CRUD on monitors *)

Definition duplicate_url_error (url : string) : error :=
  "monitor with URL " +:+ url +:+ " already exists".

Definition not_found_error : error := "monitor not found".

(** [CreateMonitor]: the monitor (with its new [ID] on success) and the
    error, [None] for [nil]. *)
Definition CreateMonitor (ms : MonitorService) (monitor : Monitor) (newID : ObjectID)
  : MonitorService * Monitor * option error :=
  (* Check if URL already exists *)
  match CountByURL (db ms) (MURL monitor) with
  | Err e => (ms, monitor, Some e)
  | Ok count =>
      if 0 <? count then (ms, monitor, Some (duplicate_url_error (MURL monitor)))
      else
        (* Insert the monitor *)
        match InsertMonitor (db ms) monitor newID with
        | Err e => (ms, monitor, Some e)
        | Ok (d, insertedID) => (with_db ms d, set_ID monitor insertedID, None)
        end
  end.

Definition GetMonitors (ms : MonitorService) : Result (list Monitor) :=
  match fault (db ms) with
  | Some e => Err e
  | None => Ok (monitors (db ms))
  end.

(** [stopMonitorJob]: under the mutex, close and delete the stop
    channel if there is one.  [None] is a run-time panic. *)
Definition stopMonitorJob (ms : MonitorService) (monitorID : string)
  : option MonitorService :=
  match activeJobs ms !! monitorID with
  | Some stopChan =>
      ch ← stopChans ms !! stopChan;
      ch' ← close ch;
      Some (with_jobs ms (delete monitorID (activeJobs ms))
              (<[stopChan := ch']> (stopChans ms)) (goroutines ms))
  | None => Some ms
  end.

(** [DeleteMonitor]: stop the job first, then delete from the store. *)
Definition DeleteMonitor (ms : MonitorService) (id : ObjectID)
  : option (MonitorService * option error) :=
  ms ← stopMonitorJob ms (Hex id);
  match DeleteMonitorByID (db ms) id with
  | Err e => Some (ms, Some e)
  | Ok (d, deletedCount) =>
      if deletedCount =? 0 then Some (with_db ms d, Some not_found_error)
      else Some (with_db ms d, None)
  end.

(** [time.Duration(hours) * time.Hour] is a product of 64-bit integers. *)
Definition hours_ago (now : Time) (hours : Z) : Time :=
  now + Int64.mul (- hours) Hour.

(** [GetMetrics]: the last [hours] hours of one monitor, newest first,
    at most 1000 records. *)
Definition GetMetrics (ms : MonitorService) (monitorID : ObjectID) (hours : Z)
    (now : Time) : Result (list Metric) :=
  let startTime := hours_ago now hours in
  FindMetrics (db ms) monitorID startTime true (Some 1000%nat).

(** *** The result sink *)

(** The cursor loop of [calculateUptimePercentage].  Every document of
    the metrics collection was written by [recordMetric], so each one
    decodes. *)
Fixpoint count_samples (rows : list Metric) (total down : Z) : Z * Z :=
  match rows with
  | [] => (total, down)
  | metric :: rest =>
      let total := total + 1 in
      let down := if String.eqb (Status metric) "down" then down + 1 else down in
      count_samples rest total down
  end.

Definition calculateUptimePercentage (ms : MonitorService) (monitorID : ObjectID)
    (now : Time) : Float64.float64 :=
  let startTime := now + (-24) * Hour in
  match FindMetrics (db ms) monitorID startTime false None with
  | Err _ => Float64.hundred   (* fail-open: assume 100% uptime if query fails *)
  | Ok rows =>
      let '(total, down) := count_samples rows 0 0 in
      if total =? 0 then Float64.hundred
      else Float64.mul (Float64.div (Float64.of_int (total - down))
                                    (Float64.of_int total))
                       Float64.hundred
  end.

(** [updateMonitorStatus]: an error is logged and swallowed. *)
Definition updateMonitorStatus (ms : MonitorService) (monitorID : ObjectID)
    (status : string) (statusCode responseTime : Z) (lastChecked now : Time)
  : MonitorService :=
  match UpdateStatusByID (db ms) monitorID status statusCode responseTime lastChecked now with
  | Err _ => ms
  | Ok d => with_db ms d
  end.

(** [recordMetric].  The clock readings within one call are taken to be
    the same instant [now].  The last statement that matters is the
    plain send [wsHub.Broadcast <- ...], which parks the goroutine
    while the queue is full. *)
Definition recordMetric (ms : MonitorService) (wsHub : WebSocketHub)
    (monitor : Monitor) (status : string) (statusCode responseTime : Z)
    (errorMsg : string) (now : Time) : Run (MonitorService * WebSocketHub) :=
  let metric := {| MonitorID := ID monitor; URL := MURL monitor;
                   Status := status; StatusCode := statusCode;
                   ResponseTime := responseTime; Error := errorMsg;
                   CheckedAt := now |} in
  (* Save to database *)
  let ms := match InsertMetric (db ms) metric with
            | Err _ => ms
            | Ok d => with_db ms d
            end in
  (* Update monitor's current status *)
  let ms := updateMonitorStatus ms (ID monitor) status statusCode responseTime now now in
  (* Calculate uptime percentage *)
  let uptimePercentage := calculateUptimePercentage ms (ID monitor) now in
  (* Broadcast via WebSocket *)
  let update := {| UMonitorID := Hex (ID monitor); UStatus := status;
                   UStatusCode := statusCode; UResponseTime := responseTime;
                   UURL := MURL monitor; UError := errorMsg;
                   UTimestamp := now;
                   UUptimePercentage := uptimePercentage |} in
  let message := {| Type_ := "metric_update"; Data := DataUpdate update;
                    MsgMonitor := Hex (ID monitor) |} in
  match send_now (Broadcast wsHub) message with
  | Sent ch => Returns (ms, with_Broadcast wsHub ch)
  | WouldBlock => Parks (ms, wsHub)
  | SendOnClosed => Panics
  end.

(** *** The probe executor *)

(** What the network did with one request. *)
Inductive ProbeOutcome :=
| RequestError (err : string)                      (* http.NewRequest failed *)
| TransportError (err : string) (responseTime : Z) (* httpClient.Do failed *)
| Response (statusCode : Z) (responseTime : Z).    (* a completed exchange *)

(** [<-ms.semaphore], the deferred release of the slot. *)
Definition release (ms : MonitorService) : MonitorService :=
  with_semaphore ms {| buf := tail (buf (semaphore ms));
                       cap := cap (semaphore ms);
                       closed := closed (semaphore ms) |}.

Definition checkEndpoint (ms : MonitorService) (wsHub : WebSocketHub)
    (monitor : Monitor) (outcome : ProbeOutcome) (now : Time)
  : Run (MonitorService * WebSocketHub) :=
  match send_now (semaphore ms) tt with
  | SendOnClosed => Panics
  | WouldBlock => Parks (ms, wsHub)
  | Sent sem =>
      let ms := with_semaphore ms sem in
      let r :=
        match outcome with
        | RequestError err =>
            recordMetric ms wsHub monitor "down" 0 0 err now
        | TransportError err responseTime =>
            recordMetric ms wsHub monitor "down" 0 responseTime err now
        | Response statusCode responseTime =>
            (* Determine status based on HTTP status code *)
            let status := if 400 <=? statusCode then "down" else "up" in
            recordMetric ms wsHub monitor status statusCode responseTime "" now
        end in
      match r with
      | Returns (ms, wsHub) => Returns (release ms, wsHub)
      | Parks st => Parks st
      | Panics => Panics
      end
  end.

(** *** The job registry and the scheduler loop *)

(** [startMonitorJob], the part under [jobsMutex] followed by the [go]
    statement: close the stop channel of a job that is running, make a
    new stop channel, install it, and start the goroutine that waits on
    it.  [None] is a run-time panic. *)
Definition startMonitorJob (ms : MonitorService) (monitor : Monitor)
  : option MonitorService :=
  let monitorID := Hex (ID monitor) in
  (* Stop existing job if running *)
  chans ← match activeJobs ms !! monitorID with
          | Some stopChan =>
              ch ← stopChans ms !! stopChan;
              ch' ← close ch;
              Some (<[stopChan := ch']> (stopChans ms))
          | None => Some (stopChans ms)
          end;
  (* Create new stop channel *)
  let stopChan := length chans in
  Some (with_jobs ms (<[monitorID := stopChan]> (activeJobs ms))
          (chans ++ [make 0])
          (goroutines ms ++ [{| job_monitor := monitorID; job_stop := stopChan |}])).

Definition StartMonitorJob := startMonitorJob.

(** A goroutine has seen its stop channel closed. *)
Definition cancelled (ms : MonitorService) (j : Job) : bool :=
  match stopChans ms !! job_stop j with
  | Some ch => closed ch
  | None => false
  end.

(** The [case <-stopChan] of goroutine number [k]: it returns, and is
    gone.  The case is ready only once the channel is closed. *)
Definition job_return (ms : MonitorService) (k : nat) : MonitorService :=
  match goroutines ms !! k with
  | Some j =>
      if cancelled ms j
      then with_jobs ms (activeJobs ms) (stopChans ms) (delete k (goroutines ms))
      else ms
  | None => ms
  end.

(** What the callers of the registry can do to it. *)
Inductive JobOp :=
| OpStart (monitor : Monitor)
| OpStop (monitorID : string)
| OpReturn (k : nat).

Definition job_step (ms : MonitorService) (op : JobOp) : option MonitorService :=
  match op with
  | OpStart monitor => startMonitorJob ms monitor
  | OpStop monitorID => stopMonitorJob ms monitorID
  | OpReturn k => Some (job_return ms k)
  end.

Fixpoint job_steps (ms : MonitorService) (ops : list JobOp) : option MonitorService :=
  match ops with
  | [] => Some ms
  | op :: rest => ms' ← job_step ms op; job_steps ms' rest
  end.

(** The goroutines of monitor [monitorID] that have not been told to
    stop. *)
Definition live_jobs (ms : MonitorService) (monitorID : string) : list Job :=
  filter (fun j => job_monitor j = monitorID ∧ cancelled ms j = false) (goroutines ms).

(** [time.NewTicker(d)] panics unless [d] is positive. *)
Definition NewTicker (d : Z) : option Z :=
  if 0 <? d then Some d else None.

(** Which case a [select] of the loop takes when it wakes up.  With the
    ticker case comes what the network and the clock give the probe
    that follows. *)
Inductive SelectCase :=
| TickerC (outcome : ProbeOutcome) (now : Time)
| StopChan.

(** What the goroutine does, in order. *)
Inductive Call :=
| Call_checkEndpoint (monitor : Monitor)
| Log_stopped
| Ticker_Stop.

(** Where a goroutine of [startMonitorJob] is, the calls it has
    completed, and the service and hub as it left them.  A panic is
    not recovered anywhere in the goroutine. *)
Inductive Goroutine :=
| Returned (ms : MonitorService) (wsHub : WebSocketHub) (done : list Call)
| InSelect (ms : MonitorService) (wsHub : WebSocketHub) (done : list Call)
    (* parked in the [select] *)
| InProbe (ms : MonitorService) (wsHub : WebSocketHub) (done : list Call)
    (* parked inside [checkEndpoint]: at the semaphore or at the send
       to the hub *)
| Panicked (done : list Call).

(** The [for { select { ... } }] of the goroutine.  [checkEndpoint] is
    called synchronously: while it is parked no case is taken.  When
    the wake-ups run out the goroutine is parked in the [select]. *)
Fixpoint job_loop (ms : MonitorService) (wsHub : WebSocketHub) (monitor : Monitor)
    (wakeups : list SelectCase) (done : list Call) : Goroutine :=
  match wakeups with
  | [] => InSelect ms wsHub done
  | TickerC outcome now :: rest =>
      match checkEndpoint ms wsHub monitor outcome now with
      | Returns (ms, wsHub) =>
          job_loop ms wsHub monitor rest (done ++ [Call_checkEndpoint monitor])
      | Parks (ms, wsHub) => InProbe ms wsHub done
      | Panics => Panicked (done ++ [Ticker_Stop])   (* defer ticker.Stop() *)
      end
  | StopChan :: _ => Returned ms wsHub (done ++ [Log_stopped; Ticker_Stop])
  end.

(** The goroutine of [startMonitorJob], run against the service and the
    hub as its own probes leave them.  [first] is what the network and
    the clock give the initial check. *)
Definition job_goroutine (ms : MonitorService) (wsHub : WebSocketHub)
    (monitor : Monitor) (first : ProbeOutcome * Time) (wakeups : list SelectCase)
  : Goroutine :=
  match NewTicker (Int64.mul (Interval monitor) Second) with
  | None => Panicked []
  | Some _ =>
      (* Run initial check immediately *)
      match checkEndpoint ms wsHub monitor first.1 first.2 with
      | Returns (ms, wsHub) => job_loop ms wsHub monitor wakeups [Call_checkEndpoint monitor]
      | Parks (ms, wsHub) => InProbe ms wsHub []
      | Panics => Panicked [Ticker_Stop]   (* defer ticker.Stop() *)
      end
  end.

(** [StartMonitoring]: one job for every stored monitor that is active.
    When the monitors cannot be loaded nothing is started. *)
Fixpoint start_active (ms : MonitorService) (monitors : list Monitor)
  : option MonitorService :=
  match monitors with
  | [] => Some ms
  | monitor :: rest =>
      if IsActive monitor
      then ms' ← startMonitorJob ms monitor; start_active ms' rest
      else start_active ms rest
  end.

Definition StartMonitoring (ms : MonitorService) : option MonitorService :=
  match GetMonitors ms with
  | Err _ => Some ms
  | Ok monitors => start_active ms monitors
  end.

End monitor_service.

Import monitor_service.

(* ===================================================================== *)
(** ** handlers/api_handlers.go *)
(* ===================================================================== *)

Module handlers.

(** HTTP status codes the handlers answer with. *)
Definition StatusOK : Z := 200.
Definition StatusCreated : Z := 201.
Definition StatusBadRequest : Z := 400.
Definition StatusNotFound : Z := 404.
Definition StatusConflict : Z := 409.
Definition StatusInternalServerError : Z := 500.

(** [strconv.Atoi]: an optional sign, then one or more decimal digits,
    and a value that fits in 64 bits; anything else is an error. *)
Definition is_digit (c : ascii) : bool :=
  let n := nat_of_ascii c in ((48 <=? n) && (n <=? 57))%nat.

Fixpoint digits_value (s : string) (acc : Z) : option Z :=
  match s with
  | EmptyString => Some acc
  | String c rest =>
      if is_digit c
      then digits_value rest (acc * 10 + (Z.of_nat (nat_of_ascii c) - 48))
      else None
  end.

Definition Atoi (s : string) : option Z :=
  match s with
  | EmptyString => None
  | String c rest =>
      let neg := Ascii.eqb c "-" in
      let body := if neg || Ascii.eqb c "+" then rest else s in
      match body with
      | EmptyString => None
      | _ =>
          n ← digits_value body 0;
          let v := if neg then - n else n in
          if (Int64.min_int <=? v) && (v <=? Int64.max_int) then Some v else None
      end
  end.

(** [primitive.ObjectIDFromHex]: twenty-four hexadecimal digits. *)
Definition is_hex (c : ascii) : bool :=
  let n := nat_of_ascii c in
  (((48 <=? n) && (n <=? 57)) || ((97 <=? n) && (n <=? 102))
   || ((65 <=? n) && (n <=? 70)))%nat.

Definition ObjectIDFromHex (s : string) : option ObjectID :=
  if (String.length s =? 24)%nat && forallb is_hex (list_ascii_of_string s)
  then Some s else None.

(** The [hours] query parameter of [GetMetrics]: default 24, and 24
    again for anything that is not a number from 1 to 168. *)
Definition hours_param (query : option string) : Z :=
  let hoursParam := default "24" query in
  match Atoi hoursParam with
  | None => 24
  | Some hours => if (hours <? 1) || (168 <? hours) then 24 else hours  (* Max 1 week *)
  end.

(** The map returned by [calculateMetricsSummary]. *)
Record Summary := mkSummary {
  total_checks      : Z;
  successful_checks : Z;
  failed_checks     : Z;
  uptime_percentage : Float64.float64;
  average_response  : Float64.float64;
  min_response      : Z;
  max_response      : Z
}.

(** The loop variables of [calculateMetricsSummary]. *)
Record Acc := mkAcc {
  successfulChecks  : Z;
  failedChecks      : Z;
  totalResponseTime : Z;
  minResponse       : Z;
  maxResponse       : Z
}.

Definition summary_step (a : Acc) (metric : Metric) : Acc :=
  let up := String.eqb (Status metric) "up" in
  {| successfulChecks := if up then successfulChecks a + 1 else successfulChecks a;
     failedChecks := if up then failedChecks a else failedChecks a + 1;
     totalResponseTime := Int64.add (totalResponseTime a) (ResponseTime metric);
     minResponse := if ResponseTime metric <? minResponse a
                    then ResponseTime metric else minResponse a;
     maxResponse := if maxResponse a <? ResponseTime metric
                    then ResponseTime metric else maxResponse a |}.

Definition calculateMetricsSummary (metrics : list Metric) : Summary :=
  match metrics with
  | [] =>
      {| total_checks := 0; successful_checks := 0; failed_checks := 0;
         uptime_percentage := Float64.zero; average_response := Float64.zero;
         min_response := 0; max_response := 0 |}
  | first :: _ =>
      let a := fold_left summary_step metrics
                 {| successfulChecks := 0; failedChecks := 0;
                    totalResponseTime := 0;
                    minResponse := ResponseTime first;
                    maxResponse := ResponseTime first |} in
      let len := Z.of_nat (length metrics) in
      {| total_checks := len;
         successful_checks := successfulChecks a;
         failed_checks := failedChecks a;
         uptime_percentage :=
           Float64.mul (Float64.div (Float64.of_int (successfulChecks a))
                                    (Float64.of_int len))
                       Float64.hundred;
         average_response :=
           Float64.div (Float64.of_int (totalResponseTime a)) (Float64.of_int len);
         min_response := minResponse a;
         max_response := maxResponse a |}
  end.

(** The body of a successful [GetMetrics] answer. *)
Record MetricsBody := mkMetricsBody {
  body_data    : list Metric;
  body_summary : Summary;
  body_count   : Z;
  body_hours   : Z
}.

(** An answer: the status code, with the body of a success or the two
    texts of a failure. *)
Inductive Answer (B : Type) :=
| Success (status : Z) (body : B)
| Failure (status : Z) (error details : string).
Arguments Success {B} status body.
Arguments Failure {B} status error details.

(** [GetMetrics] handles GET /api/v1/monitors/:id/metrics *)
Definition GetMetrics (ms : MonitorService) (idParam : string)
    (hoursQuery : option string) (now : Time) : Answer MetricsBody :=
  match ObjectIDFromHex idParam with
  | None => Failure StatusBadRequest "Invalid monitor ID format" "invalid hex"
  | Some objectID =>
      let hours := hours_param hoursQuery in
      match monitor_service.GetMetrics ms objectID hours now with
      | Err e => Failure StatusInternalServerError "Failed to retrieve metrics" e
      | Ok metrics =>
          Success StatusOK
            {| body_data := metrics;
               body_summary := calculateMetricsSummary metrics;
               body_count := Z.of_nat (length metrics);
               body_hours := hours |}
      end
  end.

(** [CreateMonitor] handles POST /api/v1/monitors.  The request body is
    given decoded; [binding:"required"] rejects an empty name or URL. *)
Definition CreateMonitor (ms : MonitorService) (req : CreateMonitorRequest)
    (newID : ObjectID) (now : Time)
  : option (MonitorService * Answer Monitor) :=
  if String.eqb (ReqName req) "" || String.eqb (ReqURL req) ""
  then Some (ms, Failure StatusBadRequest "Invalid request data" "required")
  else
    (* Convert request to monitor model *)
    let monitor := ToMonitor req now in
    (* Create monitor in database *)
    match monitor_service.CreateMonitor ms monitor newID with
    | (ms, _, Some err) =>
        if String.eqb err ("monitor with URL " +:+ ReqURL req +:+ " already exists")
        then Some (ms, Failure StatusConflict "Monitor already exists" err)
        else Some (ms, Failure StatusInternalServerError "Failed to create monitor" err)
    | (ms, monitor, None) =>
        (* Start monitoring job immediately for the new monitor *)
        ms ← (if IsActive monitor then StartMonitorJob ms monitor else Some ms);
        Some (ms, Success StatusCreated monitor)
    end.

(** [DeleteMonitor] handles DELETE /api/v1/monitors/:id *)
Definition DeleteMonitor (ms : MonitorService) (idParam : string)
  : option (MonitorService * Answer unit) :=
  match ObjectIDFromHex idParam with
  | None => Some (ms, Failure StatusBadRequest "Invalid monitor ID format" "invalid hex")
  | Some objectID =>
      '(ms, err) ← monitor_service.DeleteMonitor ms objectID;
      match err with
      | Some e =>
          if String.eqb e "monitor not found"
          then Some (ms, Failure StatusNotFound "Monitor not found" e)
          else Some (ms, Failure StatusInternalServerError "Failed to delete monitor" e)
      | None => Some (ms, Success StatusOK tt)
      end
  end.

(** [models.DashboardStats]. *)
Record DashboardStats := mkStats {
  TotalMonitors   : Z;
  ActiveMonitors  : Z;
  UpMonitors      : Z;
  DownMonitors    : Z;
  OverallUptime   : Float64.float64;
  AverageResponse : Float64.float64
}.

Definition float64_add (x y : Float64.float64) : Float64.float64 :=
  SFadd Float64.prec Float64.emax x y.

(** The loop variables of [GetDashboardStats]. *)
Record StatsAcc := mkStatsAcc {
  accActive          : Z;       (* stats.ActiveMonitors *)
  accUp              : Z;       (* stats.UpMonitors *)
  accDown            : Z;       (* stats.DownMonitors *)
  accTotalUptime     : Float64.float64;
  accTotalResponse   : Z;       (* int64 *)
  accActiveCount     : Z
}.

Definition stats_step (a : StatsAcc) (monitor : Monitor) : StatsAcc :=
  if IsActive monitor then
    {| accActive := accActive a + 1;
       accUp := if String.eqb (CurrentStatus monitor) "up" then accUp a + 1 else accUp a;
       accDown := if String.eqb (CurrentStatus monitor) "down"
                  then accDown a + 1 else accDown a;
       accTotalUptime := float64_add (accTotalUptime a) (UptimePercentage monitor);
       accTotalResponse := Int64.add (accTotalResponse a) (CurrentResponse monitor);
       accActiveCount := accActiveCount a + 1 |}
  else a.

(** [GetDashboardStats] handles GET /api/v1/dashboard/stats. *)
Definition GetDashboardStats (ms : MonitorService) : Answer DashboardStats :=
  match monitor_service.GetMonitors ms with
  | Err e => Failure StatusInternalServerError "Failed to retrieve dashboard stats" e
  | Ok monitors =>
      let a := fold_left stats_step monitors
                 {| accActive := 0; accUp := 0; accDown := 0;
                    accTotalUptime := Float64.zero; accTotalResponse := 0;
                    accActiveCount := 0 |} in
      (* Calculate averages *)
      let averaged := 0 <? accActiveCount a in
      Success StatusOK
        {| TotalMonitors := Z.of_nat (length monitors);
           ActiveMonitors := accActive a;
           UpMonitors := accUp a;
           DownMonitors := accDown a;
           OverallUptime :=
             if averaged
             then Float64.div (accTotalUptime a) (Float64.of_int (accActiveCount a))
             else Float64.zero;
           AverageResponse :=
             if averaged
             then Float64.div (Float64.of_int (accTotalResponse a))
                              (Float64.of_int (accActiveCount a))
             else Float64.zero |}
  end.

End handlers.

(* ===================================================================== *)
(** ** config/config.go, with the production settings that main.go reads *)
(* ===================================================================== *)

Module config.

(** The process environment; [os.Getenv] gives the empty string for a
    variable that is not set. *)
Definition Getenv (env : gmap string string) (key : string) : string :=
  default "" (env !! key).

Record Config := mkConfig {
  (* Server configuration *)
  Port                 : string;
  Host                 : string;
  Environment          : string;
  (* Database configuration *)
  MongodbURI           : string;
  DatabaseName         : string;
  (* WebSocket configuration *)
  WSReadTimeout        : Z;
  WSWriteTimeout       : Z;
  WSPingPeriod         : Z;
  (* Monitoring configuration *)
  DefaultInterval      : Z;
  DefaultTimeout       : Z;
  MaxConcurrentChecks  : Z;
  MetricsRetentionDays : Z;
  (* CORS configuration *)
  AllowedOrigins       : list string;
  (* Production settings *)
  TrustedProxies       : list string;
  ReadTimeout          : Z;
  WriteTimeout         : Z;
  IdleTimeout          : Z;
  (* Security *)
  EnableHTTPS          : bool;
  CertFile             : string;
  KeyFile              : string
}.

(** [getEnvOrDefault] returns environment variable or default value *)
Definition getEnvOrDefault (env : gmap string string) (key defaultValue : string) : string :=
  let value := Getenv env key in
  if negb (String.eqb value "") then value else defaultValue.

(** [getEnvAsInt] returns environment variable as integer or default value *)
Definition getEnvAsInt (env : gmap string string) (key : string) (defaultValue : Z) : Z :=
  let valueStr := Getenv env key in
  if negb (String.eqb valueStr "") then
    match handlers.Atoi valueStr with
    | Some value => value
    | None => defaultValue
    end
  else defaultValue.

(** [strconv.ParseBool] accepts 1, t, T, TRUE, true, True, 0, f, F,
    FALSE, false, False. *)
Definition ParseBool (s : string) : option bool :=
  if existsb (String.eqb s) ["1"; "t"; "T"; "TRUE"; "true"; "True"] then Some true
  else if existsb (String.eqb s) ["0"; "f"; "F"; "FALSE"; "false"; "False"] then Some false
  else None.

(** [getEnvAsBool] returns environment variable as boolean or default value *)
Definition getEnvAsBool (env : gmap string string) (key : string) (defaultValue : bool) : bool :=
  let valueStr := Getenv env key in
  if negb (String.eqb valueStr "") then
    match ParseBool valueStr with
    | Some value => value
    | None => defaultValue
    end
  else defaultValue.

(** [strings.Split(s, sep)] for a separator of one character: the
    pieces between the separators, empty pieces included. *)
Fixpoint Split (s : string) (sep : ascii) : list string :=
  match s with
  | EmptyString => [""]
  | String c rest =>
      if Ascii.eqb c sep then "" :: Split rest sep
      else match Split rest sep with
           | piece :: pieces => String c piece :: pieces
           | [] => [String c ""]
           end
  end.

Definition getEnvAsStringSlice (env : gmap string string) (key : string)
    (defaultValue : list string) : list string :=
  let valueStr := Getenv env key in
  if negb (String.eqb valueStr "") then Split valueStr ","%char else defaultValue.

(** [LoadConfig] loads configuration from environment variables with defaults *)
Definition LoadConfig (env : gmap string string) : Config :=
  {| (* Server *)
     Port := getEnvOrDefault env "PORT" "8080";
     Host := getEnvOrDefault env "HOST" "0.0.0.0";
     Environment := getEnvOrDefault env "GIN_MODE" "debug";
     (* Database *)
     MongodbURI := getEnvOrDefault env "MONGODB_URI" "mongodb://localhost:27017";
     DatabaseName := getEnvOrDefault env "DATABASE_NAME" "realtime_monitor";
     (* WebSocket *)
     WSReadTimeout := Int64.mul (getEnvAsInt env "WS_READ_TIMEOUT" 60) Second;
     WSWriteTimeout := Int64.mul (getEnvAsInt env "WS_WRITE_TIMEOUT" 10) Second;
     WSPingPeriod := Int64.mul (getEnvAsInt env "WS_PING_PERIOD" 54) Second;
     (* Monitoring *)
     DefaultInterval := getEnvAsInt env "DEFAULT_INTERVAL" 30;
     DefaultTimeout := getEnvAsInt env "DEFAULT_TIMEOUT" 10;
     MaxConcurrentChecks := getEnvAsInt env "MAX_CONCURRENT_CHECKS" 100;
     MetricsRetentionDays := getEnvAsInt env "METRICS_RETENTION_DAYS" 30;
     (* Production settings *)
     TrustedProxies := getEnvAsStringSlice env "TRUSTED_PROXIES" [];
     ReadTimeout := Int64.mul (getEnvAsInt env "READ_TIMEOUT" 30) Second;
     WriteTimeout := Int64.mul (getEnvAsInt env "WRITE_TIMEOUT" 30) Second;
     IdleTimeout := Int64.mul (getEnvAsInt env "IDLE_TIMEOUT" 120) Second;
     (* Security *)
     EnableHTTPS := getEnvAsBool env "ENABLE_HTTPS" false;
     CertFile := getEnvOrDefault env "CERT_FILE" "";
     KeyFile := getEnvOrDefault env "KEY_FILE" "";
     (* Update CORS for production *)
     AllowedOrigins :=
       getEnvAsStringSlice env "ALLOWED_ORIGINS"
         [getEnvOrDefault env "FRONTEND_URL" "http://localhost:3000"] |}.

Definition GetServerAddress (c : Config) : string := Host c +:+ ":" +:+ Port c.

Definition IsDevelopment (c : Config) : bool :=
  String.eqb (Environment c) "debug" || String.eqb (Environment c) "development".

Definition IsProduction (c : Config) : bool :=
  String.eqb (Environment c) "release" || String.eqb (Environment c) "production".

(** [GetMetricsRetentionDuration]: days * 24 * time.Hour, in 64 bits. *)
Definition GetMetricsRetentionDuration (c : Config) : Z :=
  Int64.mul (Int64.mul (MetricsRetentionDays c) 24) Hour.

Definition https_error : string := "HTTPS enabled but certificate files not provided".

(** [Validate] checks if the configuration is valid; the warnings about
    the interval, the timeout and the CORS origins are only logged. *)
Definition Validate (c : Config) : option string :=
  if String.eqb (MongodbURI c) "" then Some "MONGODB_URI is required"
  else if String.eqb (DatabaseName c) "" then Some "DATABASE_NAME is required"
  else if IsProduction c
       then if EnableHTTPS c && (String.eqb (CertFile c) "" || String.eqb (KeyFile c) "")
            then Some https_error
            else None
       else None.

End config.

(* ===================================================================== *)
(** ** database/mongo.go: testing the connection *)
(* ===================================================================== *)

Module mongo.

(** [strings.Contains]. *)
Fixpoint Contains (s substr : string) : bool :=
  String.prefix substr s ||
  match s with
  | EmptyString => false
  | String _ rest => Contains rest substr
  end.

(** [isAtlasURI] checks if the URI is for MongoDB Atlas *)
Definition isAtlasURI (uri : string) : bool :=
  Contains uri "mongodb.net" || Contains uri "mongodb+srv://".

(** What the connection test of [InitMongoDB] did: how many pings and
    how many five-second sleeps, and the error it is left with. *)
Record PingRun := mkPingRun {
  pings    : nat;
  sleeps   : nat;
  last_err : option error
}.

(** [for i := 0; i < maxRetries; i++ { err = client.Ping(...); ... }]:
    [Ping i] is what the ping number [i] answers, [todo] the iterations
    left. *)
Fixpoint ping_loop (Ping : nat → option error) (maxRetries i todo slept : nat)
    (err : option error) : PingRun :=
  match todo with
  | O => {| pings := i; sleeps := slept; last_err := err |}
  | S todo' =>
      match Ping i with
      | None => {| pings := S i; sleeps := slept; last_err := None |}
      | Some e =>
          let slept := if (i <? maxRetries - 1)%nat then S slept else slept in
          ping_loop Ping maxRetries (S i) todo' slept (Some e)
      end
  end.

(** The test with its retries: five for Atlas, three otherwise. *)
Definition maxRetries (uri : string) : nat := if isAtlasURI uri then 5%nat else 3%nat.

Definition ping_with_retries (uri : string) (Ping : nat → option error) : PingRun :=
  ping_loop Ping (maxRetries uri) 0 (maxRetries uri) 0 None.

End mongo.

(* ===================================================================== *)
(** * Vocabulary of the specification *)
(* ===================================================================== *)

Module spec.

(** The samples of one monitor in the 24 hours before [now]. *)
Definition window24 (ms : MonitorService) (id : ObjectID) (now : Time) : list Metric :=
  filter (fun m => MonitorID m = id ∧ now - 24 * Hour <= CheckedAt m) (metrics (db ms)).

Definition is_down (m : Metric) : Prop := Status m = "down".

(** The uptime figure, as the specification words it. *)
Definition uptime_of (samples : list Metric) : Float64.float64 :=
  let total := Z.of_nat (length samples) in
  let down := Z.of_nat (length (filter is_down samples)) in
  if total =? 0 then Float64.hundred
  else Float64.mul (Float64.div (Float64.of_int (total - down)) (Float64.of_int total))
                   Float64.hundred.

(** The metric, the store and the update event that [recordMetric]
    builds, named so that statements can refer to them. *)
Definition metric_of (monitor : Monitor) (status : string) (code rt : Z)
    (err : string) (now : Time) : Metric :=
  {| MonitorID := ID monitor; URL := MURL monitor; Status := status;
     StatusCode := code; ResponseTime := rt; Error := err; CheckedAt := now |}.

Definition sink_db (ms : MonitorService) (monitor : Monitor) (status : string)
    (code rt : Z) (err : string) (now : Time) : MonitorService :=
  let ms1 := match InsertMetric (db ms) (metric_of monitor status code rt err now) with
             | Err _ => ms
             | Ok d => with_db ms d
             end in
  updateMonitorStatus ms1 (ID monitor) status code rt now now.

Definition event_of (ms : MonitorService) (monitor : Monitor) (status : string)
    (code rt : Z) (err : string) (now : Time) : WebSocketMessage :=
  {| Type_ := "metric_update";
     Data := DataUpdate
               {| UMonitorID := Hex (ID monitor); UStatus := status;
                  UStatusCode := code; UResponseTime := rt;
                  UURL := MURL monitor; UError := err; UTimestamp := now;
                  UUptimePercentage :=
                    calculateUptimePercentage
                      (sink_db ms monitor status code rt err now) (ID monitor) now |};
     MsgMonitor := Hex (ID monitor) |}.

(** The classification of a probe, as the specification words it:
    status, HTTP code, elapsed milliseconds, error text. *)
Definition classify (outcome : ProbeOutcome) : string * Z * Z * string :=
  match outcome with
  | RequestError err => ("down", 0, 0, err)
  | TransportError err rt => ("down", 0, rt, err)
  | Response code rt => (if 400 <=? code then "down" else "up", code, rt, "")
  end.

(** The text of a Go error is not empty. *)
Definition error_text_present (outcome : ProbeOutcome) : Prop :=
  match outcome with
  | RequestError err | TransportError err _ => err ≠ ""
  | Response _ _ => True
  end.

(** The state of the job registry that every run keeps: the registered
    stop channels exist and are open; two monitors never share one; a
    goroutine that has not been told to stop is the one the registry
    holds for its monitor; every goroutine has a stop channel of its
    own. *)
Definition registry_wf (ms : MonitorService) : Prop :=
  (∀ id c, activeJobs ms !! id = Some c →
           ∃ ch, stopChans ms !! c = Some ch ∧ closed ch = false) ∧
  (∀ id1 id2 c, activeJobs ms !! id1 = Some c → activeJobs ms !! id2 = Some c →
                id1 = id2) ∧
  (∀ j, j ∈ goroutines ms → cancelled ms j = false →
        activeJobs ms !! job_monitor j = Some (job_stop j)) ∧
  (∀ j, j ∈ goroutines ms → (job_stop j < length (stopChans ms))%nat) ∧
  NoDup (job_stop <$> goroutines ms).

(** What a broadcast does to one observer: the message joins its queue,
    or the observer is evicted (queue closed, connection closed). *)
Definition delivered (c : WebSocketClient) (m : WebSocketMessage) : WebSocketClient :=
  with_Send c {| buf := buf (Send c) ++ [m]; cap := cap (Send c); closed := false |}.

Definition evicted (c : WebSocketClient) : WebSocketClient :=
  close_Conn (with_Send c {| buf := buf (Send c); cap := cap (Send c); closed := true |}).

(** The state of one observer after the [range] loop has visited it. *)
Definition visited (h h' : WebSocketHub) (m : WebSocketMessage) (p : ptr)
    (c : WebSocketClient) : Prop :=
  if full (Send c)
  then Clients h' !! p = None ∧ objects h' !! p = Some (evicted c)
  else Clients h' !! p = Clients h !! p ∧ objects h' !! p = Some (delivered c m).

(** The status code of an answer. *)
Definition status_of {B} (a : handlers.Answer B) : Z :=
  match a with
  | handlers.Success status _ => status
  | handlers.Failure status _ _ => status
  end.

(** A monitor with this target URL is stored. *)
Definition url_taken (ms : MonitorService) (url : string) : Prop :=
  ∃ m, m ∈ monitors (db ms) ∧ MURL m = url.

(** A monitor with this id is stored. *)
Definition id_known (ms : MonitorService) (id : ObjectID) : Prop :=
  ∃ m, m ∈ monitors (db ms) ∧ ID m = id.

(** The metrics of one monitor checked at [start] or later. *)
Definition window_since (ms : MonitorService) (id : ObjectID) (start : Time)
  : list Metric :=
  filter (fun m => MonitorID m = id ∧ start <= CheckedAt m) (metrics (db ms)).

(** The number asked for in the [hours] query parameter, if it is one. *)
Definition requested_hours (query : option string) : option Z :=
  handlers.Atoi (default "24" query).

(** Counting and summing over a list of metrics. *)
Definition is_up (m : Metric) : Prop := Status m = "up".

Definition ups (l : list Metric) : Z := Z.of_nat (length (filter is_up l)).

Definition sum_response (l : list Metric) : Z :=
  foldr (fun m s => ResponseTime m + s) 0 l.

(** *** Concrete data used to exercise the definitions *)

Definition monitor0 : Monitor :=
  {| ID := "65a000000000000000000001"; Name := "api"; MURL := "http://x";
     Method := "GET"; Interval := 5; Timeout := 2; IsActive := true;
     LastChecked := None; UpdatedAt := 0; CurrentStatus := "unknown";
     CurrentStatusCode := 0; CurrentResponse := 0;
     UptimePercentage := Float64.hundred |}.

Definition db0 : MongoDB :=
  {| monitors := [monitor0]; metrics := []; fault := None |}.

Definition ms0 : MonitorService := NewMonitorService db0 10.

Definition sample (status : string) (code : Z) (at_ : Time) : Metric :=
  {| MonitorID := ID monitor0; URL := MURL monitor0; Status := status;
     StatusCode := code; ResponseTime := 12; Error := ""; CheckedAt := at_ |}.

(** Eight "up" and two "down" samples, one a minute. *)
Definition ten_samples : list Metric :=
  [sample "up" 200 (1 * 60 * Second); sample "up" 200 (2 * 60 * Second);
   sample "down" 500 (3 * 60 * Second); sample "up" 200 (4 * 60 * Second);
   sample "up" 200 (5 * 60 * Second); sample "up" 200 (6 * 60 * Second);
   sample "down" 503 (7 * 60 * Second); sample "up" 200 (8 * 60 * Second);
   sample "up" 200 (9 * 60 * Second); sample "up" 200 (10 * 60 * Second)].

Definition ms10 : MonitorService :=
  NewMonitorService {| monitors := [monitor0]; metrics := ten_samples; fault := None |} 10.

(** A hub whose inbound queue holds 256 messages that [Run] has not
    taken yet. *)
Definition hub_saturated : WebSocketHub :=
  {| Clients := ∅;
     Broadcast := {| buf := replicate 256 welcome; cap := 256; closed := false |};
     objects := ∅ |}.

(** Three observers; the second has not drained its queue. *)
Definition stalled_client : WebSocketClient :=
  {| ConnOpen := true;
     Send := {| buf := replicate 256 welcome; cap := 256; closed := false |};
     ClientID := "client_2" |}.

Definition hub3 : WebSocketHub :=
  {| Clients := <[1%nat := true]> (<[2%nat := true]> (<[3%nat := true]> ∅));
     Broadcast := make 256;
     objects := <[1%nat := NewWebSocketClient "client_1"]>
                  (<[2%nat := stalled_client]>
                     (<[3%nat := NewWebSocketClient "client_3"]> ∅)) |}.

Definition ping_all : WebSocketMessage :=
  {| Type_ := "metric_update"; Data := DataStrings []; MsgMonitor := ID monitor0 |}.

Definition request0 : CreateMonitorRequest :=
  {| ReqName := "again"; ReqURL := "http://x"; ReqMethod := "";
     ReqInterval := 0; ReqTimeout := 0 |}.

(** *** Vocabulary of the further properties *)

(** Every metric is "up" or "down". *)
Definition statuses_ok (l : list Metric) : Prop :=
  ∀ m, m ∈ l → Status m = "up" ∨ Status m = "down".

(** An active monitor of the list has this id. *)
Definition active_id (l : list Monitor) (id : string) : Prop :=
  ∃ m, m ∈ l ∧ IsActive m = true ∧ Hex (ID m) = id.

(** One order in which a [range] can visit the clients. *)
Definition pick_all (h : WebSocketHub) : list ptr := (map_to_list (Clients h)).*1.

(** The messages among the wake-ups of a write pump, and whether
    something makes the pump return. *)
Fixpoint received (wakeups : list PumpWakeup) : list WebSocketMessage :=
  match wakeups with
  | [] => []
  | Received message _ :: rest => message :: received rest
  | _ :: rest => received rest
  end.

Definition ends_pump (w : PumpWakeup) : bool :=
  match w with
  | Received _ write_ok | Idle write_ok => negb write_ok
  | QueueClosed => true
  end.

Definition json_frames (frames : list Frame) : list WebSocketMessage :=
  omap (fun f => match f with JSONFrame m => Some m | _ => None end) frames.

(** Counting monitors for the dashboard. *)
Definition count_monitors (P : Monitor → bool) (l : list Monitor) : Z :=
  Z.of_nat (length (filter (fun m => P m = true) l)).

(** Active monitors by their current status. *)
Definition is_active_up (m : Monitor) : bool :=
  IsActive m && String.eqb (CurrentStatus m) "up".

Definition is_active_down (m : Monitor) : bool :=
  IsActive m && String.eqb (CurrentStatus m) "down".

(** A hub with one observer and two events waiting. *)
Definition hub_two_queued : WebSocketHub :=
  {| Clients := <[1%nat := true]> ∅;
     Broadcast := {| buf := [ping_all; welcome]; cap := 256; closed := false |};
     objects := <[1%nat := NewWebSocketClient "client_1"]> ∅ |}.

Definition request_negative : CreateMonitorRequest :=
  {| ReqName := "neg"; ReqURL := "http://y"; ReqMethod := "";
     ReqInterval := -5; ReqTimeout := 0 |}.

Definition monitor_web : Monitor :=
  {| ID := "65a000000000000000000002"; Name := "web"; MURL := "http://y";
     Method := "GET"; Interval := 30; Timeout := 10; IsActive := true;
     LastChecked := None; UpdatedAt := 0; CurrentStatus := "up";
     CurrentStatusCode := 200; CurrentResponse := 40;
     UptimePercentage := Float64.hundred |}.

Definition monitor_paused : Monitor :=
  {| ID := "65a000000000000000000003"; Name := "old"; MURL := "http://z";
     Method := "GET"; Interval := 30; Timeout := 10; IsActive := false;
     LastChecked := None; UpdatedAt := 0; CurrentStatus := "down";
     CurrentStatusCode := 500; CurrentResponse := 0;
     UptimePercentage := Float64.hundred |}.

Definition ms3 : MonitorService :=
  NewMonitorService
    {| monitors := [monitor0; monitor_web; monitor_paused]; metrics := []; fault := None |} 10.

Definition request_web : CreateMonitorRequest :=
  {| ReqName := "web"; ReqURL := "http://y"; ReqMethod := "";
     ReqInterval := 0; ReqTimeout := 0 |}.

(** A service whose store cannot be reached. *)
Definition ms_unreachable : MonitorService :=
  NewMonitorService
    {| monitors := [monitor0]; metrics := ten_samples;
       fault := Some "server selection timeout" |} 10.

(** The ticker cases for a list of network answers and clock readings. *)
Definition tick_cases (l : list (ProbeOutcome * Time)) : list SelectCase :=
  (λ p, TickerC p.1 p.2) <$> l.

(** An update event of this monitor. *)
Definition update_of (monitor : Monitor) (e : WebSocketMessage) : Prop :=
  Type_ e = "metric_update" ∧ MsgMonitor e = Hex (ID monitor).

(** The hub with these events added to its inbound queue. *)
Definition queued (wsHub : WebSocketHub) (events : list WebSocketMessage) : WebSocketHub :=
  with_Broadcast wsHub {| buf := buf (Broadcast wsHub) ++ events;
                          cap := cap (Broadcast wsHub); closed := false |}.

(** Production mode with HTTPS switched on and no certificate named. *)
Definition env_https : gmap string string :=
  <["GIN_MODE" := "release"]> (<["ENABLE_HTTPS" := "true"]> ∅).

(** A certificate or key file is missing from the environment. *)
Definition certificate_missing (env : gmap string string) : Prop :=
  config.Getenv env "CERT_FILE" = "" ∨ config.Getenv env "KEY_FILE" = "".

End spec.

Import spec.

(* ===================================================================== *)
(** * Properties *)
(* ===================================================================== *)

(** ** Numerics *)

Lemma wrap_small z : Int64.in_range z -> Int64.wrap z = z.
Proof.
unfold Int64.in_range, Int64.min_int, Int64.max_int, Int64.wrap. intros H.
rewrite Z.mod_small; lia.
Qed.

Lemma wrap_add_l a b : Int64.add (Int64.wrap a) b = Int64.wrap (a + b).
Proof.
unfold Int64.add, Int64.wrap.
replace ((a + 2 ^ 63) mod 2 ^ 64 - 2 ^ 63 + b + 2 ^ 63)
  with ((a + 2 ^ 63) mod 2 ^ 64 + b) by lia.
replace (a + b + 2 ^ 63) with ((a + 2 ^ 63) + b) by lia.
rewrite Zplus_mod_idemp_l. reflexivity.
Qed.

Lemma hundred_not_zero : Float64.hundred ≠ Float64.zero.
Proof. vm_compute. discriminate. Qed.

(** ** Channels *)

Lemma send_now_room {A} (c : Chan A) (x : A) :
closed c = false → full c = false →
send_now c x = Sent {| buf := buf c ++ [x]; cap := cap c; closed := false |}.
Proof. unfold send_now. intros -> ->. reflexivity. Qed.

Lemma send_now_full {A} (c : Chan A) (x : A) :
closed c = false → full c = true → send_now c x = WouldBlock.
Proof. unfold send_now. intros -> ->. reflexivity. Qed.

(** ** The result sink *)

Section ResultSink.

Implicit Types (ms : MonitorService) (wsHub : WebSocketHub) (monitor : Monitor).

Lemma count_samples_spec rows total down :
  count_samples rows total down =
    (total + Z.of_nat (length rows),
     down + Z.of_nat (length (filter is_down rows))).
Proof.
  revert total down.
  induction rows as [|m rows IH]; intros total down; cbn [count_samples].
  - rewrite filter_nil. cbn [length]. f_equal; lia.
  - rewrite IH, filter_cons. unfold is_down at 2.
    destruct (String.eqb_spec (Status m) "down") as [Hd|Hd].
    + rewrite decide_True by exact Hd. cbn [length]. f_equal; lia.
    + rewrite decide_False by exact Hd. cbn [length]. f_equal; lia.
Qed.

Lemma in_window_spec id start m :
  in_window id start m = true ↔ MonitorID m = id ∧ start <= CheckedAt m.
Proof.
  unfold in_window. rewrite andb_true_iff, bool_decide_eq_true, Z.leb_le. tauto.
Qed.

Lemma FindMetrics_window ms id now :
  fault (db ms) = None →
  FindMetrics (db ms) id (now + (-24) * Hour) false None = Ok (window24 ms id now).
Proof.
  intros Hf. unfold FindMetrics, window24. rewrite Hf. simpl. f_equal.
  apply list_filter_iff. intros m. rewrite in_window_spec.
  replace (now + (-24) * Hour) with (now - 24 * Hour) by lia. tauto.
Qed.

Lemma calculateUptimePercentage_window ms id now :
  fault (db ms) = None →
  calculateUptimePercentage ms id now = uptime_of (window24 ms id now).
Proof.
  intros Hf. unfold calculateUptimePercentage.
  rewrite (FindMetrics_window _ _ _ Hf), count_samples_spec. reflexivity.
Qed.

Lemma calculateUptimePercentage_fault ms id now e :
  fault (db ms) = Some e → calculateUptimePercentage ms id now = Float64.hundred.
Proof.
  intros Hf. unfold calculateUptimePercentage, FindMetrics. rewrite Hf. reflexivity.
Qed.

Lemma recordMetric_unfold ms wsHub monitor status code rt err now :
  recordMetric ms wsHub monitor status code rt err now =
    match send_now (Broadcast wsHub) (event_of ms monitor status code rt err now) with
    | Sent ch => Returns (sink_db ms monitor status code rt err now, with_Broadcast wsHub ch)
    | WouldBlock => Parks (sink_db ms monitor status code rt err now, wsHub)
    | SendOnClosed => Panics
    end.
Proof. reflexivity. Qed.

Lemma sink_db_metrics ms monitor status code rt err now :
  fault (db ms) = None →
  metrics (db (sink_db ms monitor status code rt err now)) =
    metrics (db ms) ++ [metric_of monitor status code rt err now]
  ∧ fault (db (sink_db ms monitor status code rt err now)) = None.
Proof.
  intros Hf. unfold sink_db, InsertMetric, updateMonitorStatus, UpdateStatusByID.
  rewrite Hf. simpl. rewrite Hf. simpl. auto.
Qed.

Lemma sink_db_registry ms monitor status code rt err now :
  semaphore (sink_db ms monitor status code rt err now) = semaphore ms.
Proof.
  unfold sink_db, InsertMetric, updateMonitorStatus, UpdateStatusByID.
  destruct (fault (db ms)) eqn:Hf; simpl; rewrite ?Hf; reflexivity.
Qed.

End ResultSink.

(** ** The probe executor *)

Section ProbeExecutor.

Implicit Types (ms : MonitorService) (wsHub : WebSocketHub) (monitor : Monitor).

Lemma send_now_open_reached {A} (c : Chan A) (x : A) :
  closed c = false → send_now c x ≠ SendOnClosed.
Proof. unfold send_now. intros ->. destruct (full c); discriminate. Qed.

(** Whatever the hub does with the event, [recordMetric] has stored the
    metric by the time it gets to the hand-off. *)
Lemma recordMetric_reached ms wsHub monitor status code rt err now :
  closed (Broadcast wsHub) = false →
  ∃ h, reached (recordMetric ms wsHub monitor status code rt err now)
       = Some (sink_db ms monitor status code rt err now, h).
Proof.
  intros Hc. rewrite recordMetric_unfold.
  pose proof (send_now_open_reached (Broadcast wsHub)
                (event_of ms monitor status code rt err now) Hc) as Hne.
  destruct (send_now _ _); [eexists; reflexivity | eexists; reflexivity | congruence].
Qed.

(** [checkEndpoint] is [recordMetric] on the classified outcome, between
    taking and giving back a semaphore slot. *)
Lemma checkEndpoint_sink ms wsHub monitor outcome now :
  closed (semaphore ms) = false → full (semaphore ms) = false →
  ∃ ms1, db ms1 = db ms ∧
    let '(status, code, rt, err) := classify outcome in
    checkEndpoint ms wsHub monitor outcome now =
      match recordMetric ms1 wsHub monitor status code rt err now with
      | Returns (ms2, h) => Returns (release ms2, h)
      | Parks st => Parks st
      | Panics => Panics
      end.
Proof.
  intros Hc Hf. unfold checkEndpoint. rewrite (send_now_room _ _ Hc Hf).
  eexists. split; [|destruct outcome; reflexivity]. reflexivity.
Qed.

(** C1. Every probe leaves exactly one new metric in the log, and the
    metric is classified as follows: a request that could not be built
    or sent is "down" with code 0 and the (non-empty) error text; a
    completed exchange with a code of 400 or more is "down" with that
    code and no error; any other completed exchange is "up" with its
    code and no error. *)
Theorem checkEndpoint_classification ms wsHub monitor outcome now :
  fault (db ms) = None →
  closed (semaphore ms) = false → full (semaphore ms) = false →
  closed (Broadcast wsHub) = false →
  error_text_present outcome →
  ∃ st metric,
    reached (checkEndpoint ms wsHub monitor outcome now) = Some st ∧
    metrics (db st.1) = metrics (db ms) ++ [metric] ∧
    MonitorID metric = ID monitor ∧
    match outcome with
    | RequestError err | TransportError err _ =>
        Status metric = "down" ∧ StatusCode metric = 0 ∧
        Error metric = err ∧ Error metric ≠ ""
    | Response code _ =>
        StatusCode metric = code ∧ Error metric = "" ∧
        (400 <= code → Status metric = "down") ∧
        (code < 400 → Status metric = "up")
    end.
Proof.
  intros Hf Hsc Hsf Hbc Herr.
  destruct (checkEndpoint_sink ms wsHub monitor outcome now Hsc Hsf) as (ms1 & Hdb & Hrun).
  destruct (classify outcome) as [[[status code] rt] err] eqn:Hcl.
  destruct (recordMetric_reached ms1 wsHub monitor status code rt err now Hbc) as [h Hr].
  assert (Hf1 : fault (db ms1) = None) by (rewrite Hdb; exact Hf).
  destruct (sink_db_metrics ms1 monitor status code rt err now Hf1) as [Hm _].
  exists (match recordMetric ms1 wsHub monitor status code rt err now with
          | Returns (ms2, h') => (release ms2, h')
          | Parks st => st
          | Panics => (ms, wsHub)
          end), (metric_of monitor status code rt err now).
  split; [|split; [|split]].
  - rewrite Hrun. destruct (recordMetric _ _ _ _ _ _ _ _) as [[ms2 h']|st|];
      [reflexivity | reflexivity | discriminate].
  - destruct (recordMetric _ _ _ _ _ _ _ _) as [[ms2 h']|st|]; simpl in Hr.
    + injection Hr as -> ->. simpl. rewrite Hm, Hdb. reflexivity.
    + injection Hr as ->. simpl. rewrite Hm, Hdb. reflexivity.
    + discriminate.
  - reflexivity.
  - destruct outcome as [e|e rt'|c rt']; simpl in Hcl, Herr;
      injection Hcl as <- <- <- <-; simpl.
    + auto.
    + auto.
    + repeat split; intros Hc.
      * apply Z.leb_le in Hc. rewrite Hc. reflexivity.
      * apply Z.leb_gt in Hc. rewrite Hc. reflexivity.
Qed.

Lemma checkEndpoint_classification_refused :
  ∃ st metric,
    reached (checkEndpoint ms0 NewWebSocketHub monitor0
               (TransportError "dial tcp: connection refused" 3) 1000) = Some st ∧
    metrics (db st.1) = metrics (db ms0) ++ [metric] ∧
    MonitorID metric = ID monitor0 ∧
    Status metric = "down" ∧ StatusCode metric = 0 ∧
    Error metric = "dial tcp: connection refused" ∧ Error metric ≠ "".
Proof.
  apply (checkEndpoint_classification ms0 NewWebSocketHub monitor0
           (TransportError "dial tcp: connection refused" 3) 1000);
    try reflexivity.
  simpl. discriminate.
Defined.

End ProbeExecutor.

(** ** Rolling uptime *)

Section Uptime.

Implicit Types (ms : MonitorService) (wsHub : WebSocketHub) (monitor : Monitor).

Lemma uptime_of_counts samples :
  length samples = 10%nat → length (filter is_down samples) = 2%nat →
  uptime_of samples = Float64.eighty.
Proof. unfold uptime_of. intros -> ->. vm_compute. reflexivity. Qed.

Lemma recordMetric_room ms wsHub monitor status code rt err now :
  closed (Broadcast wsHub) = false → full (Broadcast wsHub) = false →
  recordMetric ms wsHub monitor status code rt err now =
    Returns (sink_db ms monitor status code rt err now,
             with_Broadcast wsHub
               {| buf := buf (Broadcast wsHub) ++ [event_of ms monitor status code rt err now];
                  cap := cap (Broadcast wsHub); closed := false |}).
Proof.
  intros Hc Hf. rewrite recordMetric_unfold, (send_now_room _ _ Hc Hf). reflexivity.
Qed.

(** C2. The uptime percentage is computed from the samples of the
    monitor in the 24 hours before the computation: it is
    (total - down) / total * 100 over them, and 100 when there are
    none; eight "up" and two "down" samples give 80.  [recordMetric]
    recomputes it, after the new metric is stored, for the event it
    publishes. *)
Theorem uptime_from_trailing_window :
  (∀ ms id now, fault (db ms) = None →
     calculateUptimePercentage ms id now = uptime_of (window24 ms id now))
  ∧ uptime_of [] = Float64.hundred
  ∧ (∀ ms id now, fault (db ms) = None →
       length (window24 ms id now) = 10%nat →
       length (filter is_down (window24 ms id now)) = 2%nat →
       calculateUptimePercentage ms id now = Float64.eighty)
  ∧ (∀ ms wsHub monitor status code rt err now,
       fault (db ms) = None →
       closed (Broadcast wsHub) = false → full (Broadcast wsHub) = false →
       ∃ ms' h' message update,
         recordMetric ms wsHub monitor status code rt err now = Returns (ms', h') ∧
         metrics (db ms') = metrics (db ms) ++ [metric_of monitor status code rt err now] ∧
         last (buf (Broadcast h')) = Some message ∧
         Data message = DataUpdate update ∧
         UUptimePercentage update = uptime_of (window24 ms' (ID monitor) now)).
Proof.
  split; [|split; [|split]].
  - intros ms id now Hf. apply calculateUptimePercentage_window, Hf.
  - reflexivity.
  - intros ms id now Hf H10 H2.
    rewrite (calculateUptimePercentage_window _ _ _ Hf). apply uptime_of_counts; assumption.
  - intros ms wsHub monitor status code rt err now Hf Hc Hfull.
    destruct (sink_db_metrics ms monitor status code rt err now Hf) as [Hm Hf'].
    eexists _, _, _, _. split; [apply recordMetric_room; assumption|].
    split; [exact Hm|]. split; [simpl; apply last_snoc|].
    split; [reflexivity|]. simpl.
    apply calculateUptimePercentage_window, Hf'.
Qed.

Lemma uptime_from_trailing_window_eighty :
  calculateUptimePercentage ms10 (ID monitor0) (11 * 60 * Second) = Float64.eighty.
Proof.
  apply (proj1 (proj2 (proj2 uptime_from_trailing_window)) ms10 (ID monitor0)
           (11 * 60 * Second)); reflexivity.
Defined.

End Uptime.

(** ** The hand-off to the hub *)

Section HandOff.

Implicit Types (ms : MonitorService) (wsHub : WebSocketHub) (monitor : Monitor).

Lemma recordMetric_saturated ms wsHub monitor status code rt err now :
  closed (Broadcast wsHub) = false → full (Broadcast wsHub) = true →
  recordMetric ms wsHub monitor status code rt err now =
    Parks (sink_db ms monitor status code rt err now, wsHub).
Proof.
  intros Hc Hf. rewrite recordMetric_unfold, (send_now_full _ _ Hc Hf). reflexivity.
Qed.

Lemma BroadcastToAll_saturated wsHub messageType data :
  closed (Broadcast wsHub) = false → full (Broadcast wsHub) = true →
  BroadcastToAll wsHub messageType data = Returns (wsHub, true).
Proof.
  intros Hc Hf. unfold BroadcastToAll. rewrite (send_now_full _ _ Hc Hf). reflexivity.
Qed.

(** C4. With 256 events waiting in the hub's inbound queue, the
    hand-off in [recordMetric] does not drop the event: the goroutine
    is parked at the send, and [checkEndpoint] with it, still holding
    its semaphore slot.  [BroadcastToAll] on the same hub returns at
    once and drops the message. *)
Theorem recordMetric_parks_on_saturated_hub :
  recordMetric ms0 hub_saturated monitor0 "up" 200 12 "" 1000
    = Parks (sink_db ms0 monitor0 "up" 200 12 "" 1000, hub_saturated)
  ∧ (∃ ms', checkEndpoint ms0 hub_saturated monitor0 (Response 200 12) 1000
            = Parks (ms', hub_saturated)
            ∧ buf (semaphore ms') = [tt])
  ∧ (∀ data, BroadcastToAll hub_saturated "metric_update" data
             = Returns (hub_saturated, true)).
Proof.
  split; [|split].
  - apply recordMetric_saturated; reflexivity.
  - eexists. unfold checkEndpoint.
    rewrite (send_now_room (semaphore ms0) tt eq_refl eq_refl).
    cbv beta iota zeta. rewrite Z.leb_antisym. simpl (negb _).
    rewrite recordMetric_saturated by reflexivity.
    split; [reflexivity|]. rewrite sink_db_registry. reflexivity.
  - intros data. apply BroadcastToAll_saturated; reflexivity.
Qed.

End HandOff.

(** ** The job registry *)

Section JobRegistry.

Implicit Types (ms : MonitorService) (monitor : Monitor) (j : Job).

Lemma registry_wf_new d n : registry_wf (NewMonitorService d n).
Proof.
  unfold registry_wf, NewMonitorService; simpl.
  repeat split; try (intros; simplify_map_eq; fail).
  - intros j Hj. inversion Hj.
  - intros j Hj. inversion Hj.
  - constructor.
Qed.

(** Closing the channel at [c] leaves every other channel as it was,
    and an open channel of the new memory was open before. *)
Lemma closed_elsewhere (chans : list (Chan bool)) c ch ch' k x :
  chans !! c = Some ch → close ch = Some ch' →
  <[c := ch']> chans !! k = Some x → closed x = false →
  k ≠ c ∧ chans !! k = Some x.
Proof.
  intros Hc Hcl Hk Hx. unfold close in Hcl.
  destruct (closed ch) eqn:E; [discriminate|]. injection Hcl as <-.
  destruct (decide (k = c)) as [->|Hne].
  - rewrite list_lookup_insert_eq in Hk by (eapply lookup_lt_Some; eauto).
    injection Hk as <-. discriminate.
  - split; [exact Hne|]. rewrite list_lookup_insert_ne in Hk by congruence. exact Hk.
Qed.

Lemma close_open {A} (ch : Chan A) :
  closed ch = false → ∃ ch', close ch = Some ch' ∧ closed ch' = true.
Proof. intros H. unfold close. rewrite H. eexists; split; reflexivity. Qed.

Lemma cancelled_false ms j :
  (job_stop j < length (stopChans ms))%nat →
  cancelled ms j = false ↔ ∃ ch, stopChans ms !! job_stop j = Some ch ∧ closed ch = false.
Proof.
  intros Hlt. unfold cancelled.
  destruct (lookup_lt_is_Some_2 _ _ Hlt) as [ch Hch]. rewrite Hch.
  split; [eauto|]. intros (ch' & [= <-] & H). exact H.
Qed.

(** [stopMonitorJob] on a registered monitor. *)
Lemma stopMonitorJob_registered ms id c :
  registry_wf ms → activeJobs ms !! id = Some c →
  ∃ ch ch', stopChans ms !! c = Some ch ∧ close ch = Some ch' ∧ closed ch' = true ∧
    stopMonitorJob ms id =
      Some (with_jobs ms (delete id (activeJobs ms)) (<[c := ch']> (stopChans ms))
              (goroutines ms)).
Proof.
  intros (Hopen & _) Hreg. destruct (Hopen _ _ Hreg) as (ch & Hch & Hcl).
  destruct (close_open ch Hcl) as (ch' & Hclose & Hclosed).
  exists ch, ch'. repeat split; try assumption.
  unfold stopMonitorJob. rewrite Hreg. simpl. rewrite Hch. simpl. rewrite Hclose.
  reflexivity.
Qed.

Lemma stopMonitorJob_absent ms id :
  activeJobs ms !! id = None → stopMonitorJob ms id = Some ms.
Proof. intros H. unfold stopMonitorJob. rewrite H. reflexivity. Qed.

Lemma stopMonitorJob_wf ms id :
  registry_wf ms → ∃ ms', stopMonitorJob ms id = Some ms' ∧ registry_wf ms'.
Proof.
  intros Hwf. destruct (activeJobs ms !! id) as [c|] eqn:Hreg.
  2:{ exists ms. split; [apply stopMonitorJob_absent, Hreg | exact Hwf]. }
  destruct (stopMonitorJob_registered ms id c Hwf Hreg)
    as (ch & ch' & Hch & Hclose & Hclosed & ->).
  eexists. split; [reflexivity|].
  destruct Hwf as (Hopen & Hinj & Hlive & Hbound & Hnd).
  unfold registry_wf; simpl. repeat split.
  - intros id' c' Hl. apply lookup_delete_Some in Hl as [Hne Hl].
    destruct (Hopen _ _ Hl) as (x & Hx & Hxo). exists x. split; [|exact Hxo].
    rewrite list_lookup_insert_ne; [exact Hx|].
    intros ->. apply Hne. eapply Hinj; eauto.
  - intros id1 id2 c' H1 H2.
    apply lookup_delete_Some in H1 as [_ H1]. apply lookup_delete_Some in H2 as [_ H2].
    eapply Hinj; eauto.
  - intros j Hj Hc. unfold cancelled in Hc. simpl in Hc.
    destruct (<[c:=ch']> (stopChans ms) !! job_stop j) as [x|] eqn:Hx.
    2:{ apply lookup_ge_None in Hx. rewrite length_insert in Hx.
        specialize (Hbound j Hj). lia. }
    destruct (closed_elsewhere _ _ _ _ _ _ Hch Hclose Hx Hc) as [Hne Hold].
    assert (Hreg' : activeJobs ms !! job_monitor j = Some (job_stop j)).
    { apply Hlive; [exact Hj|]. unfold cancelled. rewrite Hold. exact Hc. }
    rewrite lookup_delete_ne; [exact Hreg'|].
    intros Heq. rewrite <- Heq in Hreg'. congruence.
  - intros j Hj. rewrite length_insert. apply Hbound, Hj.
  - exact Hnd.
Qed.

(** What [startMonitorJob] does to the memory of stop channels: the
    channel registered for the monitor, if any, is closed; nothing else
    changes. *)
Lemma startMonitorJob_shape ms monitor :
  registry_wf ms →
  ∃ chans,
    startMonitorJob ms monitor =
      Some (with_jobs ms
              (<[Hex (ID monitor) := length (stopChans ms)]> (activeJobs ms))
              (chans ++ [make 0])
              (goroutines ms ++ [{| job_monitor := Hex (ID monitor);
                                    job_stop := length (stopChans ms) |}])) ∧
    length chans = length (stopChans ms) ∧
    (∀ k x, chans !! k = Some x → closed x = false →
            stopChans ms !! k = Some x ∧ activeJobs ms !! Hex (ID monitor) ≠ Some k) ∧
    (∀ k x, stopChans ms !! k = Some x → activeJobs ms !! Hex (ID monitor) ≠ Some k →
            chans !! k = Some x) ∧
    (∀ old, activeJobs ms !! Hex (ID monitor) = Some old →
            ∃ ch, chans !! old = Some ch ∧ closed ch = true).
Proof.
  intros Hwf. pose proof Hwf as (Hopen & _).
  unfold startMonitorJob. destruct (activeJobs ms !! Hex (ID monitor)) as [c|] eqn:Hreg.
  - destruct (Hopen _ _ Hreg) as (ch & Hch & Hcl).
    destruct (close_open ch Hcl) as (ch' & Hclose & Hclosed).
    exists (<[c := ch']> (stopChans ms)).
    rewrite Hch. simpl. rewrite Hclose. simpl. rewrite length_insert.
    split; [reflexivity|]. split; [reflexivity|]. split; [|split].
    + intros k x Hk Hx.
      destruct (closed_elsewhere _ _ _ _ _ _ Hch Hclose Hk Hx) as [Hne Hold].
      split; [exact Hold | congruence].
    + intros k x Hk Hne. rewrite list_lookup_insert_ne; [exact Hk | congruence].
    + intros old [= <-]. exists ch'. split; [|exact Hclosed].
      apply list_lookup_insert_eq. eapply lookup_lt_Some; eauto.
  - exists (stopChans ms). simpl.
    split; [reflexivity|]. split; [reflexivity|]. split; [|split].
    + intros k x Hk Hx. split; [exact Hk | discriminate].
    + intros k x Hk _. exact Hk.
    + intros old [=].
Qed.

Lemma startMonitorJob_wf ms monitor :
  registry_wf ms → ∃ ms', startMonitorJob ms monitor = Some ms' ∧ registry_wf ms'.
Proof.
  intros Hwf.
  destruct (startMonitorJob_shape ms monitor Hwf) as (chans & -> & Hlen & Hnew & Hold & _).
  eexists. split; [reflexivity|].
  destruct Hwf as (Hopen & Hinj & Hlive & Hbound & Hnd).
  set (id := Hex (ID monitor)) in *. set (n := length (stopChans ms)) in *.
  unfold registry_wf; simpl. repeat split.
  - intros id' c' Hl. apply lookup_insert_Some in Hl as [[<- <-]|[Hne Hl]].
    + exists (make 0). split; [|reflexivity].
      rewrite lookup_app_r by lia. rewrite Hlen, Nat.sub_diag. reflexivity.
    + destruct (Hopen _ _ Hl) as (x & Hx & Hxo). exists x. split; [|exact Hxo].
      rewrite lookup_app_l by (rewrite Hlen; eapply lookup_lt_Some; eauto).
      apply Hold; [exact Hx|]. intros Hreg. apply Hne. eapply Hinj; eauto.
  - intros id1 id2 c' H1 H2.
    apply lookup_insert_Some in H1 as [[<- <-]|[Hne1 H1]];
      apply lookup_insert_Some in H2 as [[<- Hc]|[Hne2 H2]].
    + reflexivity.
    + destruct (Hopen _ _ H2) as (x & Hx & _). apply lookup_lt_Some in Hx.
      fold n in Hx. lia.
    + destruct (Hopen _ _ H1) as (x & Hx & _). apply lookup_lt_Some in Hx.
      fold n in Hx. lia.
    + eapply Hinj; eauto.
  - intros j Hj Hc. apply elem_of_app in Hj as [Hj|Hj].
    + pose proof (Hbound j Hj) as Hlt. fold n in Hlt.
      unfold cancelled in Hc. simpl in Hc.
      rewrite lookup_app_l in Hc by lia.
      destruct (chans !! job_stop j) as [x|] eqn:Hx.
      2:{ apply lookup_ge_None in Hx. lia. }
      destruct (Hnew _ _ Hx Hc) as [Hx' Hnreg].
      assert (Hreg' : activeJobs ms !! job_monitor j = Some (job_stop j)).
      { apply Hlive; [exact Hj|]. unfold cancelled. rewrite Hx'. exact Hc. }
      rewrite lookup_insert_ne; [exact Hreg'|].
      intros Heq. apply Hnreg. rewrite Heq. exact Hreg'.
    + apply list_elem_of_singleton in Hj as ->. simpl. apply lookup_insert_eq.
  - intros j Hj. rewrite length_app, Hlen. simpl. fold n.
    apply elem_of_app in Hj as [Hj|Hj].
    + specialize (Hbound j Hj). fold n in Hbound. lia.
    + apply list_elem_of_singleton in Hj as ->. simpl. lia.
  - rewrite fmap_app. apply NoDup_app. split; [exact Hnd|]. split.
    + intros c Hc Hin. apply list_elem_of_singleton in Hin as ->.
      apply list_elem_of_fmap in Hc as (j & Hj & Hjin).
      specialize (Hbound j Hjin). fold n in Hbound. simpl in Hj. lia.
    + simpl. apply NoDup_singleton.
Qed.

Lemma job_return_wf ms k : registry_wf ms → registry_wf (job_return ms k).
Proof.
  intros Hwf. unfold job_return.
  destruct (goroutines ms !! k) as [j|]; [|exact Hwf].
  destruct (cancelled ms j); [|exact Hwf].
  destruct Hwf as (Hopen & Hinj & Hlive & Hbound & Hnd).
  pose proof (sublist_delete (goroutines ms) k) as Hsub.
  unfold registry_wf; simpl. repeat split.
  - exact Hopen.
  - exact Hinj.
  - intros j' Hj'. apply Hlive. eapply elem_of_sublist; eauto.
  - intros j' Hj'. apply Hbound. eapply elem_of_sublist; eauto.
  - eapply sublist_NoDup; [exact Hnd|]. apply fmap_sublist, Hsub.
Qed.

Lemma job_step_wf ms op :
  registry_wf ms → ∃ ms', job_step ms op = Some ms' ∧ registry_wf ms'.
Proof.
  intros Hwf. destruct op as [monitor|id|k]; simpl.
  - apply startMonitorJob_wf, Hwf.
  - apply stopMonitorJob_wf, Hwf.
  - eexists. split; [reflexivity|]. apply job_return_wf, Hwf.
Qed.

(** No sequence of starts, stops and returns panics, and each leaves
    the registry well formed. *)
Lemma job_steps_wf ops : ∀ ms,
  registry_wf ms → ∃ ms', job_steps ms ops = Some ms' ∧ registry_wf ms'.
Proof.
  induction ops as [|op ops IH]; intros ms Hwf; simpl.
  - eauto.
  - destruct (job_step_wf ms op Hwf) as (ms1 & -> & Hwf1). simpl. apply IH, Hwf1.
Qed.

(** A list whose images under [f] are pairwise distinct has at most one
    element in any class that [f] maps to a single value. *)
Lemma filter_single {A B} (f : A → B) (P : A → Prop) `{∀ x, Decision (P x)}
    (l : list A) (c : B) :
  NoDup (f <$> l) → (∀ x, x ∈ l → P x → f x = c) → (length (filter P l) ≤ 1)%nat.
Proof.
  induction l as [|a l IH]; intros Hnd Hc.
  - rewrite filter_nil. simpl. lia.
  - rewrite fmap_cons in Hnd. apply NoDup_cons in Hnd as [Hnotin Hnd].
    assert (IH' : (length (filter P l) ≤ 1)%nat).
    { apply IH; [exact Hnd|]. intros x Hx. apply Hc. right. exact Hx. }
    rewrite filter_cons. destruct (decide (P a)) as [Ha|Ha]; [|exact IH'].
    destruct (filter P l) as [|x r] eqn:Hfl; [simpl; lia|].
    exfalso. apply Hnotin.
    assert (Hx : x ∈ filter P l) by (rewrite Hfl; left).
    apply list_elem_of_filter in Hx as [HPx Hxl].
    rewrite (Hc a (list_elem_of_here _ _) Ha), <- (Hc x (list_elem_of_further _ _ _ Hxl) HPx).
    apply list_elem_of_fmap_2, Hxl.
Qed.

Lemma live_jobs_at_most_one ms id :
  registry_wf ms → (length (live_jobs ms id) ≤ 1)%nat.
Proof.
  intros (_ & _ & Hlive & _ & Hnd). unfold live_jobs.
  destruct (activeJobs ms !! id) as [c|] eqn:Hreg.
  - apply (filter_single job_stop _ _ c Hnd).
    intros j Hj [<- Hc]. specialize (Hlive j Hj Hc). congruence.
  - apply (filter_single job_stop _ _ 0%nat Hnd).
    intros j Hj [<- Hc]. specialize (Hlive j Hj Hc). congruence.
Qed.

Lemma live_jobs_registered ms id j :
  registry_wf ms → j ∈ live_jobs ms id → activeJobs ms !! id = Some (job_stop j).
Proof.
  intros (_ & _ & Hlive & _) Hj. unfold live_jobs in Hj.
  apply list_elem_of_filter in Hj as [[<- Hc] Hj]. apply Hlive; assumption.
Qed.

(** Starting a monitor that has a job: the old stop channel is closed,
    a new one is registered, and the new goroutine is the only one of
    the monitor that has not been told to stop. *)
Lemma startMonitorJob_replaces ms monitor old :
  registry_wf ms → activeJobs ms !! Hex (ID monitor) = Some old →
  ∃ ms' new,
    startMonitorJob ms monitor = Some ms' ∧
    (∃ ch, stopChans ms' !! old = Some ch ∧ closed ch = true) ∧
    activeJobs ms' !! Hex (ID monitor) = Some new ∧ new ≠ old ∧
    live_jobs ms' (Hex (ID monitor)) =
      [{| job_monitor := Hex (ID monitor); job_stop := new |}].
Proof.
  intros Hwf Hreg.
  destruct (startMonitorJob_wf ms monitor Hwf) as (ms' & Hstart & Hwf').
  destruct (startMonitorJob_shape ms monitor Hwf) as (chans & Hshape & Hlen & _ & _ & Hold).
  destruct (Hold old Hreg) as (ch & Hch & Hclosed).
  pose proof (lookup_lt_Some _ _ _ Hch) as Hlt.
  exists ms', (length (stopChans ms)). split; [exact Hstart|].
  pose proof (live_jobs_at_most_one ms' (Hex (ID monitor)) Hwf') as Hle.
  rewrite Hshape in Hstart. injection Hstart as <-.
  split; [|split; [|split]].
  - exists ch. simpl. rewrite lookup_app_l by lia. auto.
  - simpl. apply lookup_insert_eq.
  - lia.
  - revert Hle. unfold live_jobs. simpl goroutines. rewrite filter_app.
    rewrite (filter_cons _ _ []), filter_nil.
    rewrite decide_True.
    + destruct (filter _ (goroutines ms)); [reflexivity|].
      rewrite length_app. simpl. lia.
    + split; [reflexivity|]. unfold cancelled. simpl.
      rewrite lookup_app_r by lia. rewrite Hlen, Nat.sub_diag. reflexivity.
Qed.

(** C3. Whatever sequence of starts, stops and goroutine returns the
    service goes through, no operation panics, and afterwards every
    monitor id has at most one goroutine that has not been told to
    stop, namely the one whose stop channel the registry holds.
    Starting a monitor that already has a job closes the old stop
    channel and installs a new one in the same step, after which the
    new goroutine is the only live one for that id. *)
Theorem one_loop_per_monitor (d : MongoDB) (n : nat) (ops : list JobOp) :
  ∃ ms, job_steps (NewMonitorService d n) ops = Some ms ∧
    (∀ id, (length (live_jobs ms id) ≤ 1)%nat) ∧
    (∀ id j, j ∈ live_jobs ms id → activeJobs ms !! id = Some (job_stop j)) ∧
    (∀ monitor old, activeJobs ms !! Hex (ID monitor) = Some old →
       ∃ ms' new,
         startMonitorJob ms monitor = Some ms' ∧
         (∃ ch, stopChans ms' !! old = Some ch ∧ closed ch = true) ∧
         activeJobs ms' !! Hex (ID monitor) = Some new ∧ new ≠ old ∧
         live_jobs ms' (Hex (ID monitor)) =
           [{| job_monitor := Hex (ID monitor); job_stop := new |}]).
Proof.
  destruct (job_steps_wf ops _ (registry_wf_new d n)) as (ms & Hrun & Hwf).
  exists ms. split; [exact Hrun|]. split; [|split].
  - intros id. apply live_jobs_at_most_one, Hwf.
  - intros id j. apply live_jobs_registered, Hwf.
  - intros monitor old. apply startMonitorJob_replaces, Hwf.
Qed.

Lemma one_loop_per_monitor_restart :
  ∃ ms ms' new,
    job_steps ms0 [OpStart monitor0] = Some ms ∧
    startMonitorJob ms monitor0 = Some ms' ∧
    activeJobs ms' !! Hex (ID monitor0) = Some new ∧ new ≠ 0%nat ∧
    live_jobs ms' (Hex (ID monitor0)) =
      [{| job_monitor := Hex (ID monitor0); job_stop := new |}].
Proof.
  destruct (one_loop_per_monitor db0 10 [OpStart monitor0]) as (ms & Hrun & _ & _ & Hre).
  assert (Hreg : activeJobs ms !! Hex (ID monitor0) = Some 0%nat).
  { vm_compute in Hrun. injection Hrun as <-. reflexivity. }
  destruct (Hre monitor0 0%nat Hreg) as (ms' & new & Hstart & _ & Hnew & Hne & Hlive).
  exists ms, ms', new. repeat split; assumption.
Defined.

End JobRegistry.

(** ** The broadcast hub *)

Section BroadcastHub.

Implicit Types (h : WebSocketHub) (c : WebSocketClient) (m : WebSocketMessage) (p : ptr).

Lemma unregisterClient_registered h p c :
  is_Some (Clients h !! p) → objects h !! p = Some c → closed (Send c) = false →
  unregisterClient h p = Some (store (forget h p) p (evicted c)).
Proof.
  intros [b Hb] Hc Hopen. unfold unregisterClient, close.
  rewrite Hb, Hc. simpl. rewrite Hopen. reflexivity.
Qed.

(** One visit of the loop. *)
Lemma offer_registered h p c m :
  is_Some (Clients h !! p) → objects h !! p = Some c → closed (Send c) = false →
  offer h p m = Some (if full (Send c)
                      then store (forget h p) p (evicted c)
                      else store h p (delivered c m)).
Proof.
  intros Hreg Hc Hopen. unfold offer. rewrite Hc. simpl.
  destruct (full (Send c)) eqn:Hfull.
  - rewrite (send_now_full _ _ Hopen Hfull).
    apply unregisterClient_registered; assumption.
  - rewrite (send_now_room _ _ Hopen Hfull). reflexivity.
Qed.

Lemma offer_wf h p c m :
  hub_wf h →
  hub_wf (if full (Send c) then store (forget h p) p (evicted c)
          else store h p (delivered c m)).
Proof.
  intros Hwf q. destruct (full (Send c)); simpl; intros Hq.
  - apply lookup_delete_is_Some in Hq as [Hne Hq].
    rewrite lookup_insert_ne by exact Hne. apply Hwf, Hq.
  - destruct (decide (p = q)) as [->|Hne].
    + rewrite lookup_insert_eq. eexists. split; reflexivity.
    + rewrite lookup_insert_ne by exact Hne. apply Hwf, Hq.
Qed.

Lemma offer_elsewhere h p c m q :
  p ≠ q →
  let h' := if full (Send c) then store (forget h p) p (evicted c)
            else store h p (delivered c m) in
  Clients h' !! q = Clients h !! q ∧ objects h' !! q = objects h !! q
  ∧ Broadcast h' = Broadcast h.
Proof.
  intros Hne. destruct (full (Send c)); simpl;
    rewrite ?lookup_delete_ne, ?lookup_insert_ne by exact Hne; auto.
Qed.

Lemma offer_here h p c m :
  let h' := if full (Send c) then store (forget h p) p (evicted c)
            else store h p (delivered c m) in
  visited h h' m p c.
Proof.
  unfold visited. destruct (full (Send c)); simpl;
    rewrite ?lookup_delete_eq, ?lookup_insert_eq; auto.
Qed.

(** The whole loop, by induction on the order of the visit. *)
Lemma range_Clients_spec m order : ∀ h,
  hub_wf h → NoDup order → (∀ p, p ∈ order → is_Some (Clients h !! p)) →
  ∃ h', range_Clients order m h = Some h' ∧ hub_wf h' ∧
    Broadcast h' = Broadcast h ∧
    (∀ p, p ∉ order →
          Clients h' !! p = Clients h !! p ∧ objects h' !! p = objects h !! p) ∧
    (∀ p c, p ∈ order → objects h !! p = Some c → visited h h' m p c).
Proof.
  induction order as [|p rest IH]; intros h Hwf Hnd Hreg.
  - exists h. simpl. repeat split; auto. intros p c Hp. inversion Hp.
  - apply NoDup_cons in Hnd as [Hnotin Hnd].
    pose proof (Hreg p (list_elem_of_here _ _)) as Hp.
    destruct (Hwf p Hp) as (c & Hc & Hopen).
    cbn [range_Clients]. destruct Hp as [b Hb]. rewrite Hb.
    rewrite (offer_registered h p c m (mk_is_Some _ _ Hb) Hc Hopen). simpl.
    set (h1 := if full (Send c) then store (forget h p) p (evicted c)
               else store h p (delivered c m)).
    assert (Hreg1 : ∀ q, q ∈ rest → is_Some (Clients h1 !! q)).
    { intros q Hq. assert (Hne : p ≠ q) by (intros ->; contradiction).
      destruct (offer_elsewhere h p c m q Hne) as (E & _). fold h1 in E.
      rewrite E. apply Hreg. right. exact Hq. }
    destruct (IH h1 (offer_wf h p c m Hwf) Hnd Hreg1)
      as (h' & Hrun & Hwf' & Hb' & Hout & Hin).
    exists h'. split; [exact Hrun|]. split; [exact Hwf'|]. split; [|split].
    + rewrite Hb'. unfold h1. destruct (full (Send c)); reflexivity.
    + intros q Hq. apply not_elem_of_cons in Hq as [Hne Hq].
      destruct (Hout q Hq) as [-> ->].
      destruct (offer_elsewhere h p c m q (not_eq_sym Hne)) as (E1 & E2 & _).
      fold h1 in E1, E2. split; assumption.
    + intros q cq Hq Hcq. apply elem_of_cons in Hq as [->|Hq].
      * assert (cq = c) as -> by congruence.
        destruct (Hout p Hnotin) as [E1 E2].
        pose proof (offer_here h p c m) as Hv. fold h1 in Hv. simpl in Hv.
        unfold visited in *. destruct (full (Send c)); rewrite E1, E2; exact Hv.
      * assert (Hne : p ≠ q) by (intros ->; contradiction).
        destruct (offer_elsewhere h p c m q Hne) as (E1 & E2 & _). fold h1 in E1, E2.
        rewrite <- E2 in Hcq. specialize (Hin q cq Hq Hcq).
        unfold visited in *. destruct (full (Send cq)); rewrite <- ?E1; exact Hin.
Qed.

(** The hypothesis on the hub holds along every run of it: it holds of
    a new hub, and registering a client with an open queue, removing a
    client and broadcasting keep it. *)
Lemma hub_wf_new : hub_wf NewWebSocketHub.
Proof. intros p [b Hb]. unfold NewWebSocketHub in Hb. simpl in Hb. simplify_map_eq. Qed.

Lemma Run_broadcast_wf h m order :
  hub_wf h → enumerates order h →
  ∃ h', Run_broadcast h m order = Some h' ∧ hub_wf h'.
Proof.
  intros Hwf [Hnd Hen].
  destruct (range_Clients_spec m order h Hwf Hnd (λ p Hp, proj1 (Hen p) Hp))
    as (h' & Hrun & Hwf' & _).
  exists h'. split; assumption.
Qed.

Lemma Run_unregister_wf h p :
  hub_wf h → ∃ h', Run_unregister h p = Some h' ∧ hub_wf h'.
Proof.
  intros Hwf. unfold Run_unregister. destruct (Clients h !! p) as [b|] eqn:Hb.
  - destruct (Hwf p (mk_is_Some _ _ Hb)) as (c & Hc & Hopen).
    rewrite Hc. simpl. unfold close. rewrite Hopen. simpl.
    eexists. split; [reflexivity|]. intros q Hq. simpl in *.
    apply lookup_delete_is_Some in Hq as [Hne Hq].
    rewrite lookup_insert_ne by exact Hne. apply Hwf, Hq.
  - exists h. split; [reflexivity | exact Hwf].
Qed.

Lemma Run_register_wf h p c :
  hub_wf h → objects h !! p = Some c → closed (Send c) = false →
  ∃ h', Run_register h p = Some h' ∧ hub_wf h'.
Proof.
  intros Hwf Hc Hopen. unfold Run_register.
  set (h0 := {| Clients := <[p:=true]> (Clients h); Broadcast := Broadcast h;
                objects := objects h |}).
  assert (Hwf0 : hub_wf h0).
  { intros q Hq. simpl in *. destruct (decide (p = q)) as [<-|Hne]; [eauto|].
    rewrite lookup_insert_ne in Hq by exact Hne. apply Hwf, Hq. }
  assert (Hreg : is_Some (Clients h0 !! p)) by (simpl; rewrite lookup_insert_eq; eauto).
  rewrite (offer_registered h0 p c welcome Hreg Hc Hopen).
  eexists. split; [reflexivity|]. apply offer_wf, Hwf0.
Qed.

(** C5. One broadcast visits every registered observer, in whatever
    order the map yields them, and returns without waiting on any of
    them.  An observer whose queue has room gets the message appended
    and stays registered; an observer whose queue is full is removed,
    its queue and connection closed.  The observers registered
    afterwards are exactly those that had room. *)
Theorem broadcast_delivers_or_evicts h m (order : list ptr) :
  hub_wf h → enumerates order h →
  ∃ h', Run_broadcast h m order = Some h' ∧
    (∀ p c, is_Some (Clients h !! p) → objects h !! p = Some c →
       (full (Send c) = false →
          is_Some (Clients h' !! p) ∧ objects h' !! p = Some (delivered c m)) ∧
       (full (Send c) = true →
          Clients h' !! p = None ∧ objects h' !! p = Some (evicted c))) ∧
    (∀ p, is_Some (Clients h' !! p) ↔
          ∃ c, is_Some (Clients h !! p) ∧ objects h !! p = Some c ∧
               full (Send c) = false).
Proof.
  intros Hwf [Hnd Hen].
  destruct (range_Clients_spec m order h Hwf Hnd (λ p Hp, proj1 (Hen p) Hp))
    as (h' & Hrun & _ & _ & Hout & Hin).
  exists h'. split; [exact Hrun|]. split.
  - intros p c Hp Hc. specialize (Hin p c (proj2 (Hen p) Hp) Hc).
    unfold visited in Hin. split; intros Hfull; rewrite Hfull in Hin.
    + destruct Hin as [-> ->]. auto.
    + exact Hin.
  - intros p. split.
    + intros Hp'. destruct (decide (p ∈ order)) as [Hp|Hp].
      * pose proof (proj1 (Hen p) Hp) as Hreg.
        destruct (Hwf p Hreg) as (c & Hc & _). exists c.
        specialize (Hin p c Hp Hc). unfold visited in Hin.
        destruct (full (Send c)).
        -- destruct Hin as [Hnone _]. rewrite Hnone in Hp'. destruct Hp' as [? [=]].
        -- auto.
      * destruct (Hout p Hp) as [E _]. rewrite E in Hp'.
        exfalso. apply Hp, Hen, Hp'.
    + intros (c & Hreg & Hc & Hfull).
      specialize (Hin p c (proj2 (Hen p) Hreg) Hc). unfold visited in Hin.
      rewrite Hfull in Hin. destruct Hin as [-> _]. exact Hreg.
Qed.

Lemma hub3_wf : hub_wf hub3.
Proof.
  intros p [b Hb]. unfold hub3 in *. simpl in *.
  repeat (apply lookup_insert_Some in Hb as [[<- _]|[? Hb]];
          [eexists; split; [reflexivity|reflexivity]|]).
  rewrite lookup_empty in Hb. discriminate.
Qed.

Lemma hub3_order : enumerates [3; 1; 2]%nat hub3.
Proof.
  split.
  - repeat (apply NoDup_cons; split; [rewrite ?elem_of_cons, elem_of_nil; lia|]).
    apply NoDup_nil_2.
  - intros p. unfold hub3. simpl. rewrite !lookup_insert_is_Some, lookup_empty.
    rewrite !elem_of_cons, elem_of_nil. split.
    + intros [->|[->|[->|[]]]]; auto 10.
    + intros [->|[_ [->|[_ [->|[_ Hnone]]]]]]; auto.
      destruct Hnone as [b Hb]. discriminate Hb.
Qed.

Lemma broadcast_delivers_or_evicts_hub3 :
  ∃ h', Run_broadcast hub3 ping_all [3; 1; 2]%nat = Some h' ∧
    (is_Some (Clients h' !! 1%nat) ∧
     objects h' !! 1%nat = Some (delivered (NewWebSocketClient "client_1") ping_all)) ∧
    (Clients h' !! 2%nat = None ∧ objects h' !! 2%nat = Some (evicted stalled_client)) ∧
    (is_Some (Clients h' !! 3%nat) ∧
     objects h' !! 3%nat = Some (delivered (NewWebSocketClient "client_3") ping_all)).
Proof.
  destruct (broadcast_delivers_or_evicts hub3 ping_all [3; 1; 2]%nat hub3_wf hub3_order)
    as (h' & Hrun & Hobs & _).
  exists h'. split; [exact Hrun|]. split; [|split].
  - apply (Hobs 1%nat (NewWebSocketClient "client_1")); [eexists|..]; reflexivity.
  - apply (Hobs 2%nat stalled_client); [eexists|..]; reflexivity.
  - apply (Hobs 3%nat (NewWebSocketClient "client_3")); [eexists|..]; reflexivity.
Defined.

End BroadcastHub.

(** ** The scheduler loop *)

Section SchedulerLoop.

Implicit Types (ms : MonitorService) (wsHub : WebSocketHub) (monitor : Monitor).

Lemma ticker_period monitor :
  1 <= Interval monitor <= 9223372036 →
  NewTicker (Int64.mul (Interval monitor) Second) = Some (Interval monitor * Second).
Proof.
  intros H. unfold Int64.mul. rewrite wrap_small.
  - unfold NewTicker, Second. destruct (Z.ltb_spec 0 (Interval monitor * 1000000000));
      [reflexivity | lia].
  - unfold Int64.in_range, Int64.min_int, Int64.max_int, Second. lia.
Qed.

(** A monitor whose interval is not positive takes the goroutine down
    before the first probe, whatever the service, the hub and the
    network do. *)
Lemma job_goroutine_bad_interval ms wsHub monitor first wakeups :
  -9223372036 <= Interval monitor <= 0 →
  job_goroutine ms wsHub monitor first wakeups = Panicked [].
Proof.
  intros H. unfold job_goroutine, Int64.mul. rewrite wrap_small.
  - unfold NewTicker, Second. destruct (Z.ltb_spec 0 (Interval monitor * 1000000000));
      [lia | reflexivity].
  - unfold Int64.in_range, Int64.min_int, Int64.max_int, Second. lia.
Qed.

(** C6. The request [{name: neg, url: http://y, interval: -5}] is not
    turned away: [Validate] fills in zero values only, so [ToMonitor]
    gives an active monitor with interval -5, [CreateMonitor] stores
    it and [StartMonitorJob] registers its job and starts the
    goroutine.  That goroutine panics in [time.NewTicker] before its
    first probe, for every hub, network answer and sequence of
    wake-ups: the monitor is started and never probed, and the panic
    is not recovered.  On the stored monitor with interval 5 the same
    goroutine probes once at once, once for the tick, and returns at
    the stop signal without the probe of the tick that follows; with
    256 events waiting in the hub's inbound queue it is parked inside
    its first probe and does not take the stop case. *)
Theorem scheduler_loop_panics_on_negative_interval :
  let monitor := set_ID (ToMonitor request_negative 7) "65a000000000000000000009" in
  Interval monitor = -5 ∧ IsActive monitor = true ∧
  (∃ ms1 ms2,
     CreateMonitor ms0 (ToMonitor request_negative 7) "65a000000000000000000009"
       = (ms1, monitor, None) ∧
     StartMonitorJob ms1 monitor = Some ms2 ∧
     activeJobs ms2 !! Hex (ID monitor) = Some 0%nat ∧
     goroutines ms2 = [{| job_monitor := Hex (ID monitor); job_stop := 0 |}] ∧
     ∀ wsHub first wakeups,
       job_goroutine ms2 wsHub monitor first wakeups = Panicked []) ∧
  (∃ ms' h',
     job_goroutine ms0 NewWebSocketHub monitor0 (Response 200 12, 1000)
       [TickerC (Response 200 12) 6000; StopChan; TickerC (Response 200 12) 11000]
     = Returned ms' h' [Call_checkEndpoint monitor0; Call_checkEndpoint monitor0;
                        Log_stopped; Ticker_Stop]) ∧
  (∃ ms',
     job_goroutine ms0 hub_saturated monitor0 (Response 200 12, 1000) [StopChan]
     = InProbe ms' hub_saturated [] ∧
     buf (semaphore ms') = [tt]).
Proof.
  cbv zeta. split; [reflexivity|]. split; [reflexivity|]. split; [|split].
  - eexists _, _. split; [reflexivity|]. split; [reflexivity|].
    split; [reflexivity|]. split; [reflexivity|].
    intros wsHub first wakeups. apply job_goroutine_bad_interval. simpl. lia.
  - eexists _, _. vm_compute. reflexivity.
  - eexists. split; vm_compute; reflexivity.
Qed.

End SchedulerLoop.

(** ** Creating and deleting monitors *)

Section Monitors.

Implicit Types (ms : MonitorService) (monitor : Monitor) (id : ObjectID).

Lemma filter_nonempty {A} (P : A → Prop) `{∀ x, Decision (P x)} (l : list A) :
  (0 <? Z.of_nat (length (filter P l))) = true ↔ ∃ x, x ∈ l ∧ P x.
Proof.
  rewrite Z.ltb_lt. split.
  - intros Hlen. destruct (filter P l) as [|x r] eqn:Hf; [simpl in Hlen; lia|].
    exists x. assert (Hx : x ∈ filter P l) by (rewrite Hf; left).
    apply list_elem_of_filter in Hx. tauto.
  - intros (x & Hx & HP).
    assert (Hin : x ∈ filter P l) by (apply list_elem_of_filter; auto).
    destruct (filter P l); [inversion Hin | simpl; lia].
Qed.

(** [CreateMonitor] when the store answers. *)
Lemma CreateMonitor_taken ms monitor newID :
  fault (db ms) = None → url_taken ms (MURL monitor) →
  CreateMonitor ms monitor newID =
    (ms, monitor, Some (duplicate_url_error (MURL monitor))).
Proof.
  intros Hf Htaken. unfold CreateMonitor, CountByURL. rewrite Hf.
  apply (filter_nonempty (λ m, MURL m = MURL monitor)) in Htaken.
  rewrite Htaken. reflexivity.
Qed.

Lemma CreateMonitor_free ms monitor newID :
  fault (db ms) = None → ¬ url_taken ms (MURL monitor) →
  CreateMonitor ms monitor newID =
    (with_db ms (with_monitors (db ms) (monitors (db ms) ++ [set_ID monitor newID])),
     set_ID monitor newID, None).
Proof.
  intros Hf Hfree. unfold CreateMonitor, CountByURL, InsertMonitor. rewrite Hf.
  destruct (0 <? _) eqn:Hcount.
  - exfalso. apply Hfree. apply (filter_nonempty (λ m, MURL m = MURL monitor)), Hcount.
  - rewrite bool_decide_eq_false_2; [reflexivity|].
    intros Hex. apply Hfree. apply Exists_exists in Hex as (m & Hm & Hurl).
    exists m. split; [exact Hm | exact Hurl].
Qed.

Lemma CreateMonitor_error_unchanged ms monitor newID ms' monitor' e :
  CreateMonitor ms monitor newID = (ms', monitor', Some e) → ms' = ms.
Proof.
  unfold CreateMonitor. destruct (CountByURL _ _) as [count|e0]; [|congruence].
  destruct (0 <? count); [congruence|].
  destruct (InsertMonitor _ _ _) as [[d i]|e1]; congruence.
Qed.

Lemma url_taken_dec ms url : url_taken ms url ∨ ¬ url_taken ms url.
Proof.
  destruct (0 <? Z.of_nat (length (filter (λ m, MURL m = url) (monitors (db ms)))))
    eqn:Hc.
  - left. apply (filter_nonempty (λ m, MURL m = url)), Hc.
  - right. intros Ht. apply (filter_nonempty (λ m, MURL m = url)) in Ht. congruence.
Qed.

Lemma registry_wf_with_db ms d : registry_wf ms → registry_wf (with_db ms d).
Proof. intros H. exact H. Qed.

(** C7. While the store answers, [CreateMonitor] returns the
  duplicate-URL error exactly when a stored monitor has the target
  URL of the new one, and then nothing is inserted: the service, store
  included, is what it was; otherwise there is no error and the
  monitor is appended to the store.  The handler answers 409 Conflict
  exactly in the first case, leaving the service as it was, and 201
  Created in the second. *)
Theorem CreateMonitor_duplicate_url ms :
  fault (db ms) = None →
  (∀ monitor (newID : ObjectID),
     ∃ ms1 monitor1 err,
       monitor_service.CreateMonitor ms monitor newID = (ms1, monitor1, err) ∧
       (err = Some (duplicate_url_error (MURL monitor)) ↔ url_taken ms (MURL monitor)) ∧
       (url_taken ms (MURL monitor) → ms1 = ms) ∧
       (¬ url_taken ms (MURL monitor) →
          err = None ∧ monitors (db ms1) = monitors (db ms) ++ [monitor1]))
  ∧ (∀ (req : CreateMonitorRequest) (newID : ObjectID) (now : Time),
       registry_wf ms → ReqName req ≠ "" → ReqURL req ≠ "" →
       ∃ ms2 answer,
         handlers.CreateMonitor ms req newID now = Some (ms2, answer) ∧
         (status_of answer = handlers.StatusConflict ↔ url_taken ms (ReqURL req)) ∧
         (url_taken ms (ReqURL req) → ms2 = ms) ∧
         (¬ url_taken ms (ReqURL req) →
            status_of answer = handlers.StatusCreated ∧
            ∃ monitor1, MURL monitor1 = ReqURL req ∧
                        monitors (db ms2) = monitors (db ms) ++ [monitor1])).
Proof.
  intros Hf. split.
  - intros monitor newID.
    destruct (url_taken_dec ms (MURL monitor)) as [Ht|Hfree].
    + rewrite (CreateMonitor_taken ms monitor newID Hf Ht).
      eexists _, _, _. split; [reflexivity|].
      repeat split; auto; contradiction.
    + rewrite (CreateMonitor_free ms monitor newID Hf Hfree).
      eexists _, _, _. split; [reflexivity|].
      split; [split; [discriminate | contradiction]|].
      split; [contradiction|]. intros _. split; reflexivity.
  - intros req newID now Hwf Hname Hurl.
    assert (HU : MURL (ToMonitor req now) = ReqURL req) by reflexivity.
    unfold handlers.CreateMonitor.
    apply String.eqb_neq in Hname, Hurl. rewrite Hname, Hurl. cbn [orb].
    destruct (url_taken_dec ms (ReqURL req)) as [Ht|Hfree].
    + rewrite (CreateMonitor_taken ms (ToMonitor req now) newID Hf) by (rewrite HU; exact Ht).
      rewrite HU. unfold duplicate_url_error. rewrite String.eqb_refl.
      eexists _, _. split; [reflexivity|].
      repeat split; auto; contradiction.
    + rewrite (CreateMonitor_free ms (ToMonitor req now) newID Hf) by (rewrite HU; exact Hfree).
      cbn [IsActive set_ID ToMonitor].
      match goal with
      | |- context [StartMonitorJob ?m ?x] =>
          destruct (startMonitorJob_shape m x (registry_wf_with_db ms _ Hwf))
            as (chans & Hshape & _)
      end.
      unfold StartMonitorJob. rewrite Hshape. cbn [mbind option_bind].
      eexists _, _. split; [reflexivity|].
      split; [split; [discriminate | contradiction]|].
      split; [contradiction|]. intros _. split; [reflexivity|].
      eexists. split; [|reflexivity]. reflexivity.
Qed.

Lemma CreateMonitor_duplicate_url_conflict :
  ∃ ms1 monitor1 ms2 answer,
    monitor_service.CreateMonitor ms0 (ToMonitor request0 7) "65a000000000000000000002"
      = (ms1, monitor1, Some (duplicate_url_error "http://x")) ∧
    handlers.CreateMonitor ms0 request0 "65a000000000000000000002" 7 = Some (ms2, answer) ∧
    status_of answer = handlers.StatusConflict ∧ ms1 = ms0 ∧ ms2 = ms0.
Proof.
  destruct (CreateMonitor_duplicate_url ms0 eq_refl) as [Hservice Hhandler].
  assert (Ht : url_taken ms0 "http://x").
  { exists monitor0. split; [left | reflexivity]. }
  destruct (Hservice (ToMonitor request0 7) "65a000000000000000000002")
    as (ms1 & monitor1 & err & H1 & Herr & Hsame & _).
  destruct (Hhandler request0 "65a000000000000000000002" 7 (registry_wf_new db0 10)
              ltac:(simpl; discriminate) ltac:(simpl; discriminate))
    as (ms2 & answer & H2 & Hstatus & Hsame2 & _).
  exists ms1, monitor1, ms2, answer.
  apply Herr in Ht as Herr'. rewrite Herr' in H1.
  split; [exact H1|]. split; [exact H2|].
  split; [apply Hstatus, Ht|]. split; [apply Hsame, Ht | apply Hsame2, Ht].
Defined.

Lemma remove_first_count {A} (p : A → bool) (l : list A) :
  (remove_first p l).2 = 0 ↔ ∀ x, x ∈ l → p x = false.
Proof.
  induction l as [|a l IH]; simpl.
  - split; [|reflexivity]. intros _ x Hx. inversion Hx.
  - destruct (p a) eqn:Hpa; simpl.
    + split; [discriminate|]. intros Hall.
      rewrite (Hall a (list_elem_of_here _ _)) in Hpa. discriminate.
    + destruct (remove_first p l) as [r n]. simpl in *. rewrite IH. split.
      * intros Hall x Hx. apply elem_of_cons in Hx as [->|Hx]; auto.
      * intros Hall x Hx. apply Hall. right. exact Hx.
Qed.

Lemma stopMonitorJob_db ms (monitorID : string) ms1 :
  stopMonitorJob ms monitorID = Some ms1 → db ms1 = db ms.
Proof.
  unfold stopMonitorJob. destruct (activeJobs ms !! monitorID) as [c|].
  - destruct (stopChans ms !! c) as [ch|]; simpl; [|discriminate].
    destruct (close ch); simpl; [|discriminate]. intros [= <-]. reflexivity.
  - intros [= <-]. reflexivity.
Qed.

Lemma stopMonitorJob_unregisters ms (monitorID : string) ms1 :
  stopMonitorJob ms monitorID = Some ms1 → activeJobs ms1 !! monitorID = None.
Proof.
  unfold stopMonitorJob. destruct (activeJobs ms !! monitorID) as [c|] eqn:Hreg.
  - destruct (stopChans ms !! c) as [ch|]; simpl; [|discriminate].
    destruct (close ch); simpl; [|discriminate]. intros [= <-]. simpl.
    apply lookup_delete_eq.
  - intros [= <-]. exact Hreg.
Qed.

Lemma live_jobs_unregistered ms (id : string) :
  registry_wf ms → activeJobs ms !! id = None → live_jobs ms id = [].
Proof.
  intros Hwf Hnone. destruct (live_jobs ms id) as [|j r] eqn:Hl; [reflexivity|].
  assert (Hj : j ∈ live_jobs ms id) by (rewrite Hl; left).
  apply (live_jobs_registered ms id j Hwf) in Hj. congruence.
Qed.

(** What one call of [DeleteMonitor] does to the registry and to the
  store. *)
Lemma DeleteMonitor_outcome ms id :
  registry_wf ms →
  ∃ ms1 ms' err,
    stopMonitorJob ms (Hex id) = Some ms1 ∧
    DeleteMonitor ms id = Some (ms', err) ∧
    activeJobs ms' !! Hex id = None ∧
    live_jobs ms' (Hex id) = [] ∧
    (∀ old, activeJobs ms !! Hex id = Some old →
            ∃ ch, stopChans ms' !! old = Some ch ∧ closed ch = true) ∧
    (activeJobs ms !! Hex id = None → ms1 = ms) ∧
    stopMonitorJob ms1 (Hex id) = Some ms1 ∧
    (fault (db ms) = None →
       (err = Some not_found_error ↔ ¬ id_known ms id) ∧
       (id_known ms id → err = None)).
Proof.
  intros Hwf.
  destruct (stopMonitorJob_wf ms (Hex id) Hwf) as (ms1 & Hstop & Hwf1).
  pose proof (stopMonitorJob_db _ _ _ Hstop) as Hdb.
  pose proof (stopMonitorJob_unregisters _ _ _ Hstop) as Hnone.
  assert (Hshape : ∃ d err, DeleteMonitor ms id = Some (with_db ms1 d, err) ∧
            (fault (db ms) = None →
               (err = Some not_found_error ↔ ¬ id_known ms id) ∧
               (id_known ms id → err = None))).
  { unfold DeleteMonitor. rewrite Hstop. cbn [mbind option_bind].
    unfold DeleteMonitorByID. rewrite Hdb.
    destruct (fault (db ms)) as [e|] eqn:Hf.
    - exists (db ms1), (Some e). split; [destruct ms1; reflexivity | discriminate].
    - pose proof (remove_first_count (λ m, bool_decide (ID m = id)) (monitors (db ms)))
        as Hcount.
      destruct (remove_first _ (monitors (db ms))) as [r n]. simpl in Hcount.
      assert (Hknown : n = 0 ↔ ¬ id_known ms id).
      { rewrite Hcount. split.
        - intros Hall (m & Hm & Hid). specialize (Hall m Hm).
          apply bool_decide_eq_false in Hall. contradiction.
        - intros Hun m Hm. apply bool_decide_eq_false. intros Hid.
          apply Hun. exists m. auto. }
      destruct (Z.eqb_spec n 0) as [Hn|Hn]; eexists _, _; (split; [reflexivity|]);
        intros _; split.
      + split; [intros _; apply Hknown, Hn | reflexivity].
      + intros Hk. exfalso. apply Hknown in Hn. contradiction.
      + split; [discriminate|]. intros Hun. exfalso. apply Hn, Hknown, Hun.
      + reflexivity. }
  destruct Hshape as (d & err & Hdel & Herr).
  exists ms1, (with_db ms1 d), err.
  split; [exact Hstop|]. split; [exact Hdel|]. split; [exact Hnone|].
  split; [apply live_jobs_unregistered; [exact Hwf1 | exact Hnone]|].
  split; [|split; [|split]].
  - intros old Hreg.
    destruct (stopMonitorJob_registered ms (Hex id) old Hwf Hreg)
      as (ch & ch' & Hch & _ & Hclosed & Heq).
    rewrite Heq in Hstop. injection Hstop as <-. exists ch'. simpl.
    split; [|exact Hclosed]. apply list_lookup_insert_eq. eapply lookup_lt_Some; eauto.
  - intros Habs. rewrite (stopMonitorJob_absent _ _ Habs) in Hstop. congruence.
  - apply stopMonitorJob_absent, Hnone.
  - exact Herr.
Qed.

(** C8. [DeleteMonitor] first stops the job of the monitor, in every
  call: afterwards no stop channel is registered for the id, the one
  that was registered is closed, and no goroutine of the id is left
  that has not been told to stop.  When no job was registered the
  stop changes nothing, and stopping again changes nothing.  While
  the store answers, the error is "monitor not found" exactly when no
  stored monitor has the id, and the handler answers 404 Not Found
  exactly then. *)
Theorem DeleteMonitor_not_found ms id :
  registry_wf ms →
  ∃ ms1 ms' err,
    stopMonitorJob ms (Hex id) = Some ms1 ∧
    DeleteMonitor ms id = Some (ms', err) ∧
    activeJobs ms' !! Hex id = None ∧
    live_jobs ms' (Hex id) = [] ∧
    (∀ old, activeJobs ms !! Hex id = Some old →
            ∃ ch, stopChans ms' !! old = Some ch ∧ closed ch = true) ∧
    (activeJobs ms !! Hex id = None → ms1 = ms) ∧
    stopMonitorJob ms1 (Hex id) = Some ms1 ∧
    (fault (db ms) = None →
       (err = Some not_found_error ↔ ¬ id_known ms id) ∧
       (id_known ms id → err = None) ∧
       (∀ idParam, handlers.ObjectIDFromHex idParam = Some id →
          ∃ answer, handlers.DeleteMonitor ms idParam = Some (ms', answer) ∧
            (status_of answer = handlers.StatusNotFound ↔ ¬ id_known ms id) ∧
            (id_known ms id → status_of answer = handlers.StatusOK))).
Proof.
  intros Hwf.
  destruct (DeleteMonitor_outcome ms id Hwf)
    as (ms1 & ms' & err & Hstop & Hdel & Hnone & Hlive & Hclosed & Habs & Hidem & Herr).
  exists ms1, ms', err. repeat (split; [assumption|]).
  intros Hf. destruct (Herr Hf) as [Hnf Hok].
  split; [exact Hnf|]. split; [exact Hok|].
  intros idParam Hid. unfold handlers.DeleteMonitor. rewrite Hid, Hdel.
  cbn [mbind option_bind].
  destruct err as [e|].
  - destruct (String.eqb_spec e "monitor not found") as [->|Hne].
    + eexists. split; [reflexivity|]. split.
      * split; [intros _; apply Hnf; reflexivity | reflexivity].
      * intros Hk. specialize (Hok Hk). discriminate.
    + eexists. split; [reflexivity|]. split.
      * split; [discriminate|]. intros Hun. apply Hnf in Hun.
        injection Hun as ->. contradiction.
      * intros Hk. specialize (Hok Hk). discriminate.
  - eexists. split; [reflexivity|]. split.
    + split; [discriminate|]. intros Hun. apply Hnf in Hun. discriminate.
    + reflexivity.
Qed.

Lemma DeleteMonitor_not_found_unknown :
  ∃ ms1 ms' err,
    stopMonitorJob ms0 "65a0000000000000000000ff" = Some ms1 ∧
    DeleteMonitor ms0 "65a0000000000000000000ff" = Some (ms', err) ∧
    ms1 = ms0 ∧ err = Some not_found_error.
Proof.
  destruct (DeleteMonitor_not_found ms0 "65a0000000000000000000ff" (registry_wf_new db0 10))
    as (ms1 & ms' & err & Hstop & Hdel & _ & _ & _ & Hidem & _ & Herr).
  exists ms1, ms', err. split; [exact Hstop|]. split; [exact Hdel|].
  split; [apply Hidem; reflexivity|].
  apply (Herr eq_refl). intros (m & Hm & Hid).
  apply list_elem_of_singleton in Hm as ->. discriminate Hid.
Defined.

End Monitors.

(** ** Reading metrics back *)

Section Metrics.

Import handlers.

Implicit Types (ms : MonitorService) (id : ObjectID).

Example Atoi_plain : Atoi "48" = Some 48.
Proof. reflexivity. Qed.

Example Atoi_signed : Atoi "-5" = Some (-5) ∧ Atoi "+7" = Some 7.
Proof. split; reflexivity. Qed.

Example Atoi_rejects :
  Atoi "" = None ∧ Atoi "abc" = None ∧ Atoi "1e2" = None ∧ Atoi "-" = None
  ∧ Atoi "12 " = None ∧ Atoi "9223372036854775808" = None.
Proof. repeat split; reflexivity. Qed.

Lemma hours_param_spec (query : option string) :
  1 <= hours_param query <= 168 ∧
  (∀ v, requested_hours query = Some v → 1 <= v <= 168 → hours_param query = v) ∧
  (∀ v, requested_hours query = Some v → v < 1 ∨ 168 < v → hours_param query = 24) ∧
  (requested_hours query = None → hours_param query = 24).
Proof.
  unfold hours_param, requested_hours.
  destruct (Atoi (default "24" query)) as [v|].
  - split; [|split; [|split]].
    + destruct (Z.ltb_spec v 1), (Z.ltb_spec 168 v); simpl; lia.
    + intros w [= <-] Hr. destruct (Z.ltb_spec v 1), (Z.ltb_spec 168 v); simpl; lia.
    + intros w [= <-] Ho. destruct (Z.ltb_spec v 1), (Z.ltb_spec 168 v); simpl; lia.
    + discriminate.
  - split; [lia|]. split; [discriminate|]. split; [discriminate|]. reflexivity.
Qed.

#[local] Instance newer_first_total : Total newer_first.
Proof. intros a b. unfold newer_first. lia. Qed.

#[local] Instance newer_first_trans : Transitive newer_first.
Proof. intros a b c. unfold newer_first. lia. Qed.

Lemma hours_ago_small now hours :
  1 <= hours <= 168 → hours_ago now hours = now - hours * Hour.
Proof.
  intros H. unfold hours_ago, Int64.mul. rewrite wrap_small; [lia|].
  unfold Int64.in_range, Int64.min_int, Int64.max_int, Hour, Second. lia.
Qed.

(** The service call, for a window that fits in a [time.Duration]. *)
Lemma GetMetrics_rows ms id hours now :
  fault (db ms) = None → 1 <= hours <= 168 →
  monitor_service.GetMetrics ms id hours now =
    Ok (take 1000 (merge_sort newer_first (window_since ms id (now - hours * Hour)))).
Proof.
  intros Hf Hh. unfold monitor_service.GetMetrics, FindMetrics. rewrite Hf.
  rewrite (hours_ago_small _ _ Hh). simpl. f_equal. f_equal. f_equal.
  apply list_filter_iff. intros m. apply in_window_spec.
Qed.

Lemma StronglySorted_take {A} (R : relation A) (l : list A) n :
  StronglySorted R l → StronglySorted R (take n l).
Proof.
  intros Hs. rewrite <- (take_drop n l) in Hs.
  eapply StronglySorted_app_1_l, Hs.
Qed.

(** C9. The metrics handler always looks back between 1 and 168 hours:
    the number asked for when it is in that range, and 24 when the
    parameter is missing, is not a number, or is out of range.  While
    the store answers it returns at most 1000 rows; they are metrics of
    that monitor checked within the window, newest first; and they are
    the first 1000 of all such metrics in that order. *)
Theorem GetMetrics_bounded ms (idParam : string) id (query : option string)
    (now : Time) :
  fault (db ms) = None → ObjectIDFromHex idParam = Some id →
  ∃ body,
    handlers.GetMetrics ms idParam query now = Success StatusOK body ∧
    1 <= body_hours body <= 168 ∧
    (∀ v, requested_hours query = Some v → 1 <= v <= 168 → body_hours body = v) ∧
    (∀ v, requested_hours query = Some v → v < 1 ∨ 168 < v → body_hours body = 24) ∧
    (requested_hours query = None → body_hours body = 24) ∧
    monitor_service.GetMetrics ms id (body_hours body) now = Ok (body_data body) ∧
    (length (body_data body) ≤ 1000)%nat ∧
    StronglySorted newer_first (body_data body) ∧
    (∀ m, m ∈ body_data body →
          m ∈ metrics (db ms) ∧ MonitorID m = id ∧
          now - body_hours body * Hour <= CheckedAt m) ∧
    (∃ all, all ≡ₚ window_since ms id (now - body_hours body * Hour) ∧
            StronglySorted newer_first all ∧
            body_data body = take 1000 all).
Proof.
  intros Hf Hid. unfold handlers.GetMetrics. rewrite Hid.
  destruct (hours_param_spec query) as (Hrange & Hin & Hout & Hnone).
  rewrite (GetMetrics_rows ms id (hours_param query) now Hf Hrange).
  set (w := window_since ms id (now - hours_param query * Hour)).
  eexists. split; [reflexivity|]. cbn [body_hours body_data].
  split; [exact Hrange|]. split; [exact Hin|]. split; [exact Hout|].
  split; [exact Hnone|]. split; [apply GetMetrics_rows; assumption|].
  split; [rewrite length_take; lia|].
  split; [apply StronglySorted_take, StronglySorted_merge_sort; apply _|].
  split.
  - intros m Hm.
    assert (Hw : m ∈ w).
    { rewrite <- (merge_sort_Permutation newer_first w).
      eapply elem_of_sublist; [exact Hm | apply sublist_take]. }
    apply list_elem_of_filter in Hw. tauto.
  - exists (merge_sort newer_first w). split; [apply merge_sort_Permutation|].
    split; [apply StronglySorted_merge_sort; apply _ | reflexivity].
Qed.

Lemma GetMetrics_bounded_week_overrun :
  ∃ body,
    handlers.GetMetrics ms10 "65a000000000000000000001" (Some "999") (11 * 60 * Second)
      = Success StatusOK body ∧
    body_hours body = 24 ∧ (length (body_data body) ≤ 1000)%nat ∧
    StronglySorted newer_first (body_data body).
Proof.
  destruct (GetMetrics_bounded ms10 "65a000000000000000000001" (ID monitor0)
              (Some "999") (11 * 60 * Second) eq_refl eq_refl)
    as (body & Hrun & _ & _ & Hout & _ & _ & Hlen & Hsorted & _).
  exists body. split; [exact Hrun|].
  split; [apply (Hout 999); [reflexivity | lia]|]. split; assumption.
Defined.

End Metrics.

(** ** The metrics summary *)

Section MetricsSummary.

Import handlers.

Implicit Types (l : list Metric) (a : Acc).

Lemma summary_fold l : ∀ a t,
  totalResponseTime a = Int64.wrap t →
  let r := fold_left summary_step l a in
  successfulChecks r = successfulChecks a + ups l ∧
  failedChecks r = failedChecks a + (Z.of_nat (length l) - ups l) ∧
  totalResponseTime r = Int64.wrap (t + sum_response l) ∧
  (minResponse r = minResponse a ∨ minResponse r ∈ ResponseTime <$> l) ∧
  minResponse r <= minResponse a ∧
  (∀ x, x ∈ ResponseTime <$> l → minResponse r <= x) ∧
  (maxResponse r = maxResponse a ∨ maxResponse r ∈ ResponseTime <$> l) ∧
  maxResponse a <= maxResponse r ∧
  (∀ x, x ∈ ResponseTime <$> l → x <= maxResponse r).
Proof.
  induction l as [|m l IH]; intros a t Ht; cbn [fold_left].
  - unfold ups, sum_response. simpl.
    split; [lia|]. split; [lia|]. split; [rewrite Z.add_0_r; exact Ht|].
    split; [left; reflexivity|]. split; [lia|].
    split; [intros x Hx; inversion Hx|].
    split; [left; reflexivity|]. split; [lia|].
    intros x Hx; inversion Hx.
  - assert (Ht' : totalResponseTime (summary_step a m)
                  = Int64.wrap (t + ResponseTime m)).
    { simpl. rewrite Ht. apply wrap_add_l. }
    destruct (IH (summary_step a m) (t + ResponseTime m) Ht')
      as (Hs & Hfl & Htot & Hmin & Hminle & Hminall & Hmax & Hmaxle & Hmaxall).
    clear IH. cbv zeta.
    set (r := fold_left summary_step l (summary_step a m)) in *.
    assert (Hups : ups (m :: l) = (if String.eqb (Status m) "up" then 1 else 0) + ups l).
    { unfold ups. rewrite filter_cons. unfold is_up at 1.
      destruct (String.eqb_spec (Status m) "up") as [Hu|Hu].
      - rewrite decide_True by exact Hu. cbn [length]. lia.
      - rewrite decide_False by exact Hu. lia. }
    assert (Hstep_min : minResponse (summary_step a m)
                        = Z.min (ResponseTime m) (minResponse a)).
    { simpl. destruct (Z.ltb_spec (ResponseTime m) (minResponse a)); lia. }
    assert (Hstep_max : maxResponse (summary_step a m)
                        = Z.max (ResponseTime m) (maxResponse a)).
    { simpl. destruct (Z.ltb_spec (maxResponse a) (ResponseTime m)); lia. }
    rewrite Hups, fmap_cons. cbn [length sum_response foldr].
    fold (sum_response l).
    split; [|split; [|split; [|split; [|split; [|split; [|split; [|split]]]]]]].
    + rewrite Hs. simpl. destruct (String.eqb (Status m) "up"); lia.
    + rewrite Hfl. simpl. destruct (String.eqb (Status m) "up"); lia.
    + rewrite Htot. f_equal. lia.
    + destruct Hmin as [Hmin|Hmin].
      * rewrite Hmin, Hstep_min.
        destruct (Z.min_spec (ResponseTime m) (minResponse a)) as [[_ ->]|[_ ->]];
          [right; left | left; reflexivity].
      * right. right. exact Hmin.
    + lia.
    + intros x Hx. apply elem_of_cons in Hx as [->|Hx]; [lia | apply Hminall, Hx].
    + destruct Hmax as [Hmax|Hmax].
      * rewrite Hmax, Hstep_max.
        destruct (Z.max_spec (ResponseTime m) (maxResponse a)) as [[_ ->]|[_ ->]];
          [left; reflexivity | right; left].
      * right. right. exact Hmax.
    + lia.
    + intros x Hx. apply elem_of_cons in Hx as [->|Hx]; [lia | apply Hmaxall, Hx].
Qed.

Lemma calculateUptimePercentage_no_samples (ms : MonitorService) (id : ObjectID)
    (now : Time) :
  window24 ms id now = [] → calculateUptimePercentage ms id now = Float64.hundred.
Proof.
  intros Hw. destruct (fault (db ms)) as [e|] eqn:Hf.
  - eapply calculateUptimePercentage_fault, Hf.
  - rewrite (calculateUptimePercentage_window _ _ _ Hf), Hw. reflexivity.
Qed.

(** C10. For no metrics at all the summary of the metrics API reports
    an uptime of 0.0, zero counts and zero response times, where the
    result sink reports 100 for a window without samples.  For one or
    more metrics it reports the number of metrics, the number that are
    "up", the rest as failed, successful / total * 100 as uptime, the
    (64-bit) sum of the response times over the count as average, and
    the least and the greatest response time. *)
Theorem metrics_summary_figures :
  calculateMetricsSummary [] =
    {| total_checks := 0; successful_checks := 0; failed_checks := 0;
       uptime_percentage := Float64.zero; average_response := Float64.zero;
       min_response := 0; max_response := 0 |}
  ∧ (∀ (ms : MonitorService) (id : ObjectID) (now : Time),
       window24 ms id now = [] →
       calculateUptimePercentage ms id now = Float64.hundred)
  ∧ Float64.hundred ≠ Float64.zero
  ∧ (∀ m rest,
       let l := m :: rest in
       let s := calculateMetricsSummary l in
       let n := Z.of_nat (length l) in
       total_checks s = n ∧
       successful_checks s = ups l ∧
       failed_checks s = n - ups l ∧
       uptime_percentage s =
         Float64.mul (Float64.div (Float64.of_int (ups l)) (Float64.of_int n))
                     Float64.hundred ∧
       average_response s =
         Float64.div (Float64.of_int (Int64.wrap (sum_response l))) (Float64.of_int n) ∧
       min_response s ∈ ResponseTime <$> l ∧
       (∀ x, x ∈ ResponseTime <$> l → min_response s <= x) ∧
       max_response s ∈ ResponseTime <$> l ∧
       (∀ x, x ∈ ResponseTime <$> l → x <= max_response s)).
Proof.
  split; [reflexivity|]. split; [exact calculateUptimePercentage_no_samples|].
  split; [exact hundred_not_zero|].
  intros m rest l s n.
  pose (a0 := {| successfulChecks := 0; failedChecks := 0; totalResponseTime := 0;
                 minResponse := ResponseTime m; maxResponse := ResponseTime m |}).
  destruct (summary_fold l a0 0 eq_refl)
    as (Hs & Hfl & Htot & Hmin & _ & Hminall & Hmax & _ & Hmaxall).
  assert (Hhead : ResponseTime m ∈ ResponseTime <$> l) by (unfold l; rewrite fmap_cons; left).
  unfold s, l, calculateMetricsSummary. fold l. fold a0.
  cbn [total_checks successful_checks failed_checks uptime_percentage
       average_response min_response max_response]. fold n.
  rewrite Hs, Hfl, Htot. cbn [successfulChecks failedChecks a0].
  rewrite !Z.add_0_l.
  split; [reflexivity|]. split; [reflexivity|]. split; [reflexivity|].
  split; [reflexivity|]. split; [reflexivity|].
  split; [destruct Hmin as [->|Hmin]; [exact Hhead | exact Hmin]|].
  split; [exact Hminall|].
  split; [destruct Hmax as [->|Hmax]; [exact Hhead | exact Hmax]|].
  exact Hmaxall.
Qed.

Lemma metrics_summary_figures_no_samples :
  calculateUptimePercentage ms0 (ID monitor0) (60 * Second) = Float64.hundred
  ∧ uptime_percentage (calculateMetricsSummary (metrics (db ms0))) = Float64.zero.
Proof.
  split.
  - apply (proj1 (proj2 metrics_summary_figures) ms0 (ID monitor0) (60 * Second)).
    reflexivity.
  - change (metrics (db ms0)) with (@nil Metric).
    rewrite (proj1 metrics_summary_figures). reflexivity.
Defined.

Example summary_ten_samples :
  let s := calculateMetricsSummary ten_samples in
  total_checks s = 10 ∧ successful_checks s = 8 ∧ failed_checks s = 2 ∧
  uptime_percentage s = Float64.eighty ∧
  average_response s = Float64.of_int 12 ∧
  min_response s = 12 ∧ max_response s = 12.
Proof. vm_compute. repeat split; reflexivity. Qed.

End MetricsSummary.

(* ===================================================================== *)
(** * Further properties of the code *)
(* ===================================================================== *)

(** ** Creation requests *)

Section CreationRequests.

(** X1. [Validate] fills in exactly the zero values, with the method GET,
  an interval of 30 seconds and a timeout of 10 seconds.  Applying it
  twice is applying it once; afterwards the method is not empty and
  neither the interval nor the timeout is zero; a field that is not
  zero, the name and the URL are kept.  It is not a range check: a
  negative interval or timeout is kept as it is, and [ToMonitor]
  hands it on to an active monitor. *)
Theorem Validate_fills_zero_values (req : CreateMonitorRequest) (now : Time) :
  Validate (Validate req) = Validate req ∧
  ReqMethod (Validate req) ≠ "" ∧
  ReqInterval (Validate req) ≠ 0 ∧
  ReqTimeout (Validate req) ≠ 0 ∧
  ReqName (Validate req) = ReqName req ∧
  ReqURL (Validate req) = ReqURL req ∧
  (ReqMethod req ≠ "" → ReqMethod (Validate req) = ReqMethod req) ∧
  (ReqInterval req ≠ 0 → ReqInterval (Validate req) = ReqInterval req) ∧
  (ReqTimeout req ≠ 0 → ReqTimeout (Validate req) = ReqTimeout req) ∧
  (ReqInterval req < 0 →
     Interval (ToMonitor req now) = ReqInterval req ∧
     IsActive (ToMonitor req now) = true) ∧
  (ReqMethod req = "" → ReqMethod (Validate req) = "GET") ∧
  (ReqInterval req = 0 → ReqInterval (Validate req) = 30) ∧
  (ReqTimeout req = 0 → ReqTimeout (Validate req) = 10) ∧
  Method (ToMonitor req now) = ReqMethod (Validate req) ∧
  Interval (ToMonitor req now) = ReqInterval (Validate req) ∧
  Timeout (ToMonitor req now) = ReqTimeout (Validate req).
Proof.
  destruct req as [name url method interval timeout]. unfold Validate, ToMonitor. simpl.
  destruct (String.eqb_spec method "") as [Hm|Hm];
    destruct (Z.eqb_spec interval 0) as [Hi|Hi];
    destruct (Z.eqb_spec timeout 0) as [Ht|Ht]; simpl;
    rewrite ?(proj2 (String.eqb_neq _ _) Hm), ?(proj2 (Z.eqb_neq _ _) Hi),
            ?(proj2 (Z.eqb_neq _ _) Ht);
    repeat split; try congruence; try discriminate; try lia; auto.
Qed.

Lemma Validate_fills_zero_values_negative :
  (Interval (ToMonitor request_negative 0) = -5 ∧
   IsActive (ToMonitor request_negative 0) = true) ∧
  ReqMethod (Validate request_negative) = "GET" ∧
  ReqTimeout (Validate request_negative) = 10 ∧
  ReqInterval (Validate request0) = 30.
Proof.
  destruct (Validate_fills_zero_values request_negative 0)
    as (_ & _ & _ & _ & _ & _ & _ & _ & _ & Hneg & Hmethod & _ & Htimeout & _).
  destruct (Validate_fills_zero_values request0 0)
    as (_ & _ & _ & _ & _ & _ & _ & _ & _ & _ & _ & Hinterval & _).
  split; [apply Hneg; simpl; lia|].
  split; [apply Hmethod; reflexivity|].
  split; [apply Htimeout; reflexivity | apply Hinterval; reflexivity].
Defined.

End CreationRequests.

(** ** More on the job registry *)

Section RegistryFrame.

Implicit Types (ms : MonitorService) (monitor : Monitor) (j : Job).

Lemma filter_ext_elem {A} (P Q : A → Prop) `{∀ x, Decision (P x)} `{∀ x, Decision (Q x)}
    (l : list A) :
  (∀ x, x ∈ l → (P x ↔ Q x)) → filter P l = filter Q l.
Proof.
  induction l as [|a l IH]; intros Hext; [reflexivity|].
  rewrite !filter_cons.
  assert (IH' : filter P l = filter Q l).
  { apply IH. intros x Hx. apply Hext. right. exact Hx. }
  destruct (decide (P a)) as [Hp|Hp], (decide (Q a)) as [Hq|Hq].
  - f_equal. exact IH'.
  - exfalso. apply Hq, (Hext a (list_elem_of_here _ _)), Hp.
  - exfalso. apply Hp, (Hext a (list_elem_of_here _ _)), Hq.
  - exact IH'.
Qed.

(** After a start the new goroutine is the one live job of the monitor. *)
Lemma startMonitorJob_live ms monitor :
  registry_wf ms →
  ∃ ms', startMonitorJob ms monitor = Some ms' ∧ registry_wf ms' ∧
    db ms' = db ms ∧
    activeJobs ms' !! Hex (ID monitor) = Some (length (stopChans ms)) ∧
    live_jobs ms' (Hex (ID monitor)) =
      [{| job_monitor := Hex (ID monitor); job_stop := length (stopChans ms) |}].
Proof.
  intros Hwf.
  destruct (startMonitorJob_wf ms monitor Hwf) as (ms' & Hstart & Hwf').
  destruct (startMonitorJob_shape ms monitor Hwf) as (chans & Hshape & Hlen & _).
  exists ms'. split; [exact Hstart|]. split; [exact Hwf'|].
  pose proof (live_jobs_at_most_one ms' (Hex (ID monitor)) Hwf') as Hle.
  rewrite Hshape in Hstart. injection Hstart as <-.
  split; [reflexivity|]. split; [simpl; apply lookup_insert_eq|].
  revert Hle. unfold live_jobs. simpl goroutines. rewrite filter_app.
  rewrite (filter_cons _ _ []), filter_nil.
  rewrite decide_True.
  - destruct (filter _ (goroutines ms)); [reflexivity|].
    rewrite length_app. simpl. lia.
  - split; [reflexivity|]. unfold cancelled. simpl.
    rewrite lookup_app_r by lia. rewrite Hlen, Nat.sub_diag. reflexivity.
Qed.

(** A goroutine of another monitor never waits on the stop channel that
  is registered for this one. *)
Lemma other_monitor_other_channel ms (id id' : string) c j :
  registry_wf ms → activeJobs ms !! id = Some c → id' ≠ id →
  j ∈ goroutines ms → job_monitor j = id' → job_stop j ≠ c.
Proof.
  intros (Hopen & Hinj & Hlive & _) Hreg Hne Hj Hmon Hstop.
  destruct (Hopen _ _ Hreg) as (ch & Hch & Hcl).
  assert (Hc : cancelled ms j = false) by (unfold cancelled; rewrite Hstop, Hch; exact Hcl).
  specialize (Hlive j Hj Hc). rewrite Hmon, Hstop in Hlive.
  apply Hne. eapply Hinj; eauto.
Qed.

Lemma startMonitorJob_frame ms monitor (id' : string) :
  registry_wf ms → id' ≠ Hex (ID monitor) →
  ∃ ms', startMonitorJob ms monitor = Some ms' ∧
    activeJobs ms' !! id' = activeJobs ms !! id' ∧
    live_jobs ms' id' = live_jobs ms id'.
Proof.
  intros Hwf Hne.
  destruct (startMonitorJob_shape ms monitor Hwf)
    as (chans & Hshape & Hlen & Hnew & Hold & _).
  eexists. split; [exact Hshape|]. split.
  - simpl. apply lookup_insert_ne. congruence.
  - pose proof Hwf as (_ & _ & _ & Hbound & _).
    unfold live_jobs. simpl goroutines. rewrite filter_app.
    rewrite (filter_cons _ _ []), filter_nil, decide_False by (simpl; intros [? _]; congruence).
    rewrite app_nil_r. apply filter_ext_elem. intros j Hj.
    assert (Hc : job_monitor j = id' →
                 cancelled (with_jobs ms
                     (<[Hex (ID monitor):=length (stopChans ms)]> (activeJobs ms))
                     (chans ++ [make 0])
                     (goroutines ms ++ [{| job_monitor := Hex (ID monitor);
                                           job_stop := length (stopChans ms) |}])) j
                 = cancelled ms j).
    { intros Hmon. unfold cancelled. simpl.
      pose proof (Hbound j Hj) as Hlt.
      rewrite lookup_app_l by lia.
      destruct (stopChans ms !! job_stop j) as [x|] eqn:Hx.
      2:{ apply lookup_ge_None in Hx. lia. }
      rewrite (Hold _ _ Hx); [reflexivity|].
      intros Hreg. eapply (other_monitor_other_channel ms _ id' _ j Hwf Hreg); eauto. }
    split; intros [Hmon Hcan]; (split; [exact Hmon|]);
      [rewrite <- (Hc Hmon) | rewrite (Hc Hmon)]; exact Hcan.
Qed.

Lemma stopMonitorJob_frame ms (id id' : string) :
  registry_wf ms → id' ≠ id →
  ∃ ms', stopMonitorJob ms id = Some ms' ∧
    activeJobs ms' !! id' = activeJobs ms !! id' ∧
    live_jobs ms' id' = live_jobs ms id'.
Proof.
  intros Hwf Hne. destruct (activeJobs ms !! id) as [c|] eqn:Hreg.
  2:{ exists ms. split; [apply stopMonitorJob_absent, Hreg | auto]. }
  destruct (stopMonitorJob_registered ms id c Hwf Hreg)
    as (ch & ch' & Hch & Hclose & Hclosed & ->).
  eexists. split; [reflexivity|]. split.
  - simpl. apply lookup_delete_ne. congruence.
  - unfold live_jobs. simpl goroutines. apply filter_ext_elem. intros j Hj.
    assert (Hc : job_monitor j = id' →
                 cancelled (with_jobs ms (delete id (activeJobs ms))
                              (<[c:=ch']> (stopChans ms)) (goroutines ms)) j
                 = cancelled ms j).
    { intros Hmon. unfold cancelled. simpl.
      rewrite list_lookup_insert_ne; [reflexivity|].
      intros Heq. eapply (other_monitor_other_channel ms id id' c j Hwf Hreg); eauto. }
    split; intros [Hmon Hcan]; (split; [exact Hmon|]);
      [rewrite <- (Hc Hmon) | rewrite (Hc Hmon)]; exact Hcan.
Qed.

(** X2. Starting or stopping the job of one monitor leaves the jobs of
  every other monitor alone: their registered stop channel and their
  live goroutines are what they were. *)
Theorem jobs_of_other_monitors_untouched ms monitor (id' : string) :
  registry_wf ms → id' ≠ Hex (ID monitor) →
  (∃ ms', startMonitorJob ms monitor = Some ms' ∧
     activeJobs ms' !! id' = activeJobs ms !! id' ∧
     live_jobs ms' id' = live_jobs ms id') ∧
  (∃ ms', stopMonitorJob ms (Hex (ID monitor)) = Some ms' ∧
     activeJobs ms' !! id' = activeJobs ms !! id' ∧
     live_jobs ms' id' = live_jobs ms id').
Proof.
  intros Hwf Hne. split.
  - apply startMonitorJob_frame; assumption.
  - apply stopMonitorJob_frame; assumption.
Qed.

Lemma jobs_of_other_monitors_untouched_stop :
  ∃ ms ms',
    job_steps ms3 [OpStart monitor0; OpStart monitor_web] = Some ms ∧
    stopMonitorJob ms (Hex (ID monitor0)) = Some ms' ∧
    live_jobs ms' (Hex (ID monitor_web)) = live_jobs ms (Hex (ID monitor_web)).
Proof.
  destruct (job_steps_wf [OpStart monitor0; OpStart monitor_web] ms3
              (registry_wf_new _ _)) as (ms & Hrun & Hwf).
  destruct (jobs_of_other_monitors_untouched ms monitor0 (Hex (ID monitor_web)) Hwf
              ltac:(discriminate)) as [_ (ms' & Hstop & _ & Hlive)].
  exists ms, ms'. split; [exact Hrun|]. split; assumption.
Defined.

Lemma active_id_dec (l : list Monitor) (id : string) : active_id l id ∨ ¬ active_id l id.
Proof.
  destruct (decide (Exists (λ m, IsActive m = true ∧ Hex (ID m) = id) l)) as [He|He].
  - left. apply Exists_exists in He as (m & Hm & Ha & Hid). exists m. auto.
  - right. intros (m & Hm & Ha & Hid). apply He, Exists_exists. exists m. auto.
Qed.

(** The loop of [StartMonitoring] over any list of monitors. *)
Lemma start_active_jobs (l : list Monitor) : ∀ ms,
  registry_wf ms →
  ∃ ms', start_active ms l = Some ms' ∧ registry_wf ms' ∧ db ms' = db ms ∧
    (∀ id, active_id l id → length (live_jobs ms' id) = 1%nat) ∧
    (∀ id, ¬ active_id l id →
           activeJobs ms' !! id = activeJobs ms !! id ∧
           live_jobs ms' id = live_jobs ms id).
Proof.
  induction l as [|m l IH]; intros ms Hwf; cbn [start_active].
  - exists ms. split; [reflexivity|]. split; [exact Hwf|]. split; [reflexivity|].
    split; [|intros id _; split; reflexivity].
    intros id (m & Hm & _). inversion Hm.
  - destruct (IsActive m) eqn:Hact.
    + destruct (startMonitorJob_live ms m Hwf) as (ms1 & Hstart & Hwf1 & Hdb1 & _ & Hlive1).
      rewrite Hstart. cbn [mbind option_bind].
      destruct (IH ms1 Hwf1) as (ms' & Hrun & Hwf' & Hdb' & Hin & Hout).
      exists ms'. split; [exact Hrun|]. split; [exact Hwf'|].
      split; [congruence|]. split.
      * intros id Hid. destruct (active_id_dec l id) as [Hl|Hl]; [apply Hin, Hl|].
        destruct Hid as (m' & Hm' & Ha' & Hid').
        apply elem_of_cons in Hm' as [->|Hm'].
        -- destruct (Hout id Hl) as [_ ->]. rewrite <- Hid', Hlive1. reflexivity.
        -- exfalso. apply Hl. exists m'. auto.
      * intros id Hid.
        assert (Hl : ¬ active_id l id).
        { intros (m' & Hm' & Ha' & Hid'). apply Hid. exists m'. split; [right|]; auto. }
        assert (Hne : id ≠ Hex (ID m)).
        { intros ->. apply Hid. exists m. split; [left|]; auto. }
        destruct (Hout id Hl) as [-> ->].
        destruct (startMonitorJob_frame ms m id Hwf Hne) as (ms1' & Hstart' & Hj & Hlv).
        rewrite Hstart in Hstart'. injection Hstart' as <-. auto.
    + destruct (IH ms Hwf) as (ms' & Hrun & Hwf' & Hdb' & Hin & Hout).
      exists ms'. split; [exact Hrun|]. split; [exact Hwf'|]. split; [exact Hdb'|].
      split.
      * intros id (m' & Hm' & Ha' & Hid'). apply Hin.
        apply elem_of_cons in Hm' as [->|Hm']; [congruence|]. exists m'. auto.
      * intros id Hid. apply Hout.
        intros (m' & Hm' & Ha' & Hid'). apply Hid. exists m'. split; [right|]; auto.
Qed.

(** X3. [StartMonitoring] starts exactly the active monitors of the store:
  afterwards every id of an active stored monitor has one live job,
  and an id that no active stored monitor has keeps whatever it had
  (for a new service: no job).  It never panics, and when the
  monitors cannot be loaded it starts nothing. *)
Theorem StartMonitoring_active_only ms :
  registry_wf ms →
  ∃ ms', StartMonitoring ms = Some ms' ∧ registry_wf ms' ∧ db ms' = db ms ∧
    (fault (db ms) = None →
       (∀ id, active_id (monitors (db ms)) id → length (live_jobs ms' id) = 1%nat) ∧
       (∀ id, ¬ active_id (monitors (db ms)) id →
              activeJobs ms' !! id = activeJobs ms !! id ∧
              live_jobs ms' id = live_jobs ms id)) ∧
    (fault (db ms) ≠ None → ms' = ms).
Proof.
  intros Hwf. unfold StartMonitoring, GetMonitors.
  destruct (fault (db ms)) as [e|] eqn:Hf.
  - exists ms. split; [reflexivity|]. split; [exact Hwf|]. split; [reflexivity|].
    split; [discriminate | reflexivity].
  - destruct (start_active_jobs (monitors (db ms)) ms Hwf)
      as (ms' & Hrun & Hwf' & Hdb & Hin & Hout).
    exists ms'. split; [exact Hrun|]. split; [exact Hwf'|]. split; [exact Hdb|].
    split; [intros _; split; assumption | congruence].
Qed.

Lemma StartMonitoring_active_only_three :
  ∃ ms', StartMonitoring ms3 = Some ms' ∧
    length (live_jobs ms' (Hex (ID monitor0))) = 1%nat ∧
    length (live_jobs ms' (Hex (ID monitor_web))) = 1%nat ∧
    activeJobs ms' !! Hex (ID monitor_paused) = None.
Proof.
  destruct (StartMonitoring_active_only ms3 (registry_wf_new _ _))
    as (ms' & Hrun & _ & _ & Hok & _).
  destruct (Hok eq_refl) as [Hin Hout].
  exists ms'. split; [exact Hrun|]. split; [|split].
  - apply Hin. exists monitor0. repeat split. left.
  - apply Hin. exists monitor_web. repeat split. right. left.
  - apply Hout. intros (m & Hm & Ha & Hid).
    repeat (apply elem_of_cons in Hm as [->|Hm]; [discriminate|]). inversion Hm.
Defined.

(** X4. A request that passes binding, whose URL is free and whose interval
  (after the defaults) is at least one second and fits in a
  [time.Duration] is stored under the id the store gives it, as an
  active monitor with status "unknown", and the handler starts its job
  at once: on return the monitor has exactly one live goroutine, the
  registered one, and that goroutine gets its ticker. *)
Theorem CreateMonitor_registers_job ms (req : CreateMonitorRequest)
    (newID : ObjectID) (now : Time) :
  fault (db ms) = None → registry_wf ms →
  ReqName req ≠ "" → ReqURL req ≠ "" → ¬ url_taken ms (ReqURL req) →
  1 <= ReqInterval (Validate req) <= 9223372036 →
  ∃ ms2 monitor j,
    handlers.CreateMonitor ms req newID now
      = Some (ms2, handlers.Success handlers.StatusCreated monitor) ∧
    ID monitor = newID ∧ IsActive monitor = true ∧ CurrentStatus monitor = "unknown" ∧
    monitor ∈ monitors (db ms2) ∧
    registry_wf ms2 ∧
    live_jobs ms2 (Hex newID) = [j] ∧
    activeJobs ms2 !! Hex newID = Some (job_stop j) ∧
    Interval monitor = ReqInterval (Validate req) ∧
    NewTicker (Int64.mul (Interval monitor) Second) = Some (Interval monitor * Second).
Proof.
  intros Hf Hwf Hname Hurl Hfree Hint.
  assert (HU : MURL (ToMonitor req now) = ReqURL req) by reflexivity.
  unfold handlers.CreateMonitor.
  apply String.eqb_neq in Hname, Hurl. rewrite Hname, Hurl. cbn [orb].
  rewrite (CreateMonitor_free ms (ToMonitor req now) newID Hf) by (rewrite HU; exact Hfree).
  cbn [IsActive set_ID ToMonitor].
  match goal with
  | |- context [StartMonitorJob ?m ?x] =>
      destruct (startMonitorJob_live m x (registry_wf_with_db ms _ Hwf))
        as (ms2 & Hstart & Hwf2 & Hdb & Hreg & Hlive)
  end.
  unfold StartMonitorJob. rewrite Hstart. cbn [mbind option_bind].
  eexists ms2, _, _. split; [reflexivity|]. cbn [ID IsActive CurrentStatus Interval].
  split; [reflexivity|]. split; [reflexivity|]. split; [reflexivity|].
  split; [rewrite Hdb; simpl; apply elem_of_app; right; left|].
  split; [exact Hwf2|]. split; [exact Hlive|]. split; [exact Hreg|].
  split; [reflexivity|].
  match goal with
  | |- NewTicker (Int64.mul ?i Second) = _ =>
      apply (ticker_period {| ID := newID; Name := ""; MURL := ""; Method := "";
                              Interval := i; Timeout := 0; IsActive := true;
                              LastChecked := None; UpdatedAt := 0; CurrentStatus := "";
                              CurrentStatusCode := 0; CurrentResponse := 0;
                              UptimePercentage := Float64.hundred |})
  end.
  exact Hint.
Qed.

Lemma CreateMonitor_registers_job_fresh :
  ∃ ms2 monitor j,
    handlers.CreateMonitor ms0 request_web "65a000000000000000000009" 7
      = Some (ms2, handlers.Success handlers.StatusCreated monitor) ∧
    live_jobs ms2 "65a000000000000000000009" = [j] ∧
    Interval monitor = 30 ∧
    NewTicker (Int64.mul (Interval monitor) Second) = Some (Interval monitor * Second).
Proof.
  destruct (CreateMonitor_registers_job ms0 request_web "65a000000000000000000009" 7
              eq_refl (registry_wf_new _ _)
              ltac:(simpl; discriminate) ltac:(simpl; discriminate))
    as (ms2 & monitor & j & Hrun & _ & _ & _ & _ & _ & Hlive & _ & Hint & Hticker).
  - intros (m & Hm & Hu). apply list_elem_of_singleton in Hm as ->. discriminate Hu.
  - simpl. lia.
  - exists ms2, monitor, j. split; [exact Hrun|]. split; [exact Hlive|].
    split; [exact Hint | exact Hticker].
Defined.

End RegistryFrame.

(** ** More on the broadcast hub *)

Section HubLifecycle.

Implicit Types (h : WebSocketHub) (c : WebSocketClient) (m : WebSocketMessage) (p : ptr).

(** X5. The [Register] case of [Run]: a client whose queue has room is
  added to the set and finds the welcome message at the end of its
  queue; a client whose queue is already full is not left in the set:
  its queue and connection are closed at once.  No other client is
  touched and nothing is taken from the inbound queue. *)
Theorem Run_register_welcomes h p c :
  objects h !! p = Some c → closed (Send c) = false →
  ∃ h', Run_register h p = Some h' ∧ Broadcast h' = Broadcast h ∧
    (∀ q, q ≠ p → Clients h' !! q = Clients h !! q ∧ objects h' !! q = objects h !! q) ∧
    (full (Send c) = false →
       Clients h' !! p = Some true ∧ objects h' !! p = Some (delivered c welcome)) ∧
    (full (Send c) = true →
       Clients h' !! p = None ∧ objects h' !! p = Some (evicted c)).
Proof.
  intros Hc Hopen. unfold Run_register.
  set (h0 := {| Clients := <[p:=true]> (Clients h); Broadcast := Broadcast h;
                objects := objects h |}).
  assert (Hreg : is_Some (Clients h0 !! p)) by (simpl; rewrite lookup_insert_eq; eauto).
  rewrite (offer_registered h0 p c welcome Hreg Hc Hopen).
  eexists. split; [reflexivity|].
  destruct (full (Send c)); simpl.
  - split; [reflexivity|]. split; [|split; [discriminate|]].
    + intros q Hq. rewrite lookup_delete_ne, !lookup_insert_ne by congruence. auto.
    + intros _. rewrite lookup_delete_eq, lookup_insert_eq. auto.
  - split; [reflexivity|]. split; [|split; [|discriminate]].
    + intros q Hq. rewrite !lookup_insert_ne by congruence. auto.
    + intros _. rewrite !lookup_insert_eq. auto.
Qed.

Lemma Run_register_welcomes_new_client :
  ∃ h', Run_register (store NewWebSocketHub 7%nat (NewWebSocketClient "client_7")) 7%nat
        = Some h' ∧
    Clients h' !! 7%nat = Some true ∧
    objects h' !! 7%nat = Some (delivered (NewWebSocketClient "client_7") welcome).
Proof.
  destruct (Run_register_welcomes
              (store NewWebSocketHub 7%nat (NewWebSocketClient "client_7")) 7%nat
              (NewWebSocketClient "client_7") eq_refl eq_refl)
    as (h' & Hrun & _ & _ & Hroom & _).
  exists h'. split; [exact Hrun|]. apply Hroom. reflexivity.
Defined.

(** X6. Removing a client is idempotent and safe to repeat on either path:
  after the [Unregister] case of [Run] the client is out of the set
  with its queue closed (what was queued stays, the connection is left
  to the read pump), and a second [Unregister] or an eviction by
  [unregisterClient] changes nothing, so no queue is closed twice.
  Removing a client that is not registered changes nothing, and no
  other client is touched. *)
Theorem Run_unregister_idempotent h p :
  hub_wf h →
  ∃ h1, Run_unregister h p = Some h1 ∧ hub_wf h1 ∧
    Clients h1 !! p = None ∧
    Run_unregister h1 p = Some h1 ∧
    unregisterClient h1 p = Some h1 ∧
    (Clients h !! p = None → h1 = h) ∧
    (∀ c, is_Some (Clients h !! p) → objects h !! p = Some c →
       ∃ c1, objects h1 !! p = Some c1 ∧ closed (Send c1) = true ∧
             buf (Send c1) = buf (Send c) ∧ ConnOpen c1 = ConnOpen c) ∧
    (∀ q, q ≠ p → Clients h1 !! q = Clients h !! q ∧ objects h1 !! q = objects h !! q).
Proof.
  intros Hwf.
  destruct (Run_unregister_wf h p Hwf) as (h1 & Hrun & Hwf1).
  exists h1. split; [exact Hrun|]. split; [exact Hwf1|].
  unfold Run_unregister in Hrun. destruct (Clients h !! p) as [b|] eqn:Hb.
  - destruct (Hwf p (mk_is_Some _ _ Hb)) as (c & Hc & Hopen).
    rewrite Hc in Hrun. simpl in Hrun. unfold close in Hrun. rewrite Hopen in Hrun.
    simpl in Hrun. injection Hrun as <-.
    assert (Hnone : Clients (store (forget h p) p
                       (with_Send c {| buf := buf (Send c); cap := cap (Send c);
                                       closed := true |})) !! p = None)
      by (simpl; apply lookup_delete_eq).
    split; [exact Hnone|].
    split; [unfold Run_unregister; rewrite Hnone; reflexivity|].
    split; [unfold unregisterClient; rewrite Hnone; reflexivity|].
    split; [discriminate|]. split.
    + intros c0 _ Hc0. assert (c0 = c) as -> by congruence.
      eexists. simpl. rewrite lookup_insert_eq. split; [reflexivity|]. auto.
    + intros q Hq. simpl. rewrite lookup_delete_ne, lookup_insert_ne by congruence. auto.
  - injection Hrun as <-. split; [exact Hb|].
    split; [unfold Run_unregister; rewrite Hb; reflexivity|].
    split; [unfold unregisterClient; rewrite Hb; reflexivity|].
    split; [reflexivity|]. split; [|auto].
    intros c [b Hb']. congruence.
Qed.

Lemma Run_unregister_idempotent_hub3 :
  ∃ h1, Run_unregister hub3 2%nat = Some h1 ∧
    Clients h1 !! 2%nat = None ∧ Run_unregister h1 2%nat = Some h1.
Proof.
  destruct (Run_unregister_idempotent hub3 2%nat hub3_wf)
    as (h1 & Hrun & _ & Hnone & Hagain & _).
  exists h1. split; [exact Hrun|]. split; assumption.
Defined.

(** X7. A broadcast never adds an observer: the client count cannot grow,
  and it stays the same when every registered queue has room.  The
  inbound queue is not touched by the fan-out. *)
Theorem Run_broadcast_client_count h m (order : list ptr) :
  hub_wf h → enumerates order h →
  ∃ h', Run_broadcast h m order = Some h' ∧
    Broadcast h' = Broadcast h ∧
    GetClientCount h' <= GetClientCount h ∧
    ((∀ p c, is_Some (Clients h !! p) → objects h !! p = Some c → full (Send c) = false) →
     Clients h' = Clients h).
Proof.
  intros Hwf [Hnd Hen].
  destruct (range_Clients_spec m order h Hwf Hnd (λ p Hp, proj1 (Hen p) Hp))
    as (h' & Hrun & _ & Hb & Hout & Hin).
  assert (Hsame : ∀ p, Clients h' !! p = None ∨ Clients h' !! p = Clients h !! p).
  { intros p. destruct (decide (p ∈ order)) as [Hp|Hp].
    - destruct (Hwf p (proj1 (Hen p) Hp)) as (c & Hc & _).
      specialize (Hin p c Hp Hc). unfold visited in Hin.
      destruct (full (Send c)); destruct Hin as [E _]; auto.
    - right. apply Hout, Hp. }
  exists h'. split; [exact Hrun|]. split; [exact Hb|]. split.
  - unfold GetClientCount. apply inj_le, map_subseteq_size, map_subseteq_spec.
    intros p x Hx. destruct (Hsame p) as [E|E]; congruence.
  - intros Hroom. apply map_eq. intros p.
    destruct (decide (p ∈ order)) as [Hp|Hp]; [|apply Hout, Hp].
    pose proof (proj1 (Hen p) Hp) as Hreg.
    destruct (Hwf p Hreg) as (c & Hc & _).
    specialize (Hin p c Hp Hc). unfold visited in Hin.
    rewrite (Hroom p c Hreg Hc) in Hin. apply Hin.
Qed.

Lemma Run_broadcast_client_count_hub3 :
  ∃ h', Run_broadcast hub3 ping_all [3; 1; 2]%nat = Some h' ∧
    GetClientCount h' <= GetClientCount hub3.
Proof.
  destruct (Run_broadcast_client_count hub3 ping_all [3; 1; 2]%nat hub3_wf hub3_order)
    as (h' & Hrun & _ & Hle & _).
  exists h'. split; assumption.
Defined.

End HubLifecycle.

(** ** From the inbound queue to an observer *)

Section HubDrain.

Implicit Types (h : WebSocketHub) (c : WebSocketClient) (m : WebSocketMessage) (p : ptr).

(** Any way of visiting the map will do. *)
Variable pick : WebSocketHub → list ptr.
Hypothesis pick_enumerates : ∀ h, enumerates (pick h) h.

Lemma receive_cons h m rest :
  buf (Broadcast h) = m :: rest →
  ∃ h1, receive h = Some (m, h1) ∧ buf (Broadcast h1) = rest ∧
        Clients h1 = Clients h ∧ objects h1 = objects h.
Proof.
  intros Hq. unfold receive. rewrite Hq. eexists. split; [reflexivity|]. auto.
Qed.

Lemma Run_drain_queue (queue : list WebSocketMessage) : ∀ h p c,
  buf (Broadcast h) = queue → hub_wf h →
  is_Some (Clients h !! p) → objects h !! p = Some c →
  (length (buf (Send c)) + length queue ≤ cap (Send c))%nat →
  ∃ h' c', Run_drain pick (length queue) h = Some h' ∧
    buf (Broadcast h') = [] ∧ hub_wf h' ∧
    is_Some (Clients h' !! p) ∧ objects h' !! p = Some c' ∧
    buf (Send c') = buf (Send c) ++ queue ∧ closed (Send c') = false.
Proof.
  induction queue as [|m rest IH]; intros h p c Hq Hwf Hreg Hc Hroom.
  - destruct (Hwf p Hreg) as (c0 & Hc0 & Hopen). assert (c0 = c) as -> by congruence.
    exists h, c. simpl. rewrite app_nil_r. auto 10.
  - destruct (receive_cons h m rest Hq) as (h1 & Hrecv & Hrest & Hcl & Hob).
    cbn [length Run_drain]. rewrite Hrecv.
    assert (Hwf1 : hub_wf h1).
    { intros q Hq'. rewrite Hcl in Hq'. rewrite Hob. apply Hwf, Hq'. }
    destruct (pick_enumerates h1) as [Hnd Hen].
    destruct (range_Clients_spec m (pick h1) h1 Hwf1 Hnd (λ q Hq', proj1 (Hen q) Hq'))
      as (h2 & Hrun & Hwf2 & Hb2 & _ & Hin).
    unfold Run_broadcast. rewrite Hrun. cbn [mbind option_bind].
    assert (Hreg1 : is_Some (Clients h1 !! p)) by (rewrite Hcl; exact Hreg).
    assert (Hc1 : objects h1 !! p = Some c) by (rewrite Hob; exact Hc).
    specialize (Hin p c (proj2 (Hen p) Hreg1) Hc1). unfold visited in Hin.
    assert (Hfull : full (Send c) = false).
    { unfold full. apply Nat.leb_gt. simpl in Hroom. lia. }
    rewrite Hfull in Hin. destruct Hin as [Hreg2 Hc2].
    destruct (IH h2 p (delivered c m)) as (h' & c' & Hdrain & Hempty & Hwf' & Hreg' & Hc' & Hbuf & Hopen').
    + rewrite Hb2. exact Hrest.
    + exact Hwf2.
    + rewrite Hreg2. exact Hreg1.
    + exact Hc2.
    + simpl. rewrite length_app. simpl in *. lia.
    + exists h', c'. split; [exact Hdrain|]. split; [exact Hempty|].
      split; [exact Hwf'|]. split; [exact Hreg'|]. split; [exact Hc'|].
      split; [|exact Hopen']. rewrite Hbuf. simpl. rewrite <- app_assoc. reflexivity.
Qed.

End HubDrain.

Lemma pick_all_enumerates (h : WebSocketHub) : enumerates (pick_all h) h.
Proof.
  split; [apply NoDup_fst_map_to_list|].
  intros p. unfold pick_all. rewrite list_elem_of_fmap. split.
  - intros ([q b] & -> & Hin). apply elem_of_map_to_list in Hin. simpl. eauto.
  - intros [b Hb]. exists (p, b). split; [reflexivity|]. apply elem_of_map_to_list, Hb.
Qed.

(** X8. When [Run] works off its inbound queue, an observer with room for
  everything that is queued gets all of it, appended to its own queue
  in the order of the inbound queue, and stays registered; the inbound
  queue ends up empty.  This holds for every order in which the
  [range] loops visit the map. *)
Theorem Run_drain_fifo (pick : WebSocketHub → list ptr) (h : WebSocketHub) (p : ptr)
    (c : WebSocketClient) :
  (∀ h0, enumerates (pick h0) h0) →
  hub_wf h → is_Some (Clients h !! p) → objects h !! p = Some c →
  (length (buf (Send c)) + length (buf (Broadcast h)) ≤ cap (Send c))%nat →
  ∃ h' c', Run_drain pick (length (buf (Broadcast h))) h = Some h' ∧
    buf (Broadcast h') = [] ∧
    is_Some (Clients h' !! p) ∧ objects h' !! p = Some c' ∧
    buf (Send c') = buf (Send c) ++ buf (Broadcast h) ∧ closed (Send c') = false.
Proof.
  intros Hpick Hwf Hreg Hc Hroom.
  destruct (Run_drain_queue pick Hpick (buf (Broadcast h)) h p c eq_refl Hwf Hreg Hc Hroom)
    as (h' & c' & Hrun & Hempty & _ & Hreg' & Hc' & Hbuf & Hopen).
  exists h', c'. auto 10.
Qed.

Lemma hub_two_queued_wf : hub_wf hub_two_queued.
Proof.
  intros p [b Hb]. unfold hub_two_queued in *. simpl in *.
  apply lookup_insert_Some in Hb as [[<- _]|[_ Hb]]; [|rewrite lookup_empty in Hb; discriminate].
  eexists. split; reflexivity.
Qed.

Lemma Run_drain_fifo_two_queued :
  ∃ h' c', Run_drain pick_all 2 hub_two_queued = Some h' ∧
    buf (Broadcast h') = [] ∧ objects h' !! 1%nat = Some c' ∧
    buf (Send c') = [ping_all; welcome].
Proof.
  destruct (Run_drain_fifo pick_all hub_two_queued 1%nat (NewWebSocketClient "client_1")
              pick_all_enumerates hub_two_queued_wf)
    as (h' & c' & Hrun & Hempty & _ & Hc' & Hbuf & _).
  - eexists. reflexivity.
  - reflexivity.
  - simpl. lia.
  - exists h', c'. split; [exact Hrun|]. split; [exact Hempty|]. split; assumption.
Defined.

(** ** The pumps of one observer *)

Section ObserverPumps.

Implicit Types (c : WebSocketClient) (m : WebSocketMessage).

(** X9. [handleClientMessage] never waits.  On an open queue a ping adds
  exactly one pong (carrying the client id) when there is room and is
  dropped silently when there is none; any other message type leaves
  the client as it is.  A ping that is handled after the hub has
  closed the queue is a send on a closed channel: a panic. *)
Theorem handleClientMessage_ping m c (now : Time) :
  (closed (Send c) = false →
     ∃ c', handleClientMessage c m now = Some c' ∧
       ConnOpen c' = ConnOpen c ∧ ClientID c' = ClientID c ∧
       closed (Send c') = false ∧
       (Type_ m = "ping" → full (Send c) = false →
          buf (Send c') = buf (Send c) ++
            [{| Type_ := "pong"; Data := DataPong now (ClientID c); MsgMonitor := "" |}]) ∧
       (Type_ m = "ping" → full (Send c) = true → c' = c) ∧
       (Type_ m ≠ "ping" → c' = c)) ∧
  (closed (Send c) = true → Type_ m = "ping" → handleClientMessage c m now = None) ∧
  (Type_ m ≠ "ping" → handleClientMessage c m now = Some c).
Proof.
  unfold handleClientMessage. split; [|split].
  - intros Hopen. destruct (String.eqb_spec (Type_ m) "ping") as [Hp|Hp].
    + destruct (full (Send c)) eqn:Hfull.
      * rewrite (send_now_full _ _ Hopen Hfull). exists c.
        repeat split; auto; try discriminate; contradiction.
      * rewrite (send_now_room _ _ Hopen Hfull). eexists. split; [reflexivity|].
        simpl. repeat split; auto; try discriminate; contradiction.
    + exists c. destruct (String.eqb _ "subscribe_monitor");
        (split; [reflexivity|]); repeat split; auto; contradiction.
  - intros Hclosed ->. simpl. unfold send_now. rewrite Hclosed. reflexivity.
  - intros Hp. apply String.eqb_neq in Hp. rewrite Hp.
    destruct (String.eqb _ "subscribe_monitor"); reflexivity.
Qed.

Lemma handleClientMessage_ping_stalled :
  handleClientMessage stalled_client
    {| Type_ := "ping"; Data := DataStrings []; MsgMonitor := "" |} 5 = Some stalled_client.
Proof.
  destruct (proj1 (handleClientMessage_ping
                     {| Type_ := "ping"; Data := DataStrings []; MsgMonitor := "" |}
                     stalled_client 5) eq_refl)
    as (c' & Hrun & _ & _ & _ & _ & Hfull & _).
  rewrite Hrun. f_equal. apply Hfull; reflexivity.
Defined.

(** X10. [WritePump] hands the messages it takes from the queue to the
  connection in queue order, without gaps or repeats, up to the first
  one whose write fails.  It returns exactly when the queue is found
  closed or a write fails; until then every received message has been
  written.  A close frame is only ever the last frame, and each
  wake-up produces at most one frame. *)
Theorem WritePump_in_order (wakeups : list PumpWakeup) :
  json_frames (WritePump wakeups).1 `prefix_of` received wakeups ∧
  ((WritePump wakeups).2 = true ↔ ∃ w, w ∈ wakeups ∧ ends_pump w = true) ∧
  ((WritePump wakeups).2 = false → json_frames (WritePump wakeups).1 = received wakeups) ∧
  (∀ i, (WritePump wakeups).1 !! i = Some CloseFrame →
        S i = length (WritePump wakeups).1) ∧
  (length (WritePump wakeups).1 ≤ length wakeups)%nat.
Proof.
  induction wakeups as [|w rest (IHp & IHr & IHall & IHclose & IHlen)].
  - simpl. split; [apply prefix_nil|]. split.
    + split; [discriminate|]. intros (w & Hw & _). inversion Hw.
    + split; [reflexivity|]. split; [intros i Hi; discriminate | lia].
  - assert (Hex : ∀ b, (b = true ↔ ∃ w', w' ∈ rest ∧ ends_pump w' = true) →
                       ends_pump w = false →
                       (b = true ↔ ∃ w', w' ∈ w :: rest ∧ ends_pump w' = true)).
    { intros b Hb Hw. rewrite Hb. split.
      - intros (w' & Hin & He). exists w'. split; [right|]; assumption.
      - intros (w' & Hin & He). apply elem_of_cons in Hin as [->|Hin]; [congruence|].
        exists w'. auto. }
    assert (Hhere : ends_pump w = true → ∃ w', w' ∈ w :: rest ∧ ends_pump w' = true).
    { intros Hw. exists w. split; [left | exact Hw]. }
    destruct w as [m [|]| |[|]]; cbn [WritePump];
      try destruct (WritePump rest) as [frames returned]; cbn [fst snd] in *.
    + unfold json_frames in *. cbn [omap list_omap received length].
      split; [apply prefix_cons, IHp|]. split; [apply Hex; [exact IHr | reflexivity]|].
      split; [intros Hr; f_equal; apply IHall, Hr|].
      split; [|lia]. intros [|i] Hi; [discriminate|]. simpl in Hi.
      f_equal. apply IHclose, Hi.
    + unfold json_frames. cbn [omap list_omap received length].
      split; [apply prefix_cons, prefix_nil|].
      split; [split; [intros _; apply Hhere; reflexivity | reflexivity]|].
      split; [discriminate|]. split; [|lia].
      intros [|[|i]] Hi; discriminate.
    + unfold json_frames. cbn [omap list_omap received length].
      split; [apply prefix_nil|].
      split; [split; [intros _; apply Hhere; reflexivity | reflexivity]|].
      split; [discriminate|]. split; [|lia].
      intros [|[|i]] Hi; [reflexivity | discriminate | discriminate].
    + unfold json_frames in *. cbn [omap list_omap received length].
      split; [exact IHp|]. split; [apply Hex; [exact IHr | reflexivity]|].
      split; [exact IHall|].
      split; [|lia]. intros [|i] Hi; [discriminate|]. simpl in Hi.
      f_equal. apply IHclose, Hi.
    + unfold json_frames. cbn [omap list_omap received length].
      split; [apply prefix_nil|].
      split; [split; [intros _; apply Hhere; reflexivity | reflexivity]|].
      split; [discriminate|]. split; [|lia].
      intros [|[|i]] Hi; discriminate.
Qed.

Lemma WritePump_in_order_running :
  json_frames (WritePump [Received ping_all true; Idle true; Received welcome true]).1
    = [ping_all; welcome].
Proof.
  apply (proj1 (proj2 (proj2 (WritePump_in_order
           [Received ping_all true; Idle true; Received welcome true])))).
  reflexivity.
Defined.

End ObserverPumps.

(** ** More on the result sink and the probe executor *)

Section SinkEffects.

Implicit Types (ms : MonitorService) (wsHub : WebSocketHub) (monitor : Monitor).







Lemma unit_list_eq (l k : list unit) : length l = length k → l = k.
Proof.
  revert k. induction l as [|[] l IH]; intros [|[] k] Hlen; try discriminate; [reflexivity|].
  f_equal. apply IH. simpl in Hlen. lia.
Qed.

Lemma release_after_acquire ms ms2 :
  semaphore ms2 = {| buf := buf (semaphore ms) ++ [tt]; cap := cap (semaphore ms);
                     closed := false |} →
  closed (semaphore ms) = false →
  semaphore (release ms2) = semaphore ms.
Proof.
  intros Hs Hc. unfold release. simpl. rewrite Hs. simpl.
  destruct (semaphore ms) as [b n cl]. simpl in *. subst cl. f_equal.
  apply unit_list_eq. destruct b; simpl; [reflexivity|].
  rewrite length_app. simpl. lia.
Qed.

Lemma checkEndpoint_acquired ms wsHub monitor (outcome : ProbeOutcome) (now : Time) :
  closed (semaphore ms) = false → full (semaphore ms) = false →
  let ms1 := with_semaphore ms {| buf := buf (semaphore ms) ++ [tt];
                                  cap := cap (semaphore ms); closed := false |} in
  let '(status, code, rt, err) := classify outcome in
  checkEndpoint ms wsHub monitor outcome now =
    match recordMetric ms1 wsHub monitor status code rt err now with
    | Returns (ms2, h) => Returns (release ms2, h)
    | Parks st => Parks st
    | Panics => Panics
    end.
Proof.
  intros Hc Hf. unfold checkEndpoint. rewrite (send_now_room _ _ Hc Hf).
  destruct outcome; reflexivity.
Qed.

(** X12. The semaphore of [checkEndpoint].  With every slot taken the probe
  does not start: nothing is recorded and nothing is published.  With
  a free slot and room in the hub's queue the call returns with the
  semaphore exactly as it found it and one more event queued.  With a
  free slot but a full hub queue it is parked holding its slot, the
  occupancy one higher and still within the capacity. *)
Theorem checkEndpoint_semaphore ms wsHub monitor (outcome : ProbeOutcome) (now : Time) :
  closed (semaphore ms) = false → closed (Broadcast wsHub) = false →
  (full (semaphore ms) = true →
     checkEndpoint ms wsHub monitor outcome now = Parks (ms, wsHub)) ∧
  (full (semaphore ms) = false → full (Broadcast wsHub) = false →
     ∃ ms' h', checkEndpoint ms wsHub monitor outcome now = Returns (ms', h') ∧
       semaphore ms' = semaphore ms ∧
       length (buf (Broadcast h')) = S (length (buf (Broadcast wsHub)))) ∧
  (full (semaphore ms) = false → full (Broadcast wsHub) = true →
     ∃ ms', checkEndpoint ms wsHub monitor outcome now = Parks (ms', wsHub) ∧
       length (buf (semaphore ms')) = S (length (buf (semaphore ms))) ∧
       (length (buf (semaphore ms')) ≤ cap (semaphore ms'))%nat).
Proof.
  intros Hsc Hbc. split; [|split].
  - intros Hfull. unfold checkEndpoint. rewrite (send_now_full _ _ Hsc Hfull). reflexivity.
  - intros Hfree Hroom.
    pose proof (checkEndpoint_acquired ms wsHub monitor outcome now Hsc Hfree) as Hrun.
    cbv zeta in Hrun. destruct (classify outcome) as [[[status code] rt] err].
    rewrite Hrun, (recordMetric_room _ _ _ _ _ _ _ _ Hbc Hroom).
    eexists _, _. split; [reflexivity|]. split.
    + apply release_after_acquire; [|exact Hsc]. rewrite sink_db_registry. reflexivity.
    + simpl. rewrite length_app. simpl. lia.
  - intros Hfree Hfull.
    pose proof (checkEndpoint_acquired ms wsHub monitor outcome now Hsc Hfree) as Hrun.
    cbv zeta in Hrun. destruct (classify outcome) as [[[status code] rt] err].
    rewrite Hrun, (recordMetric_saturated _ _ _ _ _ _ _ _ Hbc Hfull).
    eexists. split; [reflexivity|]. rewrite sink_db_registry. simpl.
    rewrite length_app. simpl. split; [lia|].
    unfold full in Hfree. apply Nat.leb_gt in Hfree. lia.
Qed.

Lemma checkEndpoint_semaphore_returns_slot :
  ∃ ms' h', checkEndpoint ms0 NewWebSocketHub monitor0 (Response 200 12) 1000
            = Returns (ms', h') ∧
    semaphore ms' = semaphore ms0.
Proof.
  destruct (checkEndpoint_semaphore ms0 NewWebSocketHub monitor0 (Response 200 12) 1000
              eq_refl eq_refl) as (_ & Hret & _).
  destruct (Hret eq_refl eq_refl) as (ms' & h' & Hrun & Hsem & _).
  exists ms', h'. split; assumption.
Defined.

End SinkEffects.

(** ** The metric log, read back *)

Section MetricLog.

Import handlers.

Implicit Types (ms : MonitorService) (wsHub : WebSocketHub) (monitor : Monitor).

(** X13. Every metric that [checkEndpoint] writes is "up" or "down", so a
  log in which this holds keeps it through any probe, whatever the
  network, the semaphore and the hub do. *)
Theorem checkEndpoint_keeps_statuses ms wsHub monitor (outcome : ProbeOutcome)
    (now : Time) :
  statuses_ok (metrics (db ms)) →
  match checkEndpoint ms wsHub monitor outcome now with
  | Returns (ms', _) | Parks (ms', _) => statuses_ok (metrics (db ms'))
  | Panics => True
  end.
Proof.
  intros Hok. unfold checkEndpoint.
  destruct (send_now (semaphore ms) tt) as [sem| |]; [|exact Hok|exact I].
  set (ms1 := with_semaphore ms sem).
  assert (Hsink : ∀ status code rt err,
            status = "up" ∨ status = "down" →
            statuses_ok (metrics (db (sink_db ms1 monitor status code rt err now)))).
  { intros status code rt err Hst. unfold sink_db, InsertMetric, updateMonitorStatus,
      UpdateStatusByID. simpl.
    destruct (fault (db ms)) as [e|] eqn:Hf; simpl; rewrite ?Hf; simpl; [exact Hok|].
    intros m Hm. apply elem_of_app in Hm as [Hm|Hm]; [apply Hok, Hm|].
    apply list_elem_of_singleton in Hm as ->. exact Hst. }
  assert (Hrec : ∀ status code rt err,
            status = "up" ∨ status = "down" →
            match
              match recordMetric ms1 wsHub monitor status code rt err now with
              | Returns (ms2, h) => Returns (release ms2, h)
              | Parks st => Parks st
              | Panics => Panics
              end
            with
            | Returns (ms', _) | Parks (ms', _) => statuses_ok (metrics (db ms'))
            | Panics => True
            end).
  { intros status code rt err Hst. rewrite recordMetric_unfold.
    destruct (send_now (Broadcast wsHub) _); simpl; auto. }
  destruct outcome as [e|e rt|code rt]; cbv zeta.
  - apply Hrec. auto.
  - apply Hrec. auto.
  - apply Hrec. destruct (400 <=? code); auto.
Qed.

Lemma checkEndpoint_keeps_statuses_ten :
  match checkEndpoint ms10 NewWebSocketHub monitor0 (Response 404 9) 1000 with
  | Returns (ms', _) | Parks (ms', _) => statuses_ok (metrics (db ms'))
  | Panics => True
  end.
Proof.
  apply (checkEndpoint_keeps_statuses ms10 NewWebSocketHub monitor0 (Response 404 9) 1000).
  intros m Hm. simpl in Hm. unfold ten_samples in Hm.
  repeat (apply elem_of_cons in Hm as [->|Hm]; [simpl; auto|]). inversion Hm.
Defined.

Lemma filter_complement_length {A} (P Q : A → Prop) `{∀ x, Decision (P x)}
    `{∀ x, Decision (Q x)} (l : list A) :
  (∀ x, x ∈ l → (P x ∨ Q x) ∧ ¬ (P x ∧ Q x)) →
  (length (filter P l) + length (filter Q l) = length l)%nat.
Proof.
  induction l as [|a l IH]; intros Hall; [reflexivity|].
  rewrite !filter_cons.
  assert (IH' : (length (filter P l) + length (filter Q l) = length l)%nat).
  { apply IH. intros x Hx. apply Hall. right. exact Hx. }
  destruct (Hall a (list_elem_of_here _ _)) as [Hor Hnand].
  destruct (decide (P a)), (decide (Q a)); simpl; try lia; tauto.
Qed.

(** X14. On a non-empty list of "up"/"down" metrics, which is what the probe
  path writes, the uptime in the summary of the metrics API is the
  figure the result sink computes over the same samples. *)
Theorem summary_uptime_agrees_with_sink (l : list Metric) :
  l ≠ [] → statuses_ok l →
  uptime_percentage (calculateMetricsSummary l) = uptime_of l.
Proof.
  intros Hne Hok. destruct l as [|m rest]; [contradiction|].
  set (l := m :: rest) in *.
  pose (a0 := {| successfulChecks := 0; failedChecks := 0; totalResponseTime := 0;
                 minResponse := ResponseTime m; maxResponse := ResponseTime m |}).
  destruct (summary_fold l a0 0 eq_refl) as (Hs & _).
  assert (Hlen : (length (filter is_up l) + length (filter is_down l) = length l)%nat).
  { apply filter_complement_length. intros x Hx. split; [apply Hok, Hx|].
    unfold is_up, is_down. intros [Hu Hd]. rewrite Hu in Hd. discriminate. }
  unfold calculateMetricsSummary, l at 1. fold l. fold a0.
  cbn [uptime_percentage]. rewrite Hs. cbn [successfulChecks a0]. rewrite Z.add_0_l.
  unfold uptime_of, ups.
  assert (Hpos : (Z.of_nat (length l) =? 0) = false) by (apply Z.eqb_neq; simpl; lia).
  rewrite Hpos. do 3 f_equal. lia.
Qed.

Lemma summary_uptime_agrees_with_sink_ten :
  uptime_percentage (calculateMetricsSummary ten_samples) = uptime_of ten_samples.
Proof.
  apply summary_uptime_agrees_with_sink; [discriminate|].
  intros m Hm. unfold ten_samples in Hm.
  repeat (apply elem_of_cons in Hm as [->|Hm]; [simpl; auto|]). inversion Hm.
Defined.

(** X15. The counts of the summary add up for every list, empty or not:
  successful and failed checks are non-negative and sum to the total,
  which is the number of metrics; and the least response time is not
  above the greatest. *)
Theorem summary_counts_add_up (l : list Metric) :
  let s := calculateMetricsSummary l in
  total_checks s = Z.of_nat (length l) ∧
  successful_checks s + failed_checks s = total_checks s ∧
  0 <= successful_checks s ∧ 0 <= failed_checks s ∧
  min_response s <= max_response s.
Proof.
  destruct l as [|m rest]; [simpl; lia|].
  set (l := m :: rest).
  pose (a0 := {| successfulChecks := 0; failedChecks := 0; totalResponseTime := 0;
                 minResponse := ResponseTime m; maxResponse := ResponseTime m |}).
  destruct (summary_fold l a0 0 eq_refl) as (Hs & Hfl & _ & _ & Hminle & _ & _ & Hmaxle & _).
  assert (Hups : 0 <= ups l <= Z.of_nat (length l)).
  { unfold ups. pose proof (length_filter is_up l). lia. }
  intros s. unfold s, calculateMetricsSummary, l. fold l. fold a0.
  cbn [total_checks successful_checks failed_checks min_response max_response].
  rewrite Hs, Hfl. cbn [successfulChecks failedChecks minResponse maxResponse a0] in *.
  lia.
Qed.

(** X16. A metric that [recordMetric] has stored is found by [GetMetrics]:
  while the store answers and the window of the request holds fewer
  than 1000 metrics of the monitor, the rows returned for any window
  of 1 to 168 hours ending at the time of the probe contain it. *)
Theorem recorded_metric_is_returned ms wsHub monitor (status : string) (code rt : Z)
    (err : string) (now hours : Z) :
  fault (db ms) = None → closed (Broadcast wsHub) = false →
  1 <= hours <= 168 →
  (length (window_since ms (ID monitor) (now - hours * Hour)%Z) < 1000)%nat →
  ∃ ms' h' rows,
    reached (recordMetric ms wsHub monitor status code rt err now) = Some (ms', h') ∧
    monitor_service.GetMetrics ms' (ID monitor) hours now = Ok rows ∧
    metric_of monitor status code rt err now ∈ rows.
Proof.
  intros Hf Hopen Hh Hlen.
  destruct (recordMetric_reached ms wsHub monitor status code rt err now Hopen) as [h' Hr].
  destruct (sink_db_metrics ms monitor status code rt err now Hf) as [Hm Hf'].
  set (ms' := sink_db ms monitor status code rt err now) in *.
  exists ms', h'. eexists. split; [exact Hr|].
  split; [apply GetMetrics_rows; assumption|].
  assert (Hw : window_since ms' (ID monitor) (now - hours * Hour) =
               window_since ms (ID monitor) (now - hours * Hour)
                 ++ [metric_of monitor status code rt err now]).
  { unfold window_since. rewrite Hm, filter_app. f_equal.
    rewrite (filter_cons _ _ []), filter_nil. rewrite decide_True; [reflexivity|].
    simpl. unfold Hour, Second. split; [reflexivity | lia]. }
  rewrite take_ge.
  - rewrite merge_sort_Permutation, Hw. apply elem_of_app. right. left.
  - rewrite merge_sort_Permutation, Hw, length_app. simpl. lia.
Qed.

Lemma recorded_metric_is_returned_day :
  ∃ ms' h' rows,
    reached (recordMetric ms10 NewWebSocketHub monitor0 "up" 200 15 "" (11 * 60 * Second))
      = Some (ms', h') ∧
    monitor_service.GetMetrics ms' (ID monitor0) 24 (11 * 60 * Second) = Ok rows ∧
    metric_of monitor0 "up" 200 15 "" (11 * 60 * Second) ∈ rows.
Proof.
  apply (recorded_metric_is_returned ms10 NewWebSocketHub monitor0 "up" 200 15 ""
           (11 * 60 * Second) 24); try reflexivity; try lia.
  vm_compute. lia.
Defined.

End MetricLog.

(** ** More on creating and deleting monitors *)

Section MonitorStore.

Implicit Types (ms : MonitorService) (monitor : Monitor) (id : ObjectID).

Lemma CreateMonitor_cases ms monitor (newID : ObjectID) :
  CreateMonitor ms monitor newID = (ms, monitor, (CreateMonitor ms monitor newID).2)
  ∨ (¬ url_taken ms (MURL monitor) ∧
     CreateMonitor ms monitor newID =
       (with_db ms (with_monitors (db ms) (monitors (db ms) ++ [set_ID monitor newID])),
        set_ID monitor newID, None)).
Proof.
  unfold CreateMonitor, CountByURL, InsertMonitor.
  destruct (fault (db ms)) as [e|] eqn:Hf; [left; reflexivity|].
  destruct (0 <? _) eqn:Hcount; [left; reflexivity|].
  assert (Hfree : ¬ url_taken ms (MURL monitor)).
  { intros Ht. apply (filter_nonempty (λ m, MURL m = MURL monitor)) in Ht. congruence. }
  rewrite bool_decide_eq_false_2.
  - right. split; [exact Hfree | reflexivity].
  - intros Hex. apply Hfree. apply Exists_exists in Hex as (m & Hm & Hurl). exists m. auto.
Qed.

Lemma remove_first_sublist {A} (p : A → bool) (l : list A) :
  (remove_first p l).1 `sublist_of` l.
Proof.
  induction l as [|x l IH]; simpl; [constructor|].
  destruct (p x); simpl.
  - apply sublist_cons. reflexivity.
  - destruct (remove_first p l) as [r n]. simpl in *. apply sublist_skip, IH.
Qed.

Lemma remove_first_app_last {A} (p : A → bool) (l : list A) (x : A) :
  (∀ y, y ∈ l → p y = false) → p x = true → remove_first p (l ++ [x]) = (l, 1).
Proof.
  induction l as [|y l IH]; intros Hall Hx; simpl.
  - rewrite Hx. reflexivity.
  - rewrite (Hall y (list_elem_of_here _ _)), IH; [reflexivity| |exact Hx].
    intros z Hz. apply Hall. right. exact Hz.
Qed.

(** What [DeleteMonitor] leaves in the store. *)
Lemma DeleteMonitor_store ms id :
  registry_wf ms →
  ∃ ms1, stopMonitorJob ms (Hex id) = Some ms1 ∧ registry_wf ms1 ∧ db ms1 = db ms ∧
    activeJobs ms1 !! Hex id = None ∧
    DeleteMonitor ms id =
      match fault (db ms) with
      | Some e => Some (ms1, Some e)
      | None =>
          let '(r, n) := remove_first (λ m, bool_decide (ID m = id)) (monitors (db ms)) in
          Some (with_db ms1 (with_monitors (db ms) r),
                if n =? 0 then Some not_found_error else None)
      end.
Proof.
  intros Hwf.
  destruct (stopMonitorJob_wf ms (Hex id) Hwf) as (ms1 & Hstop & Hwf1).
  pose proof (stopMonitorJob_db _ _ _ Hstop) as Hdb.
  exists ms1. split; [exact Hstop|]. split; [exact Hwf1|]. split; [exact Hdb|].
  split; [eapply stopMonitorJob_unregisters; eauto|].
  unfold DeleteMonitor. rewrite Hstop. cbn [mbind option_bind].
  unfold DeleteMonitorByID. rewrite Hdb.
  destruct (fault (db ms)); [reflexivity|].
  destruct (remove_first _ _) as [r n]. destruct (n =? 0); reflexivity.
Qed.

(** X17. The target URLs of the stored monitors stay pairwise distinct:
  [CreateMonitor], whatever it returns, and [DeleteMonitor] keep a
  store without duplicate URLs free of them. *)
Theorem stored_urls_stay_distinct ms monitor (newID : ObjectID) id :
  NoDup (MURL <$> monitors (db ms)) →
  NoDup (MURL <$> monitors (db (CreateMonitor ms monitor newID).1.1)) ∧
  match DeleteMonitor ms id with
  | Some (ms', _) => NoDup (MURL <$> monitors (db ms'))
  | None => True
  end.
Proof.
  intros Hnd. split.
  - destruct (CreateMonitor_cases ms monitor newID) as [->|[Hfree ->]]; [exact Hnd|].
    simpl. rewrite fmap_app. apply NoDup_app. split; [exact Hnd|]. split.
    + intros u Hu Hin. apply list_elem_of_singleton in Hin as ->.
      apply list_elem_of_fmap in Hu as (m & Hurl & Hm). apply Hfree. exists m. auto.
    + apply NoDup_singleton.
  - unfold DeleteMonitor. destruct (stopMonitorJob ms (Hex id)) as [ms1|] eqn:Hstop; [|exact I].
    cbn [mbind option_bind]. pose proof (stopMonitorJob_db _ _ _ Hstop) as Hdb.
    unfold DeleteMonitorByID. rewrite Hdb.
    destruct (fault (db ms)); [simpl; rewrite Hdb; exact Hnd|].
    pose proof (remove_first_sublist (λ m, bool_decide (ID m = id)) (monitors (db ms))) as Hsub.
    destruct (remove_first _ _) as [r n]. simpl in Hsub.
    assert (Hr : NoDup (MURL <$> r)).
    { eapply sublist_NoDup; [exact Hnd|]. apply fmap_sublist, Hsub. }
    destruct (n =? 0); simpl; exact Hr.
Qed.

Lemma stored_urls_stay_distinct_three :
  NoDup (MURL <$> monitors (db (CreateMonitor ms3 monitor0 "65a000000000000000000009").1.1)).
Proof.
  apply (stored_urls_stay_distinct ms3 monitor0 "65a000000000000000000009" "").
  simpl. repeat (apply NoDup_cons; split; [rewrite ?elem_of_cons, elem_of_nil;
                                           intros H; repeat destruct H as [H|H];
                                           discriminate || exact H|]).
  apply NoDup_nil_2.
Defined.

(** X18. Creating a monitor and deleting it again is a round trip on the
  store: for a free URL and an id no stored monitor has, the create
  succeeds and stores the monitor under that id, the delete of that id
  succeeds, and the monitors are then exactly those from before. *)
Theorem CreateMonitor_then_DeleteMonitor ms monitor (newID : ObjectID) :
  fault (db ms) = None → registry_wf ms →
  ¬ url_taken ms (MURL monitor) → ¬ id_known ms newID →
  ∃ ms1 stored ms2,
    CreateMonitor ms monitor newID = (ms1, stored, None) ∧
    ID stored = newID ∧ id_known ms1 newID ∧ url_taken ms1 (MURL monitor) ∧
    DeleteMonitor ms1 newID = Some (ms2, None) ∧
    monitors (db ms2) = monitors (db ms) ∧
    ¬ id_known ms2 newID.
Proof.
  intros Hf Hwf Hfree Hfresh.
  rewrite (CreateMonitor_free ms monitor newID Hf Hfree).
  set (ms1 := with_db ms _).
  assert (Hwf1 : registry_wf ms1) by exact Hwf.
  destruct (DeleteMonitor_store ms1 newID Hwf1) as (ms1' & _ & _ & _ & _ & Hdel).
  assert (Hrem : remove_first (λ m, bool_decide (ID m = newID)) (monitors (db ms1))
                 = (monitors (db ms), 1)).
  { simpl. apply remove_first_app_last.
    - intros m Hm. apply bool_decide_eq_false. intros Hid. apply Hfresh. exists m. auto.
    - apply bool_decide_eq_true. reflexivity. }
  rewrite Hrem in Hdel. simpl in Hdel. rewrite Hf in Hdel.
  eexists ms1, _, _. split; [reflexivity|]. split; [reflexivity|].
  split; [exists (set_ID monitor newID); split;
          [simpl; apply elem_of_app; right; left | reflexivity]|].
  split; [exists (set_ID monitor newID); split;
          [simpl; apply elem_of_app; right; left | reflexivity]|].
  split; [exact Hdel|]. split; [reflexivity | exact Hfresh].
Qed.

Lemma CreateMonitor_then_DeleteMonitor_fresh :
  ∃ ms1 stored ms2,
    CreateMonitor ms0 monitor_web "65a000000000000000000002" = (ms1, stored, None) ∧
    DeleteMonitor ms1 "65a000000000000000000002" = Some (ms2, None) ∧
    monitors (db ms2) = monitors (db ms0).
Proof.
  destruct (CreateMonitor_then_DeleteMonitor ms0 monitor_web "65a000000000000000000002"
              eq_refl (registry_wf_new _ _))
    as (ms1 & m1 & ms2 & Hc & _ & _ & _ & Hd & Hsame & _).
  - intros (m & Hm & Hu). apply list_elem_of_singleton in Hm as ->. discriminate Hu.
  - intros (m & Hm & Hu). apply list_elem_of_singleton in Hm as ->. discriminate Hu.
  - exists ms1, m1, ms2. split; [exact Hc|]. split; assumption.
Defined.

(** X19. [DeleteMonitor] cancels the job before it asks the store, so a call
  that fails has still stopped the monitor: when the store cannot be
  reached the monitor stays stored, but afterwards no goroutine of it
  is live and none is registered.  In no case does a delete remove
  metrics: the log of a deleted monitor stays in the store. *)
Theorem DeleteMonitor_failure_still_stops ms id :
  registry_wf ms →
  ∃ ms' err, DeleteMonitor ms id = Some (ms', err) ∧
    activeJobs ms' !! Hex id = None ∧ live_jobs ms' (Hex id) = [] ∧
    metrics (db ms') = metrics (db ms) ∧
    (∀ e, fault (db ms) = Some e → err = Some e ∧ db ms' = db ms).
Proof.
  intros Hwf.
  destruct (DeleteMonitor_store ms id Hwf) as (ms1 & _ & Hwf1 & Hdb & Hnone & Hdel).
  rewrite Hdel. destruct (fault (db ms)) as [e|] eqn:Hf.
  - exists ms1, (Some e). split; [reflexivity|]. split; [exact Hnone|].
    split; [apply live_jobs_unregistered; assumption|].
    split; [rewrite Hdb; reflexivity|]. intros e' [= <-]. auto.
  - destruct (remove_first _ _) as [r n].
    eexists _, _. split; [reflexivity|]. split; [exact Hnone|].
    split; [apply (live_jobs_unregistered (with_db ms1 _)); assumption|].
    split; [reflexivity | discriminate].
Qed.

Lemma DeleteMonitor_failure_still_stops_started :
  ∃ ms ms',
    job_steps ms_unreachable [OpStart monitor0] = Some ms ∧
    length (live_jobs ms (Hex (ID monitor0))) = 1%nat ∧
    fault (db ms) = Some "server selection timeout" ∧
    DeleteMonitor ms (ID monitor0) = Some (ms', Some "server selection timeout") ∧
    activeJobs ms' !! Hex (ID monitor0) = None ∧
    live_jobs ms' (Hex (ID monitor0)) = [] ∧
    monitors (db ms') = [monitor0].
Proof.
  destruct (job_steps_wf [OpStart monitor0] ms_unreachable (registry_wf_new _ _))
    as (ms & Hrun & Hwf).
  assert (Hms : ms = {| db := db ms_unreachable;
                        activeJobs := <[Hex (ID monitor0) := 0%nat]> ∅;
                        semaphore := semaphore ms_unreachable;
                        stopChans := [make 0];
                        goroutines := [{| job_monitor := Hex (ID monitor0);
                                          job_stop := 0 |}] |}).
  { assert (Hrun' : job_steps ms_unreachable [OpStart monitor0] = Some
             {| db := db ms_unreachable;
                activeJobs := <[Hex (ID monitor0) := 0%nat]> ∅;
                semaphore := semaphore ms_unreachable;
                stopChans := [make 0];
                goroutines := [{| job_monitor := Hex (ID monitor0);
                                  job_stop := 0 |}] |}) by reflexivity.
    congruence. }
  destruct (DeleteMonitor_failure_still_stops ms (ID monitor0) Hwf)
    as (ms' & err & Hdel & Hnone & Hlive & _ & Hfail).
  assert (Hfault : fault (db ms) = Some "server selection timeout")
    by (rewrite Hms; reflexivity).
  destruct (Hfail _ Hfault) as [-> Hdb].
  exists ms, ms'. split; [exact Hrun|].
  split; [rewrite Hms; reflexivity|]. split; [exact Hfault|].
  split; [exact Hdel|]. split; [exact Hnone|]. split; [exact Hlive|].
  rewrite Hdb, Hms. reflexivity.
Defined.

End MonitorStore.

(** ** The dashboard *)

Section Dashboard.

Import handlers.

Implicit Types (l : list Monitor) (a : StatsAcc).

Lemma count_monitors_cons (P : Monitor → bool) m l :
  count_monitors P (m :: l) = (if P m then 1 else 0) + count_monitors P l.
Proof.
  unfold count_monitors. rewrite filter_cons.
  destruct (P m); [rewrite decide_True by reflexivity | rewrite decide_False by discriminate];
    cbn [length]; lia.
Qed.

Lemma stats_fold l : ∀ a,
  let r := fold_left stats_step l a in
  accActive r = accActive a + count_monitors IsActive l ∧
  accActiveCount r = accActiveCount a + count_monitors IsActive l ∧
  accUp r = accUp a + count_monitors is_active_up l ∧
  accDown r = accDown a + count_monitors is_active_down l ∧
  (count_monitors IsActive l = 0 →
     accTotalUptime r = accTotalUptime a ∧ accTotalResponse r = accTotalResponse a).
Proof.
  induction l as [|m l IH]; intros a; cbn [fold_left].
  - unfold count_monitors. simpl. repeat split; lia.
  - destruct (IH (stats_step a m)) as (Hact & Hcnt & Hup & Hdown & Hzero). clear IH.
    cbv zeta. rewrite Hact, Hcnt, Hup, Hdown, !count_monitors_cons.
    assert (Hnn : 0 <= count_monitors IsActive l) by (unfold count_monitors; lia).
    unfold is_active_up, is_active_down.
    destruct (IsActive m) eqn:Ha; cbn [andb].
    + unfold stats_step. rewrite Ha. cbn [accActive accActiveCount accUp accDown].
      destruct (String.eqb (CurrentStatus m) "up"), (String.eqb (CurrentStatus m) "down");
        repeat split; try lia.
    + assert (Hstep : stats_step a m = a) by (unfold stats_step; rewrite Ha; reflexivity).
      rewrite Hstep in *.
      split; [lia|]. split; [lia|]. split; [lia|]. split; [lia|].
      intros Hz. apply Hzero. lia.
Qed.

Lemma up_and_down_within_active l :
  count_monitors is_active_up l + count_monitors is_active_down l
  <= count_monitors IsActive l.
Proof.
  induction l as [|m l IH]; [unfold count_monitors; simpl; lia|].
  rewrite !count_monitors_cons.
  change (is_active_up m) with (IsActive m && String.eqb (CurrentStatus m) "up").
  change (is_active_down m) with (IsActive m && String.eqb (CurrentStatus m) "down").
  destruct (IsActive m); cbn [andb]; [|lia].
  destruct (String.eqb_spec (CurrentStatus m) "up") as [Hu|Hu];
    destruct (String.eqb_spec (CurrentStatus m) "down") as [Hd|Hd]; try lia.
  rewrite Hu in Hd. discriminate.
Qed.

(** X20. The dashboard counts: the total is the number of stored monitors,
  the active count the number flagged active, "up" and "down" count
  the active monitors with that current status, so together they
  never exceed the active count (a monitor still "unknown" is in
  neither).  With no active monitor both averages are 0 and nothing
  is divided.  When the monitors cannot be loaded the answer is 500. *)
Theorem GetDashboardStats_counts (ms : MonitorService) :
  (fault (db ms) = None →
     ∃ stats, GetDashboardStats ms = Success StatusOK stats ∧
       TotalMonitors stats = Z.of_nat (length (monitors (db ms))) ∧
       ActiveMonitors stats = count_monitors IsActive (monitors (db ms)) ∧
       UpMonitors stats = count_monitors is_active_up (monitors (db ms)) ∧
       DownMonitors stats = count_monitors is_active_down (monitors (db ms)) ∧
       0 <= UpMonitors stats ∧ 0 <= DownMonitors stats ∧
       UpMonitors stats + DownMonitors stats <= ActiveMonitors stats ∧
       ActiveMonitors stats <= TotalMonitors stats ∧
       (ActiveMonitors stats = 0 →
          OverallUptime stats = Float64.zero ∧ AverageResponse stats = Float64.zero)) ∧
  (∀ e, fault (db ms) = Some e →
        GetDashboardStats ms
          = Failure StatusInternalServerError "Failed to retrieve dashboard stats" e).
Proof.
  unfold GetDashboardStats, monitor_service.GetMonitors. split.
  - intros Hf. rewrite Hf. eexists. split; [reflexivity|].
    set (a0 := {| accActive := 0; accUp := 0; accDown := 0;
                  accTotalUptime := Float64.zero; accTotalResponse := 0;
                  accActiveCount := 0 |}).
    destruct (stats_fold (monitors (db ms)) a0) as (Hact & Hcnt & Hup & Hdown & _).
    cbn [TotalMonitors ActiveMonitors UpMonitors DownMonitors OverallUptime AverageResponse].
    rewrite Hact, Hcnt, Hup, Hdown. cbn [accActive accActiveCount accUp accDown a0].
    rewrite !Z.add_0_l.
    pose proof (up_and_down_within_active (monitors (db ms))) as Hle.
    assert (Hall : count_monitors IsActive (monitors (db ms))
                   <= Z.of_nat (length (monitors (db ms)))).
    { unfold count_monitors. pose proof (length_filter (λ m, IsActive m = true)
                                           (monitors (db ms))). lia. }
    split; [reflexivity|]. split; [reflexivity|]. split; [reflexivity|].
    split; [reflexivity|].
    split; [unfold count_monitors; lia|]. split; [unfold count_monitors; lia|].
    split; [exact Hle|]. split; [exact Hall|].
    intros Hz. rewrite Hz. simpl. auto.
  - intros e Hf. rewrite Hf. reflexivity.
Qed.

Lemma GetDashboardStats_counts_three :
  ∃ stats, GetDashboardStats ms3 = Success StatusOK stats ∧
    TotalMonitors stats = 3 ∧ ActiveMonitors stats = 2 ∧
    UpMonitors stats = 1 ∧ DownMonitors stats = 0.
Proof.
  destruct (proj1 (GetDashboardStats_counts ms3) eq_refl)
    as (stats & Hrun & Htot & Hact & Hup & Hdown & _).
  exists stats. split; [exact Hrun|].
  rewrite Htot, Hact, Hup, Hdown. repeat split; reflexivity.
Defined.

End Dashboard.

(** ** Configuration *)

Section Configuration.

Import config.

Implicit Types (env : gmap string string) (c : Config).

Lemma getEnvOrDefault_nonempty env (key defaultValue : string) :
  defaultValue ≠ "" → getEnvOrDefault env key defaultValue ≠ "".
Proof.
  intros Hd. unfold getEnvOrDefault.
  destruct (String.eqb_spec (Getenv env key) "") as [He|He]; simpl; assumption.
Qed.

Lemma getEnvOrDefault_unset env (key defaultValue : string) :
  env !! key = None → getEnvOrDefault env key defaultValue = defaultValue.
Proof. intros H. unfold getEnvOrDefault, Getenv. rewrite H. reflexivity. Qed.

Lemma getEnvOrDefault_empty env (key : string) :
  getEnvOrDefault env key "" = Getenv env key.
Proof.
  unfold getEnvOrDefault.
  destruct (String.eqb_spec (Getenv env key) "") as [He|He]; simpl; congruence.
Qed.

Lemma IsProduction_loaded env :
  IsProduction (LoadConfig env) = true ↔
  Getenv env "GIN_MODE" = "release" ∨ Getenv env "GIN_MODE" = "production".
Proof.
  unfold IsProduction, LoadConfig, getEnvOrDefault. cbn [Environment].
  destruct (String.eqb_spec (Getenv env "GIN_MODE") "") as [He|He]; cbn [negb].
  - rewrite He. simpl. split; [discriminate | intros [H|H]; discriminate H].
  - rewrite orb_true_iff, !String.eqb_eq. reflexivity.
Qed.

Lemma EnableHTTPS_loaded env :
  EnableHTTPS (LoadConfig env) = true ↔ ParseBool (Getenv env "ENABLE_HTTPS") = Some true.
Proof.
  unfold LoadConfig, getEnvAsBool. cbn [EnableHTTPS].
  destruct (String.eqb_spec (Getenv env "ENABLE_HTTPS") "") as [He|He]; cbn [negb].
  - rewrite He. simpl. split; discriminate.
  - destruct (ParseBool (Getenv env "ENABLE_HTTPS")) as [[]|];
      split; congruence.
Qed.

(** X21. What [Validate] can say about a configuration that [LoadConfig]
  built.  The store URI, the database name, the port, the host and
  the mode are never empty, because an unset or empty variable falls
  back to a non-empty default, so the two "is required" errors cannot
  occur.  The one error left is the HTTPS one, and it is returned
  exactly in production mode (GIN_MODE release or production) with
  ENABLE_HTTPS a true value and CERT_FILE or KEY_FILE unset or empty;
  outside production mode the same setting passes.  No configuration
  is in development and in production mode at once, and without
  GIN_MODE the mode is development. *)
Theorem Validate_of_loaded_config env :
  MongodbURI (LoadConfig env) ≠ "" ∧ DatabaseName (LoadConfig env) ≠ "" ∧
  Port (LoadConfig env) ≠ "" ∧ Host (LoadConfig env) ≠ "" ∧
  Environment (LoadConfig env) ≠ "" ∧
  (config.Validate (LoadConfig env) = None ∨
   config.Validate (LoadConfig env) = Some https_error) ∧
  (config.Validate (LoadConfig env) = Some https_error ↔
     (Getenv env "GIN_MODE" = "release" ∨ Getenv env "GIN_MODE" = "production") ∧
     ParseBool (Getenv env "ENABLE_HTTPS") = Some true ∧
     certificate_missing env) ∧
  (∀ c, IsDevelopment c && IsProduction c = false) ∧
  (env !! "GIN_MODE" = None →
     IsDevelopment (LoadConfig env) = true ∧ IsProduction (LoadConfig env) = false ∧
     config.Validate (LoadConfig env) = None).
Proof.
  assert (Huri : MongodbURI (LoadConfig env) ≠ "")
    by (apply getEnvOrDefault_nonempty; discriminate).
  assert (Hname : DatabaseName (LoadConfig env) ≠ "")
    by (apply getEnvOrDefault_nonempty; discriminate).
  assert (Hval : config.Validate (LoadConfig env) =
                 if IsProduction (LoadConfig env) && EnableHTTPS (LoadConfig env) &&
                    (String.eqb (Getenv env "CERT_FILE") "" ||
                     String.eqb (Getenv env "KEY_FILE") "")
                 then Some https_error else None).
  { unfold config.Validate.
    rewrite (proj2 (String.eqb_neq _ _) Huri), (proj2 (String.eqb_neq _ _) Hname).
    change (CertFile (LoadConfig env)) with (getEnvOrDefault env "CERT_FILE" "").
    change (KeyFile (LoadConfig env)) with (getEnvOrDefault env "KEY_FILE" "").
    rewrite !getEnvOrDefault_empty.
    destruct (IsProduction (LoadConfig env)), (EnableHTTPS (LoadConfig env));
      reflexivity. }
  split; [exact Huri|]. split; [exact Hname|].
  split; [apply getEnvOrDefault_nonempty; discriminate|].
  split; [apply getEnvOrDefault_nonempty; discriminate|].
  split; [apply getEnvOrDefault_nonempty; discriminate|].
  split; [rewrite Hval; destruct (_ && _ && _); auto|]. split; [|split].
  - rewrite Hval, <- IsProduction_loaded, <- EnableHTTPS_loaded. unfold certificate_missing.
    destruct (IsProduction (LoadConfig env)), (EnableHTTPS (LoadConfig env));
      cbn [andb];
      try (split; [discriminate | intros (H1 & H2 & _); discriminate]).
    destruct (String.eqb_spec (Getenv env "CERT_FILE") "") as [Hc|Hc]; cbn [orb].
    + split; auto.
    + destruct (String.eqb_spec (Getenv env "KEY_FILE") "") as [Hk|Hk].
      * split; auto.
      * split; [discriminate | intros (_ & _ & [H|H]); contradiction].
  - intros c. unfold IsDevelopment, IsProduction.
    destruct (String.eqb_spec (Environment c) "debug") as [->|_]; [reflexivity|].
    destruct (String.eqb_spec (Environment c) "development") as [->|_]; reflexivity.
  - intros Hunset.
    assert (Hmode : Environment (LoadConfig env) = "debug")
      by apply (getEnvOrDefault_unset env "GIN_MODE" "debug" Hunset).
    assert (Hprod : IsProduction (LoadConfig env) = false)
      by (unfold IsProduction; rewrite Hmode; reflexivity).
    split; [unfold IsDevelopment; rewrite Hmode; reflexivity|].
    split; [exact Hprod|]. rewrite Hval, Hprod. reflexivity.
Qed.

Lemma Validate_of_loaded_config_https :
  config.Validate (LoadConfig env_https) = Some https_error ∧
  config.Validate (LoadConfig ∅) = None.
Proof.
  destruct (Validate_of_loaded_config env_https) as (_ & _ & _ & _ & _ & _ & Hhttps & _).
  destruct (Validate_of_loaded_config ∅) as (_ & _ & _ & _ & _ & _ & _ & _ & Hdev).
  split.
  - apply Hhttps. split; [left; reflexivity|]. split; [reflexivity | left; reflexivity].
  - apply Hdev. apply lookup_empty.
Defined.

End Configuration.

(** ** Uptime is per monitor *)

Section UptimeFrame.

Implicit Types (ms : MonitorService) (wsHub : WebSocketHub) (monitor : Monitor).

Lemma FindMetrics_other_monitor ms monitor (status : string) (code rt : Z) (err : string)
    (now : Time) (id : ObjectID) (start : Time) :
  ID monitor ≠ id →
  FindMetrics (db (sink_db ms monitor status code rt err now)) id start false None
  = FindMetrics (db ms) id start false None.
Proof.
  intros Hne. unfold sink_db, InsertMetric, updateMonitorStatus, UpdateStatusByID, FindMetrics.
  destruct (fault (db ms)) as [e|] eqn:Hf; simpl; rewrite Hf; simpl; rewrite ?Hf;
    [reflexivity|].
  simpl. f_equal. rewrite filter_app, (filter_cons _ _ []), filter_nil.
  rewrite decide_False; [apply app_nil_r|].
  unfold in_window. simpl. rewrite bool_decide_eq_false_2 by exact Hne. discriminate.
Qed.

(** X22. Recording a probe of one monitor never changes the uptime of
  another: for every other id and at every instant the uptime computed
  after [recordMetric] is the one computed before. *)
Theorem recordMetric_leaves_other_uptimes ms wsHub monitor (status : string)
    (code rt : Z) (err : string) (now : Time) (id : ObjectID) :
  closed (Broadcast wsHub) = false → ID monitor ≠ id →
  ∃ ms' h', reached (recordMetric ms wsHub monitor status code rt err now) = Some (ms', h') ∧
    ∀ later, calculateUptimePercentage ms' id later = calculateUptimePercentage ms id later.
Proof.
  intros Hopen Hne.
  destruct (recordMetric_reached ms wsHub monitor status code rt err now Hopen) as [h' Hr].
  eexists _, h'. split; [exact Hr|]. intros later.
  unfold calculateUptimePercentage. rewrite FindMetrics_other_monitor by exact Hne.
  reflexivity.
Qed.

Lemma recordMetric_leaves_other_uptimes_ten :
  ∃ ms' h',
    reached (recordMetric ms10 NewWebSocketHub monitor_web "down" 500 7 "" (11 * 60 * Second))
      = Some (ms', h') ∧
    calculateUptimePercentage ms' (ID monitor0) (11 * 60 * Second) = Float64.eighty.
Proof.
  destruct (recordMetric_leaves_other_uptimes ms10 NewWebSocketHub monitor_web "down" 500 7 ""
              (11 * 60 * Second) (ID monitor0) eq_refl ltac:(discriminate))
    as (ms' & h' & Hr & Hsame).
  exists ms', h'. split; [exact Hr|]. rewrite Hsame. reflexivity.
Defined.

End UptimeFrame.

(** ** Testing the store connection *)

Section ConnectionTest.

Import mongo.

Example isAtlasURI_examples :
  isAtlasURI "mongodb+srv://u:p@cluster0.abcde.mongodb.net/db" = true ∧
  isAtlasURI "mongodb://localhost:27017" = false.
Proof. split; reflexivity. Qed.

Lemma ping_loop_spec (Ping : nat → option error) (max : nat) : ∀ todo i slept err,
  (i + todo = max)%nat → slept = Nat.min i (max - 1) →
  ((0 < i)%nat → err = Ping (i - 1)%nat ∧ err ≠ None) →
  let r := ping_loop Ping max i todo slept err in
  (∃ k, (i ≤ k < max)%nat ∧ Ping k = None ∧ (∀ j, (i ≤ j < k)%nat → Ping j ≠ None) ∧
        pings r = S k ∧ sleeps r = k ∧ last_err r = None)
  ∨ ((∀ j, (i ≤ j < max)%nat → Ping j ≠ None) ∧ pings r = max ∧
     sleeps r = (max - 1)%nat ∧
     ((0 < max)%nat → last_err r = Ping (max - 1)%nat ∧ last_err r ≠ None)).
Proof.
  induction todo as [|todo IH]; intros i slept err Hi Hs Herr; cbn [ping_loop].
  - right. simpl. split; [intros j Hj; lia|]. split; [lia|]. split; [lia|].
    intros Hmax. replace max with i by lia. apply Herr. lia.
  - destruct (Ping i) as [e|] eqn:Hp.
    + destruct (IH (S i) (if (i <? max - 1)%nat then S slept else slept) (Some e))
        as [(k & Hk & Hok & Hbefore & Hpings & Hsleeps & Hlast)|(Hall & Hpings & Hsleeps & Hlast)].
      * lia.
      * destruct (Nat.ltb_spec i (max - 1)); lia.
      * intros _. simpl. rewrite Nat.sub_0_r, Hp. split; [reflexivity | discriminate].
      * left. exists k. split; [lia|]. split; [exact Hok|]. split; [|auto].
        intros j Hj. destruct (decide (j = i)) as [->|Hne]; [congruence|].
        apply Hbefore. lia.
      * right. split; [|auto].
        intros j Hj. destruct (decide (j = i)) as [->|Hne]; [congruence|].
        apply Hall. lia.
    + left. exists i. simpl. split; [lia|]. split; [exact Hp|].
      split; [intros j Hj; lia|]. split; [reflexivity|]. split; [lia | reflexivity].
Qed.

(** X23. The connection test pings at least once and at most [maxRetries]
  times (five for an Atlas URI, three otherwise), stops at the first
  ping that succeeds, and sleeps exactly once between two pings, never
  after the last.  It ends without error exactly when one of the
  first [maxRetries] pings succeeds; otherwise the error it reports is
  that of the last ping. *)
Theorem ping_with_retries_bounded (uri : string) (Ping : nat → option error) :
  let r := ping_with_retries uri Ping in
  (1 ≤ pings r ≤ maxRetries uri)%nat ∧
  sleeps r = (pings r - 1)%nat ∧
  (last_err r = None ↔ ∃ k, (k < maxRetries uri)%nat ∧ Ping k = None) ∧
  (∀ k, (k < maxRetries uri)%nat → Ping k = None → (∀ j, (j < k)%nat → Ping j ≠ None) →
        pings r = S k) ∧
  (last_err r ≠ None →
     pings r = maxRetries uri ∧ last_err r = Ping (maxRetries uri - 1)%nat).
Proof.
  intros r. unfold r, ping_with_retries.
  assert (Hmax : (0 < maxRetries uri)%nat)
    by (unfold maxRetries; destruct (isAtlasURI uri); lia).
  destruct (ping_loop_spec Ping (maxRetries uri) (maxRetries uri) 0 0 None)
    as [(k & Hk & Hok & Hbefore & Hpings & Hsleeps & Hlast)|(Hall & Hpings & Hsleeps & Hlast)];
    try lia.
  - rewrite Hpings, Hsleeps, Hlast. split; [lia|]. split; [lia|]. split; [|split].
    + split; [|reflexivity]. intros _. exists k. split; [lia | exact Hok].
    + intros k' Hk' Hok' Hbefore'. f_equal.
      destruct (Nat.lt_trichotomy k k') as [Hlt|[Heq|Hgt]]; [|exact Heq|].
      * exfalso. apply (Hbefore' k Hlt), Hok.
      * exfalso. apply (Hbefore k'); [lia | exact Hok'].
    + intros Hne. contradiction.
  - destruct (Hlast Hmax) as [Hlast1 Hlast2].
    rewrite Hpings, Hsleeps. split; [lia|]. split; [reflexivity|]. split; [|split].
    + split; [intros Hn; contradiction|].
      intros (k & Hk & Hok). exfalso. apply (Hall k); [lia | exact Hok].
    + intros k Hk Hok _. exfalso. apply (Hall k); [lia | exact Hok].
    + intros _. split; [reflexivity | exact Hlast1].
Qed.

Lemma ping_with_retries_bounded_third_try :
  pings (ping_with_retries "mongodb://localhost:27017"
           (λ i, if (i <? 2)%nat then Some "server selection timeout" else None)) = 3%nat.
Proof.
  apply (proj1 (proj2 (proj2 (proj2 (ping_with_retries_bounded "mongodb://localhost:27017"
           (λ i, if (i <? 2)%nat then Some "server selection timeout" else None))))) 2%nat).
  - vm_compute. lia.
  - reflexivity.
  - intros j Hj. destruct j as [|[|j]]; [discriminate | discriminate | lia].
Defined.

End ConnectionTest.

(** ** Runs of the scheduler loop *)

Section SchedulerRuns.

Implicit Types (ms : MonitorService) (wsHub : WebSocketHub) (monitor : Monitor).

Lemma sink_db_fault ms monitor status code rt err now :
  fault (db (sink_db ms monitor status code rt err now)) = fault (db ms).
Proof.
  unfold sink_db, InsertMetric, updateMonitorStatus, UpdateStatusByID.
  destruct (fault (db ms)) eqn:Hf; simpl; rewrite ?Hf; simpl; rewrite ?Hf; reflexivity.
Qed.

Lemma queued_nil wsHub : closed (Broadcast wsHub) = false → queued wsHub [] = wsHub.
Proof.
  destruct wsHub as [cl [b n c] ob]. unfold queued, with_Broadcast. simpl.
  intros ->. rewrite app_nil_r. reflexivity.
Qed.

Lemma queued_queued wsHub l k : queued (queued wsHub l) k = queued wsHub (l ++ k).
Proof. unfold queued, with_Broadcast. simpl. rewrite app_assoc. reflexivity. Qed.

(** A probe that finds a free slot and room in the hub's queue returns:
    the slot is given back, one update event of the monitor is queued,
    and a store that answers has one more metric of the monitor. *)
Lemma checkEndpoint_returns ms wsHub monitor (outcome : ProbeOutcome) (now : Time) :
  closed (semaphore ms) = false → full (semaphore ms) = false →
  closed (Broadcast wsHub) = false → full (Broadcast wsHub) = false →
  ∃ ms' e,
    checkEndpoint ms wsHub monitor outcome now = Returns (ms', queued wsHub [e]) ∧
    semaphore ms' = semaphore ms ∧ update_of monitor e ∧
    fault (db ms') = fault (db ms) ∧
    (fault (db ms) = None →
       ∃ metric, metrics (db ms') = metrics (db ms) ++ [metric] ∧
                 MonitorID metric = ID monitor).
Proof.
  intros Hsc Hsf Hbc Hbf.
  pose proof (checkEndpoint_acquired ms wsHub monitor outcome now Hsc Hsf) as Hrun.
  cbv zeta in Hrun. destruct (classify outcome) as [[[status code] rt] err].
  rewrite Hrun, (recordMetric_room _ _ _ _ _ _ _ _ Hbc Hbf).
  eexists _, _. split; [reflexivity|]. split; [|split; [|split]].
  - apply release_after_acquire; [|exact Hsc]. rewrite sink_db_registry. reflexivity.
  - split; reflexivity.
  - change (db (release ?m)) with (db m). rewrite sink_db_fault. reflexivity.
  - intros Hf. change (db (release ?m)) with (db m).
    exists (metric_of monitor status code rt err now). split; [|reflexivity].
    apply (sink_db_metrics (with_semaphore ms _) monitor status code rt err now Hf).
Qed.

(** The loop takes one ticker case after the other while there is room
    for the events. *)
Lemma job_loop_ticks monitor (ticks : list (ProbeOutcome * Time)) :
  ∀ ms wsHub,
  closed (semaphore ms) = false → full (semaphore ms) = false →
  closed (Broadcast wsHub) = false →
  (length (buf (Broadcast wsHub)) + length ticks ≤ cap (Broadcast wsHub))%nat →
  ∃ ms' events,
    (∀ (rest : list SelectCase) (done : list Call),
       job_loop ms wsHub monitor (tick_cases ticks ++ rest) done =
         job_loop ms' (queued wsHub events) monitor rest
           (done ++ replicate (length ticks) (Call_checkEndpoint monitor))) ∧
    semaphore ms' = semaphore ms ∧
    length events = length ticks ∧ Forall (update_of monitor) events ∧
    fault (db ms') = fault (db ms) ∧
    (fault (db ms) = None →
       ∃ new, metrics (db ms') = metrics (db ms) ++ new ∧
              length new = length ticks ∧
              Forall (λ m, MonitorID m = ID monitor) new).
Proof.
  induction ticks as [|[outcome now] ticks IH]; intros ms wsHub Hsc Hsf Hbc Hroom.
  - exists ms, []. rewrite (queued_nil _ Hbc).
    split; [intros rest done; simpl; rewrite app_nil_r; reflexivity|].
    split; [reflexivity|]. split; [reflexivity|].
    split; [constructor|]. split; [reflexivity|].
    intros _. exists []. rewrite app_nil_r.
    split; [reflexivity|]. split; [reflexivity | constructor].
  - cbn [length] in Hroom.
    assert (Hbf : full (Broadcast wsHub) = false)
      by (unfold full; apply Nat.leb_gt; lia).
    destruct (checkEndpoint_returns ms wsHub monitor outcome now Hsc Hsf Hbc Hbf)
      as (ms1 & e & Hrun & Hsem & He & Hfault & Hmet).
    destruct (IH ms1 (queued wsHub [e]))
      as (ms' & events & Hloop & Hsem' & Hlen & Hev & Hfault' & Hmet').
    + rewrite Hsem. exact Hsc.
    + rewrite Hsem. exact Hsf.
    + reflexivity.
    + simpl. rewrite length_app. simpl. lia.
    + exists ms', (e :: events). split; [|split; [|split; [|split; [|split]]]].
      * intros rest done. cbn [tick_cases fmap list_fmap app fst snd job_loop].
        change (list_fmap _ _ (λ p, TickerC p.1 p.2) ticks) with (tick_cases ticks).
        rewrite Hrun, Hloop, queued_queued, <- app_assoc. reflexivity.
      * congruence.
      * simpl. congruence.
      * constructor; assumption.
      * congruence.
      * intros Hf. destruct (Hmet Hf) as (metric & Hm & Hid).
        destruct Hmet' as (new & Hnew & Hlen' & Hall); [congruence|].
        exists (metric :: new). rewrite Hnew, Hm, <- app_assoc.
        split; [reflexivity|]. split; [simpl; congruence|]. constructor; assumption.
Qed.

(** Once the ticker is made, the initial check is a probe like the one
    of a ticker case. *)
Lemma job_goroutine_as_loop ms wsHub monitor (first : ProbeOutcome * Time)
    (wakeups : list SelectCase) (d : Z) :
  NewTicker (Int64.mul (Interval monitor) Second) = Some d →
  job_goroutine ms wsHub monitor first wakeups =
    job_loop ms wsHub monitor (TickerC first.1 first.2 :: wakeups) [].
Proof.
  intros Ht. unfold job_goroutine. rewrite Ht. cbn [job_loop].
  destruct (checkEndpoint _ _ _ _ _) as [[ms' h']|[ms' h']|]; reflexivity.
Qed.



(** X25. The goroutine of a monitor whose interval is at least one second
  (and fits in a [time.Duration]), run against a semaphore and a hub
  that are open.  With a free slot and room in the hub's queue for
  every probe, it probes once before it waits and once for each
  ticker case it takes, and at the first stop case it returns without
  another probe, whatever follows; until then it is parked in the
  [select].  Each probe has given its slot back and has queued one
  update event of the monitor, and a store that answers has one metric
  of the monitor more for each.  With no free slot, or with a slot but
  a full queue, the goroutine is parked inside its first probe and
  takes no case of the [select], the stop case included. *)
Theorem job_goroutine_probes ms wsHub monitor (first : ProbeOutcome * Time)
    (ticks : list (ProbeOutcome * Time)) :
  1 <= Interval monitor <= 9223372036 →
  closed (semaphore ms) = false → closed (Broadcast wsHub) = false →
  (full (semaphore ms) = false →
   (length (buf (Broadcast wsHub)) + S (length ticks) ≤ cap (Broadcast wsHub))%nat →
   ∃ ms' events,
     (∀ rest, job_goroutine ms wsHub monitor first (tick_cases ticks ++ StopChan :: rest) =
        Returned ms' (queued wsHub events)
          (replicate (S (length ticks)) (Call_checkEndpoint monitor)
             ++ [Log_stopped; Ticker_Stop])) ∧
     job_goroutine ms wsHub monitor first (tick_cases ticks) =
       InSelect ms' (queued wsHub events)
         (replicate (S (length ticks)) (Call_checkEndpoint monitor)) ∧
     semaphore ms' = semaphore ms ∧
     length events = S (length ticks) ∧ Forall (update_of monitor) events ∧
     (fault (db ms) = None →
        ∃ new, metrics (db ms') = metrics (db ms) ++ new ∧
               length new = S (length ticks) ∧
               Forall (λ m, MonitorID m = ID monitor) new)) ∧
  (full (semaphore ms) = true →
   ∀ wakeups, job_goroutine ms wsHub monitor first wakeups = InProbe ms wsHub []) ∧
  (full (semaphore ms) = false → full (Broadcast wsHub) = true →
   ∃ ms', length (buf (semaphore ms')) = S (length (buf (semaphore ms))) ∧
     ∀ wakeups, job_goroutine ms wsHub monitor first wakeups = InProbe ms' wsHub []).
Proof.
  intros HI Hsc Hbc. pose proof (ticker_period monitor HI) as Ht. split; [|split].
  - intros Hsf Hroom.
    destruct (job_loop_ticks monitor (first :: ticks) ms wsHub Hsc Hsf Hbc)
      as (ms' & events & Hloop & Hsem & Hlen & Hev & _ & Hmet).
    { cbn [length]. lia. }
    exists ms', events.
    split; [|split; [|split; [|split; [|split]]]];
      [| | exact Hsem | exact Hlen | exact Hev | exact Hmet].
    + intros rest. rewrite (job_goroutine_as_loop _ _ _ _ _ _ Ht).
      apply (Hloop (StopChan :: rest) []).
    + rewrite (job_goroutine_as_loop _ _ _ _ _ _ Ht).
      rewrite <- (app_nil_r (tick_cases ticks)). apply (Hloop [] []).
  - intros Hfull wakeups. unfold job_goroutine, checkEndpoint.
    rewrite Ht, (send_now_full _ _ Hsc Hfull). reflexivity.
  - intros Hsf Hbf. destruct first as [outcome now].
    pose proof (checkEndpoint_acquired ms wsHub monitor outcome now Hsc Hsf) as Hrun.
    cbv zeta in Hrun. destruct (classify outcome) as [[[status code] rt] err].
    eexists. split; [|intros wakeups; unfold job_goroutine; cbn [fst snd];
      rewrite Ht, Hrun, (recordMetric_saturated _ _ _ _ _ _ _ _ Hbc Hbf); reflexivity].
    rewrite sink_db_registry. simpl. rewrite length_app. simpl. lia.
Qed.

Lemma job_goroutine_probes_two_ticks :
  ∃ ms' events,
    job_goroutine ms0 NewWebSocketHub monitor0 (Response 200 12, 1000)
      (tick_cases [(Response 500 3, 6000); (TransportError "timeout" 2000, 11000)]
         ++ [StopChan; TickerC (Response 200 12) 16000])
      = Returned ms' (queued NewWebSocketHub events)
          [Call_checkEndpoint monitor0; Call_checkEndpoint monitor0;
           Call_checkEndpoint monitor0; Log_stopped; Ticker_Stop] ∧
    length events = 3%nat ∧
    length (metrics (db ms')) = 3%nat ∧
    semaphore ms' = semaphore ms0 ∧
    ∃ ms2, job_goroutine ms0 hub_saturated monitor0 (Response 200 12, 1000) [StopChan]
           = InProbe ms2 hub_saturated [].
Proof.
  destruct (job_goroutine_probes ms0 NewWebSocketHub monitor0 (Response 200 12, 1000)
              [(Response 500 3, 6000); (TransportError "timeout" 2000, 11000)]
              ltac:(simpl; lia) eq_refl eq_refl) as (Hrun & _ & _).
  destruct (job_goroutine_probes ms0 hub_saturated monitor0 (Response 200 12, 1000) []
              ltac:(simpl; lia) eq_refl eq_refl) as (_ & _ & Hstuck).
  destruct (Hrun eq_refl ltac:(simpl; lia))
    as (ms' & events & Hret & _ & Hsem & Hlen & _ & Hmet).
  destruct (Hmet eq_refl) as (new & Hnew & Hlen' & _).
  destruct (Hstuck eq_refl eq_refl) as (ms2 & _ & Hpark).
  exists ms', events. split; [apply Hret|]. split; [exact Hlen|].
  split; [rewrite Hnew; simpl; exact Hlen'|]. split; [exact Hsem|].
  exists ms2. apply Hpark.
Defined.

End SchedulerRuns.
